(** * vocaboost: the offline dataset and training tools, verified

    A shallow embedding of [regenerate_dataset.py] (example-sentence
    generation and the dataset writer) and of the embedding and similarity
    steps of the training scripts under [training/], followed by the
    properties the specification states about them.

    Conventions of the embedding.
    - A Python [str] is a Rocq [string]; text is taken from the ASCII
      repertoire, so [str.lower] and [str.upper] act on the 26 letters and
      the white space of [str.strip] and [str.split()] is the ASCII one.
    - A value read from JSON is a [pyval]; an operation a value does not
      support raises, as in Python.
    - Code that can raise lives in the [result] monad; code that also touches
      the file system or the clock lives in the [io] monad over a [world].
    - A [dict] whose order matters is an insertion-ordered association list
      ([pydict]); the file system is a [gmap] from paths to files. *)

From Stdlib Require Import Ascii QArith Sorted Permutation.
From stdpp Require Import base option list sorting strings pretty gmap.

Set Default Proof Using "Type".

(** ** Python strings *)

Module Py.

Definition code (c : ascii) : N := N_of_ascii c.

Definition is_upper (c : ascii) : bool := (65 <=? code c)%N && (code c <=? 90)%N.
Definition is_lower (c : ascii) : bool := (97 <=? code c)%N && (code c <=? 122)%N.

Definition lower_char (c : ascii) : ascii :=
  if is_upper c then ascii_of_N (code c + 32) else c.
Definition upper_char (c : ascii) : ascii :=
  if is_lower c then ascii_of_N (code c - 32) else c.

(** [s.lower()] and [s.upper()] *)
Fixpoint lower (s : string) : string :=
  match s with
  | EmptyString => EmptyString
  | String c s' => String (lower_char c) (lower s')
  end.

Fixpoint upper (s : string) : string :=
  match s with
  | EmptyString => EmptyString
  | String c s' => String (upper_char c) (upper s')
  end.

(** [s.capitalize()]: first character upper-cased, the rest lower-cased *)
Definition capitalize (s : string) : string :=
  match s with
  | EmptyString => EmptyString
  | String c s' => String (upper_char c) (lower s')
  end.

(** White space of [str.isspace]: TAB, LF, VT, FF, CR, FS, GS, RS, US, SPACE *)
Definition is_space (c : ascii) : bool :=
  ((9 <=? code c)%N && (code c <=? 13)%N)
  || ((28 <=? code c)%N && (code c <=? 32)%N).

Fixpoint lstrip (s : string) : string :=
  match s with
  | EmptyString => EmptyString
  | String c s' => if is_space c then lstrip s' else s
  end.

Fixpoint rstrip (s : string) : string :=
  match s with
  | EmptyString => EmptyString
  | String c s' =>
      match rstrip s' with
      | EmptyString => if is_space c then EmptyString else String c EmptyString
      | r => String c r
      end
  end.

(** [s.strip()] *)
Definition strip (s : string) : string := rstrip (lstrip s).

(** [s.startswith(p)], [s.endswith(p)], [p in s] for strings *)
Definition startswith (s p : string) : bool := String.prefix p s.

Fixpoint contains (p s : string) : bool :=
  String.prefix p s ||
  match s with
  | EmptyString => false
  | String _ s' => contains p s'
  end.

Definition endswith (s p : string) : bool :=
  String.prefix (String.rev p) (String.rev s).

(** [s[n:]] and [s[:-1]] *)
Fixpoint drop (n : nat) (s : string) : string :=
  match n, s with
  | O, _ => s
  | S _, EmptyString => EmptyString
  | S n', String _ s' => drop n' s'
  end.

Fixpoint init (s : string) : string :=
  match s with
  | EmptyString => EmptyString
  | String c EmptyString => EmptyString
  | String c s' => String c (init s')
  end.

(** [s.split(sep)] for a one-character separator: never the empty list *)
Fixpoint split_on (sep : ascii) (s : string) : list string :=
  match s with
  | EmptyString => [EmptyString]
  | String c s' =>
      if Ascii.eqb c sep then EmptyString :: split_on sep s'
      else match split_on sep s' with
           | [] => [String c EmptyString]
           | w :: ws => String c w :: ws
           end
  end.

(** [s.split()]: maximal runs of characters that are not white space *)
Fixpoint words_go (cur : option string) (s : string) : list string :=
  match s with
  | EmptyString => option_list (String.rev <$> cur)
  | String c s' =>
      if is_space c
      then option_list (String.rev <$> cur) ++ words_go None s'
      else words_go (Some (String c (default EmptyString cur))) s'
  end.

Definition split (s : string) : list string := words_go None s.

(** [s.replace(old, '')] for a non-empty [old]: occurrences are removed from
    left to right and do not overlap; [skip] counts the characters of the
    occurrence being removed that are still to be dropped. *)
Fixpoint remove_go (old : string) (skip : nat) (s : string) : string :=
  match s with
  | EmptyString => EmptyString
  | String c s' =>
      match skip with
      | S k => remove_go old k s'
      | O => if String.prefix old s
             then remove_go old (String.length old - 1) s'
             else String c (remove_go old 0 s')
      end
  end.

Definition remove_all (old s : string) : string := remove_go old 0 s.

(** [x in [a, b, ...]] on strings *)
Definition mem (x : string) (l : list string) : bool :=
  existsb (String.eqb x) l.

(** [any(v in s for v in l)] *)
Definition any_in (l : list string) (s : string) : bool :=
  existsb (fun v => contains v s) l.

(** [bool(s)] for a string: true when it is not empty *)
Definition nonempty (s : string) : bool :=
  match s with EmptyString => false | _ => true end.

(** The characters of a string, each as a one-character string *)
Fixpoint chars (s : string) : list string :=
  match s with
  | EmptyString => []
  | String c s' => String c EmptyString :: chars s'
  end.

(** ** Values, exceptions and the error monad *)

(** A scalar read from JSON. *)
Inductive pyval :=
  | VNone
  | VBool (b : bool)
  | VInt (n : Z)
  | VStr (s : string).

(** [bool(v)] *)
Definition truthy (v : pyval) : bool :=
  match v with
  | VNone => false
  | VBool b => b
  | VInt n => negb (n =? 0)%Z
  | VStr s => nonempty s
  end.

Inductive exn :=
  | AttributeError
  | NameError (name : string)
  | IndexError
  | KeyError (key : string)
  | ValueError
  | FileNotFoundError (path : string)
  | PermissionError (path : string).

Inductive result (A : Type) :=
  | Ok (a : A)
  | Raise (e : exn).
Arguments Ok {A} a.
Arguments Raise {A} e.

Definition is_ok {A} (r : result A) : bool :=
  match r with Ok _ => true | Raise _ => false end.

#[global] Instance result_ret : MRet result := fun A a => Ok a.
#[global] Instance result_bind : MBind result := fun A B f r =>
  match r with
  | Ok a => f a
  | Raise e => Raise e
  end.
#[global] Instance result_fmap : FMap result := fun A B f r =>
  match r with
  | Ok a => Ok (f a)
  | Raise e => Raise e
  end.

(** [try: body except Exception: handler] *)
Definition try_except {A} (body : result A) (handler : exn -> result A) : result A :=
  match body with
  | Ok a => Ok a
  | Raise e => handler e
  end.

(** [l[i]] with Python's negative indices; out of range raises [IndexError] *)
Definition item {A} (l : list A) (i : Z) : result A :=
  let n := Z.of_nat (length l) in
  let j := if (i <? 0)%Z then (i + n)%Z else i in
  if ((0 <=? j) && (j <? n))%Z
  then match l !! Z.to_nat j with
       | Some x => Ok x
       | None => Raise IndexError
       end
  else Raise IndexError.

(** [s[i]] *)
Definition char_at (s : string) (i : Z) : result string := item (chars s) i.

(** A string method called on a value: only a [str] has it *)
Definition as_str (v : pyval) : result string :=
  match v with
  | VStr s => Ok s
  | _ => Raise AttributeError
  end.

(** ** Insertion-ordered dictionaries *)

(** A [dict] with string keys, in insertion order. *)
Abbreviation pydict V := (list (string * V)).

(** [d[k] = v]: an existing key keeps its place and takes the new value, a
    new key goes last *)
Fixpoint dict_set {V} (k : string) (v : V) (d : pydict V) : pydict V :=
  match d with
  | [] => [(k, v)]
  | (k', v') :: d' =>
      if String.eqb k' k then (k', v) :: d' else (k', v') :: dict_set k v d'
  end.

(** [d.get(k)] *)
Fixpoint dict_get {V} (d : pydict V) (k : string) : option V :=
  match d with
  | [] => None
  | (k', v') :: d' => if String.eqb k' k then Some v' else dict_get d' k
  end.

(** [d[k]] *)
Definition dict_item {V} (d : pydict V) (k : string) : result V :=
  match dict_get d k with
  | Some v => Ok v
  | None => Raise (KeyError k)
  end.

(** [list(d.keys())] *)
Definition keys {V} (d : pydict V) : list string := d.*1.

(** [{k: v for k, v in l}] *)
Definition dict_of_list {V} (l : list (string * V)) : pydict V :=
  foldl (fun d kv => dict_set kv.1 kv.2 d) [] l.

End Py.

Import Py.

(** ** regenerate_dataset.py: the example generator *)

Module Regenerate.

(** [get_base_form]: the lower-cased word without the first prefix of the
    list that it starts with *)
Definition prefixes : list string :=
  ["mo"; "nag"; "gi"; "mag"; "na"; "ka"; "maka"; "maka-"].

Fixpoint strip_first_prefix (ps : list string) (word_lower : string) : string :=
  match ps with
  | [] => word_lower
  | prefix :: ps' =>
      if Py.startswith word_lower prefix
      then Py.drop (String.length prefix) word_lower
      else strip_first_prefix ps' word_lower
  end.

Definition get_base_form (word : string) : string :=
  strip_first_prefix prefixes (Py.lower word).

(** One example: (Bisaya sentence, English translation, Tagalog translation) *)
Definition example : Type := string * string * string.

(** (beginner, intermediate, advanced) *)
Definition examples : Type := example * example * example.


(** [make_example], the helper nested in [generate_examples] *)
Definition make_example (bisaya_sent english_sent tagalog_sent : string) : example :=
  (bisaya_sent, english_sent, if Py.nonempty tagalog_sent then tagalog_sent else "").

(** The branch of the cascade that produced the examples. This label is not
    in the source: it records which [if]/[elif] arm was taken, [Fixed] when
    the arm holds three literal sentences and [Template] when it builds them
    from the entry, and lets the theorems speak about arms. *)
Inductive family :=
  | Greeting | Verb | Noun | Adjective | Number | Time | Question | Default.

Inductive rule :=
  | Fixed (f : family) (key : string)
  | Template (f : family) (key : string).

Definition fixed (f : family) (key : string) (beginner intermediate advanced : example)
  : result (rule * examples) :=
  mret (Fixed f key, (beginner, intermediate, advanced)).

Definition template (f : family) (key : string) (beginner intermediate advanced : example)
  : result (rule * examples) :=
  mret (Template f key, (beginner, intermediate, advanced)).

(** [x.split(sep)[0]] *)
Definition head_of (sep : ascii) (x : string) : result string :=
  Py.item (Py.split_on sep x) 0.

(** [x.split()[-1] if len(x.split()) > 1 else ""] *)
Definition last_word (x : string) : result string :=
  if (1 <? length (Py.split x))%nat then Py.item (Py.split x) (-1) else mret "".

(** The past tense of the generic verb arm, the [if]/[elif] on
    [english_verb] under [# Get past tense]. The third test is
    [len(v) > 1 and v[-1] not in 'aeiou' and v[-2] in 'aeiou'], evaluated
    from left to right and stopping at the first false operand. *)
Definition past_tense_of (english_verb : string) : result string :=
  if Py.endswith english_verb "e" then mret (english_verb +:+ "d")
  else if Py.endswith english_verb "y" then mret (Py.init english_verb +:+ "ied")
  else
    doubling ←
      (if (1 <? String.length english_verb)%nat then
         c1 ← Py.char_at english_verb (-1);
         if negb (Py.contains c1 "aeiou") then
           c2 ← Py.char_at english_verb (-2);
           mret (Py.contains c2 "aeiou")
         else mret false
       else mret false);
    if doubling : bool then
      c1 ← Py.char_at english_verb (-1);
      mret (english_verb +:+ c1 +:+ "ed")
    else mret (english_verb +:+ "ed").

(** The body of [generate_examples] from its first [if] on, for string
    arguments; [tagalog] is the empty string when the entry has none. *)
Definition generate_examples_rule (bisaya tagalog english pos : string)
  : result (rule * examples) :=
  let bisaya_lower := Py.lower bisaya in
  let english_lower := Py.lower english in
  let pos_lower := Py.lower pos in
  let is_phrase := Py.contains " " bisaya in
  (* Greeting *)
  if Py.mem pos_lower ["greeting"; "expression"; "response"] then
    if Py.contains "kumusta" bisaya_lower then
      fixed Greeting "kumusta"
        (make_example "Kumusta ka?" "How are you?" "Kumusta ka?")
        (make_example "Kumusta na ka karon?" "How are you now?" "Kumusta ka na ngayon?")
        (make_example "Kumusta na ka? Maayo ra ba?"
           "How are you? Are you doing well?" "Kumusta ka na? Mabuti ba?")
    else if Py.contains "maayong" bisaya_lower then
      e0 ← head_of "/" english;
      let eng_clean := Py.strip e0 in
      let tag_clean := if Py.nonempty tagalog then tagalog else "" in
      bisaya_last ← last_word bisaya;
      eng_last ← last_word eng_clean;
      template Greeting "maayong"
        (make_example (bisaya +:+ ".")
           (eng_clean +:+ ".") (if Py.nonempty tag_clean then (tag_clean +:+ ".") else ""))
        (make_example ("Maayong " +:+ bisaya_last +:+ " sa tanan!")
           ("Good " +:+ eng_last +:+ " to everyone!")
           (if Py.nonempty tag_clean then (tag_clean +:+ " sa lahat!") else ""))
        (make_example ("Maayong " +:+ bisaya_last +:+ "! Kumusta ang imong adlaw?")
           ("Good " +:+ eng_last +:+ "! How is your day?")
           (if Py.nonempty tag_clean then (tag_clean +:+ "! Kumusta ang iyong araw?") else ""))
    else if Py.contains "salamat" bisaya_lower then
      fixed Greeting "salamat"
        (make_example "Salamat." "Thank you." "Salamat.")
        (make_example "Daghang salamat sa imong tabang."
           "Thank you very much for your help." "Maraming salamat sa iyong tulong.")
        (make_example "Daghang salamat kaayo sa tanan nga imong nahimo."
           "Thank you very much for everything you did."
           "Maraming salamat sa lahat ng iyong ginawa.")
    else if Py.contains "palihug" bisaya_lower then
      fixed Greeting "palihug"
        (make_example "Palihug." "Please." "Pakiusap.")
        (make_example "Palihug, tabangi ko." "Please, help me." "Pakiusap, tulungan mo ako.")
        (make_example "Palihug, mahimo ba nimo ko tabangan karon?"
           "Please, can you help me now?" "Pakiusap, maaari mo ba akong tulungan ngayon?")
    else if Py.contains "pasaylo" bisaya_lower then
      fixed Greeting "pasaylo"
        (make_example "Pasaylo." "Sorry." "Paumanhin.")
        (make_example "Pasaylo sa akong nahimo."
           "Sorry for what I did." "Paumanhin sa aking ginawa.")
        (make_example "Pasaylo kaayo sa tanan nga kasaypanan."
           "I am very sorry for all the mistakes." "Paumanhin sa lahat ng pagkakamali.")
    else if Py.mem bisaya_lower ["oo"; "yes"] then
      fixed Greeting "oo"
        (make_example "Oo." "Yes." "Oo.")
        (make_example "Oo, gusto ko." "Yes, I want to." "Oo, gusto ko.")
        (make_example "Oo, sigurado ko nga gusto ko."
           "Yes, I am sure I want to." "Oo, sigurado ako na gusto ko.")
    else if Py.mem bisaya_lower ["dili"; "no"] then
      fixed Greeting "dili"
        (make_example "Dili." "No." "Hindi.")
        (make_example "Dili ko gusto." "I don't want to." "Ayaw ko.")
        (make_example "Dili ko gusto nga moadto didto."
           "I don't want to go there." "Ayaw kong pumunta doon.")
    else
      e0 ← head_of "/" english;
      e1 ← head_of "(" e0;
      let eng_clean := Py.strip e1 in
      let tag_clean := if Py.nonempty tagalog then tagalog else "" in
      template Greeting ""
        (make_example (bisaya +:+ ".")
           (eng_clean +:+ ".") (if Py.nonempty tag_clean then (tag_clean +:+ ".") else ""))
        (make_example (bisaya +:+ ", mahimo ba?")
           (eng_clean +:+ ", is it possible?")
           (if Py.nonempty tag_clean then (tag_clean +:+ ", posible ba?") else ""))
        (make_example (bisaya +:+ ", mahimo ba nimo ko tabangan?")
           (eng_clean +:+ ", can you help me?")
           (if Py.nonempty tag_clean then (tag_clean +:+ ", maaari mo ba akong tulungan?") else ""))
  (* Verb *)
  else if Py.contains "verb" pos_lower || Py.any_in ["mokaon"; "matulog"; "mobasa"; "mosulat"; "mopalit"] bisaya_lower then
    let base := get_base_form bisaya in
    if Py.contains "kaon" bisaya_lower || Py.contains "eat" english_lower then
      fixed Verb "kaon"
        (make_example "Gusto ko mokaon." "I want to eat." "Gusto kong kumain.")
        (make_example "Nakaon na ba ka?" "Have you eaten already?" "Kumain ka na ba?")
        (make_example "Gikaon nako ang tinapay ganina."
           "I ate the bread earlier." "Kumain ako ng tinapay kanina.")
    else if Py.contains "tulog" bisaya_lower || Py.contains "sleep" english_lower then
      fixed Verb "tulog"
        (make_example "Gusto ko matulog." "I want to sleep." "Gusto kong matulog.")
        (make_example "Natulog na ba ka?" "Have you slept already?" "Natulog ka na ba?")
        (make_example "Kinahanglan nga matulog ka aron makapahuway."
           "You need to sleep to rest." "Kailangan mong matulog para makapahinga.")
    else if Py.contains "basa" bisaya_lower || Py.contains "read" english_lower then
      fixed Verb "basa"
        (make_example "Gusto ko mobasa." "I want to read." "Gusto kong magbasa.")
        (make_example "Nagbasa ko ug libro." "I am reading a book." "Nagbabasa ako ng libro.")
        (make_example "Gibasa nako ang libro ganina."
           "I read the book earlier." "Binasa ko ang libro kanina.")
    else if Py.contains "sulat" bisaya_lower || Py.contains "write" english_lower then
      fixed Verb "sulat"
        (make_example "Gusto ko mosulat." "I want to write." "Gusto kong sumulat.")
        (make_example "Nagsulat ko ug sulat." "I am writing a letter." "Nagsusulat ako ng sulat.")
        (make_example "Gisulat nako ang sulat kagahapon."
           "I wrote the letter yesterday." "Sinulat ko ang sulat kahapon.")
    else if Py.contains "palit" bisaya_lower || Py.contains "buy" english_lower then
      fixed Verb "palit"
        (make_example "Gusto ko mopalit." "I want to buy." "Gusto kong bumili.")
        (make_example "Mopalit ko ug tinapay." "I will buy bread." "Bibili ako ng tinapay.")
        (make_example "Gipalit nako ang tinapay sa tindahan."
           "I bought the bread at the store." "Binili ko ang tinapay sa tindahan.")
    else if Py.contains "lakaw" bisaya_lower || Py.contains "walk" english_lower then
      fixed Verb "lakaw"
        (make_example "Gusto ko molakaw." "I want to walk." "Gusto kong maglakad.")
        (make_example "Naglakaw ko sa dalan."
           "I am walking on the road." "Naglalakad ako sa kalsada.")
        (make_example "Naglakaw ko gikan sa balay padulong sa eskwelahan."
           "I walked from home to school." "Naglalakad ako mula sa bahay papunta sa paaralan.")
    else if Py.contains "dagan" bisaya_lower || Py.contains "run" english_lower then
      fixed Verb "dagan"
        (make_example "Gusto ko modagan." "I want to run." "Gusto kong tumakbo.")
        (make_example "Nagdagan ko sa parke." "I am running in the park." "Tumatakbo ako sa parke.")
        (make_example "Nagdagan ko aron makab-ot ang bus."
           "I ran to catch the bus." "Tumakbo ako para mahabol ang bus.")
    else if Py.contains "adto" bisaya_lower || Py.contains "go" english_lower then
      fixed Verb "adto"
        (make_example "Moadto ko." "I will go." "Pupunta ako.")
        (make_example "Moadto ko sa balay." "I will go to the house." "Pupunta ako sa bahay.")
        (make_example "Moadto ko sa balay sa akong higala."
           "I will go to my friend's house." "Pupunta ako sa bahay ng aking kaibigan.")
    else
      let base_verb :=
        if negb (String.eqb base bisaya_lower) then base
        else Py.remove_all "gi" (Py.remove_all "nag" (Py.remove_all "mag"
               (Py.remove_all "mo" bisaya_lower))) in
      e0 ← head_of "/" english;
      e1 ← head_of "(" e0;
      let english_verb := Py.lower (Py.strip e1) in
      past_tense ← past_tense_of english_verb;
      let tag_verb := if Py.nonempty tagalog then Py.lower tagalog else "" in
      template Verb ""
        (make_example ("Gusto ko mo" +:+ base_verb +:+ ".")
           ("I want to " +:+ english_verb +:+ ".")
           (if Py.nonempty tag_verb then ("Gusto kong " +:+ tag_verb +:+ ".") else ""))
        (make_example ("Mo" +:+ base_verb +:+ " ko karon.")
           ("I will " +:+ english_verb +:+ " now.")
           (if Py.nonempty tag_verb then (Py.capitalize tag_verb +:+ " ako ngayon.") else ""))
        (make_example ("Gi" +:+ base_verb +:+ " nako ang tanan ganina.")
           ("I " +:+ past_tense +:+ " everything earlier.")
           (if Py.nonempty tag_verb then (Py.capitalize tag_verb +:+ " ko ang lahat kanina.") else ""))
  (* Noun *)
  else if Py.contains "noun" pos_lower then
    if Py.contains "tubig" bisaya_lower || Py.contains "water" english_lower then
      fixed Noun "tubig"
        (make_example "Gusto ko ug tubig." "I want water." "Gusto ko ng tubig.")
        (make_example "Naa koy tubig sa balay." "I have water at home." "May tubig ako sa bahay.")
        (make_example "Gipalit nako ang tubig sa tindahan."
           "I bought the water at the store." "Binili ko ang tubig sa tindahan.")
    else if Py.contains "pagkaon" bisaya_lower || Py.contains "food" english_lower then
      fixed Noun "pagkaon"
        (make_example "Gusto ko ug pagkaon." "I want food." "Gusto ko ng pagkain.")
        (make_example "Naa koy pagkaon sa lamesa."
           "I have food on the table." "May pagkain ako sa mesa.")
        (make_example "Gipangandam nako ang pagkaon para sa tanan."
           "I prepared the food for everyone." "Inihanda ko ang pagkain para sa lahat.")
    else if Py.contains "balay" bisaya_lower || Py.contains "house" english_lower then
      fixed Noun "balay"
        (make_example "Naa koy balay." "I have a house." "May bahay ako.")
        (make_example "Ang balay kay dako." "The house is big." "Malaki ang bahay.")
        (make_example "Ang balay nga gipalit nako kay nindot kaayo."
           "The house I bought is very beautiful." "Ang bahay na binili ko ay napakaganda.")
    else if Py.contains "libro" bisaya_lower || Py.contains "book" english_lower then
      fixed Noun "libro"
        (make_example "Naa koy libro." "I have a book." "May libro ako.")
        (make_example "Nagbasa ko ug libro." "I am reading a book." "Nagbabasa ako ng libro.")
        (make_example "Ang libro nga gibasa nako kay nindot kaayo."
           "The book I read is very beautiful." "Ang libro na binasa ko ay napakaganda.")
    else if Py.contains "amahan" bisaya_lower || Py.contains "father" english_lower then
      fixed Noun "amahan"
        (make_example "Siya ang akong amahan." "He is my father." "Siya ang aking ama.")
        (make_example "Ang akong amahan kay maayo kaayo."
           "My father is very good." "Ang aking ama ay napakabuti.")
        (make_example "Ang akong amahan nga nagtrabaho sa opisina kay kusgan kaayo."
           "My father who works at the office is very strong."
           "Ang aking ama na nagtatrabaho sa opisina ay napakalakas.")
    else if Py.contains "inahan" bisaya_lower || Py.contains "mother" english_lower then
      fixed Noun "inahan"
        (make_example "Siya ang akong inahan." "She is my mother." "Siya ang aking ina.")
        (make_example "Ang akong inahan kay gwapa kaayo."
           "My mother is very beautiful." "Ang aking ina ay napakaganda.")
        (make_example "Ang akong inahan nga nagluto sa kusina kay maayo kaayo."
           "My mother who cooks in the kitchen is very good."
           "Ang aking ina na nagluluto sa kusina ay napakabuti.")
    else
      let english_lower_check := Py.lower english in
      e0 ← head_of "/" english;
      e1 ← head_of "(" e0;
      let english_clean := Py.lower (Py.strip e1) in
      if Py.contains "adlaw" bisaya_lower || (Py.contains "day" english_lower_check && Py.contains "sun" english_lower_check) then
        fixed Noun "adlaw"
          (make_example "Maayong adlaw." "Good day." "Magandang araw.")
          (make_example "Init kaayo ang adlaw karon."
             "The sun is very hot today." "Napakainit ng araw ngayon.")
          (make_example "Ang adlaw nga nag-init sa balay kay init kaayo."
             "The sun that heats the house is very hot."
             "Ang araw na nagpapainit sa bahay ay napakainit.")
      else if Py.contains "bulan" bisaya_lower || (Py.contains "month" english_lower_check && Py.contains "moon" english_lower_check) then
        fixed Noun "bulan"
          (make_example "Maayong bulan." "Good month." "Magandang buwan.")
          (make_example "Nindot kaayo ang bulan karon."
             "The moon is very beautiful tonight." "Napakaganda ng buwan ngayon.")
          (make_example "Ang bulan nga nagdan-ag sa dalan kay nindot kaayo."
             "The moon that lights the road is very beautiful."
             "Ang buwan na nagliliwanag sa kalsada ay napakaganda.")
      else
        let tag_clean := if Py.nonempty tagalog then Py.lower tagalog else "" in
        template Noun ""
          (make_example ("Gusto ko ug " +:+ bisaya +:+ ".")
             ("I want " +:+ english_clean +:+ ".")
             (if Py.nonempty tag_clean then ("Gusto ko ng " +:+ tag_clean +:+ ".") else ""))
          (make_example ("Naa koy " +:+ bisaya +:+ " sa balay.")
             ("I have " +:+ english_clean +:+ " at home.")
             (if Py.nonempty tag_clean then ("May " +:+ tag_clean +:+ " ako sa bahay.") else ""))
          (make_example ("Ang " +:+ bisaya +:+ " nga gipalit nako kay nindot kaayo.")
             ("The " +:+ english_clean +:+ " I bought is very beautiful.")
             (if Py.nonempty tag_clean then ("Ang " +:+ tag_clean +:+ " na binili ko ay napakaganda.") else ""))
  (* Adjective *)
  else if Py.contains "adjective" pos_lower || Py.contains "adj" pos_lower then
    if Py.contains "wala" bisaya_lower || Py.contains "none" english_lower || Py.contains "nothing" english_lower then
      fixed Adjective "wala"
        (make_example "Wala ko." "I have nothing." "Wala ako.")
        (make_example "Wala koy kwarta." "I have no money." "Wala akong pera.")
        (make_example "Wala koy kwarta nga magasto karon."
           "I have no money to spend now." "Wala akong pera na magagastos ngayon.")
    else if Py.contains "daghan" bisaya_lower || Py.contains "many" english_lower || Py.contains "much" english_lower then
      fixed Adjective "daghan"
        (make_example "Daghan kaayo." "A lot." "Marami.")
        (make_example "Daghan kaayo ang tawo." "There are many people." "Maraming tao.")
        (make_example "Daghan kaayo ang tawo nga nakaon sa restaurant."
           "There are many people eating at the restaurant."
           "Maraming tao na kumakain sa restaurant.")
    else if Py.contains "maayo" bisaya_lower || Py.contains "good" english_lower then
      fixed Adjective "maayo"
        (make_example "Maayo kaayo." "Very good." "Napakabuti.")
        (make_example "Ang pagkaon kay maayo kaayo."
           "The food is very good." "Napakasarap ng pagkain.")
        (make_example "Ang pagkaon nga gipangandam nako kay maayo kaayo sa tanan."
           "The food I prepared is very good for everyone."
           "Ang pagkain na inihanda ko ay napakasarap para sa lahat.")
    else if Py.contains "gwapa" bisaya_lower || (Py.contains "beautiful" english_lower && Py.contains "female" english_lower) then
      fixed Adjective "gwapa"
        (make_example "Gwapa kaayo." "Very beautiful." "Napakaganda.")
        (make_example "Ang babaye kay gwapa kaayo."
           "The woman is very beautiful." "Napakaganda ng babae.")
        (make_example "Ang babaye nga naglakaw sa dalan kay gwapa kaayo."
           "The woman walking on the road is very beautiful."
           "Ang babae na naglalakad sa kalsada ay napakaganda.")
    else if Py.contains "gwapo" bisaya_lower || Py.contains "handsome" english_lower then
      fixed Adjective "gwapo"
        (make_example "Gwapo kaayo." "Very handsome." "Napakagwapo.")
        (make_example "Ang lalaki kay gwapo kaayo."
           "The man is very handsome." "Napakagwapo ng lalaki.")
        (make_example "Ang lalaki nga naglakaw sa dalan kay gwapo kaayo."
           "The man walking on the road is very handsome."
           "Ang lalaki na naglalakad sa kalsada ay napakagwapo.")
    else if Py.contains "dako" bisaya_lower || Py.contains "big" english_lower then
      fixed Adjective "dako"
        (make_example "Dako kaayo." "Very big." "Napakalaki.")
        (make_example "Ang balay kay dako kaayo." "The house is very big." "Napakalaki ng bahay.")
        (make_example "Ang balay nga gipalit nako kay dako kaayo ug nindot."
           "The house I bought is very big and beautiful."
           "Ang bahay na binili ko ay napakalaki at napakaganda.")
    else if Py.contains "gamay" bisaya_lower || Py.contains "small" english_lower then
      fixed Adjective "gamay"
        (make_example "Gamay kaayo." "Very small." "Napakaliit.")
        (make_example "Ang bata kay gamay kaayo." "The child is very small." "Napakaliit ng bata.")
        (make_example "Ang bata nga nagdula sa parke kay gamay kaayo."
           "The child playing in the park is very small."
           "Ang bata na naglalaro sa parke ay napakaliit.")
    else if Py.contains "init" bisaya_lower || Py.contains "hot" english_lower then
      fixed Adjective "init"
        (make_example "Init kaayo." "Very hot." "Napakainit.")
        (make_example "Ang tubig kay init kaayo." "The water is very hot." "Napakainit ng tubig.")
        (make_example "Ang tubig nga gipainit nako kay init kaayo karon."
           "The water I heated is very hot now." "Ang tubig na pinainit ko ay napakainit ngayon.")
    else if Py.contains "bugnaw" bisaya_lower || Py.contains "cold" english_lower then
      fixed Adjective "bugnaw"
        (make_example "Bugnaw kaayo." "Very cold." "Napakalamig.")
        (make_example "Ang tubig kay bugnaw kaayo."
           "The water is very cold." "Napakalamig ng tubig.")
        (make_example "Ang tubig nga gikan sa gripo kay bugnaw kaayo."
           "The water from the faucet is very cold." "Ang tubig na galing sa gripo ay napakalamig.")
    else if Py.contains "tibuok" bisaya_lower || Py.contains "whole" english_lower || Py.contains "complete" english_lower then
      fixed Adjective "tibuok"
        (make_example "Tibuok ang libro." "The whole book." "Buong libro.")
        (make_example "Gibasa nako ang tibuok nga libro."
           "I read the whole book." "Binasa ko ang buong libro.")
        (make_example "Gibasa nako ang tibuok nga libro sulod sa usa ka adlaw."
           "I read the whole book within one day."
           "Binasa ko ang buong libro sa loob ng isang araw.")
    else if Py.contains "bahin" bisaya_lower || Py.contains "part" english_lower then
      fixed Adjective "bahin"
        (make_example "Bahin lang." "Just a part." "Bahagi lang.")
        (make_example "Gibasa nako ang bahin sa libro."
           "I read part of the book." "Binasa ko ang bahagi ng libro.")
        (make_example "Gibasa nako ang bahin sa libro nga importante."
           "I read the important part of the book." "Binasa ko ang mahalagang bahagi ng libro.")
    else if Py.contains "bag-o" bisaya_lower || Py.contains "new" english_lower then
      fixed Adjective "bag-o"
        (make_example "Bag-o kaayo." "Very new." "Napakabago.")
        (make_example "Ang libro kay bag-o kaayo." "The book is very new." "Napakabago ng libro.")
        (make_example "Ang libro nga gipalit nako kay bag-o kaayo ug nindot."
           "The book I bought is very new and beautiful."
           "Ang libro na binili ko ay napakabago at napakaganda.")
    else if Py.contains "karaan" bisaya_lower || Py.contains "old" english_lower then
      fixed Adjective "karaan"
        (make_example "Karaan kaayo." "Very old." "Napakaluma.")
        (make_example "Ang libro kay karaan kaayo." "The book is very old." "Napakaluma ng libro.")
        (make_example "Ang libro nga gikan sa library kay karaan kaayo."
           "The book from the library is very old." "Ang libro na galing sa library ay napakaluma.")
    else if Py.contains "taas" bisaya_lower || Py.contains "tall" english_lower || Py.contains "high" english_lower then
      fixed Adjective "taas"
        (make_example "Taas kaayo." "Very tall." "Napakataas.")
        (make_example "Ang tawo kay taas kaayo." "The person is very tall." "Napakataas ng tao.")
        (make_example "Ang tawo nga naglakaw sa dalan kay taas kaayo."
           "The person walking on the road is very tall."
           "Ang tao na naglalakad sa kalsada ay napakataas.")
    else if Py.contains "mubo" bisaya_lower || Py.contains "short" english_lower || Py.contains "low" english_lower then
      fixed Adjective "mubo"
        (make_example "Mubo kaayo." "Very short." "Napakababa.")
        (make_example "Ang tawo kay mubo kaayo." "The person is very short." "Napakababa ng tao.")
        (make_example "Ang tawo nga naglakaw sa dalan kay mubo kaayo."
           "The person walking on the road is very short."
           "Ang tao na naglalakad sa kalsada ay napakababa.")
    else if Py.contains "lapad" bisaya_lower || Py.contains "wide" english_lower then
      fixed Adjective "lapad"
        (make_example "Lapad kaayo." "Very wide." "Napakalapad.")
        (make_example "Ang dalan kay lapad kaayo."
           "The road is very wide." "Napakalapad ng kalsada.")
        (make_example "Ang dalan nga gipangita nako kay lapad kaayo."
           "The road I am looking for is very wide." "Ang kalsada na hinahanap ko ay napakalapad.")
    else
      e0 ← head_of "/" english;
      e1 ← head_of "(" e0;
      let english_clean := Py.lower (Py.strip e1) in
      let tag_clean := if Py.nonempty tagalog then Py.lower tagalog else "" in
      template Adjective ""
        (make_example (bisaya +:+ " kaayo.")
           ("Very " +:+ english_clean +:+ ".")
           (if Py.nonempty tag_clean then ("Napaka" +:+ tag_clean +:+ ".") else ""))
        (make_example ("Ang balay kay " +:+ bisaya +:+ " kaayo.")
           ("The house is very " +:+ english_clean +:+ ".")
           (if Py.nonempty tag_clean then ("Napaka" +:+ tag_clean +:+ " ng bahay.") else ""))
        (make_example ("Ang balay nga gipalit nako kay " +:+ bisaya +:+ " kaayo.")
           ("The house I bought is very " +:+ english_clean +:+ ".")
           (if Py.nonempty tag_clean then ("Ang bahay na binili ko ay napaka" +:+ tag_clean +:+ ".") else ""))
  (* Number *)
  else if Py.contains "number" pos_lower || Py.any_in ["usa"; "duha"; "tulo"; "upat"; "lima"] bisaya_lower then
    if String.eqb bisaya_lower "usa" || Py.contains "one" english_lower then
      fixed Number "usa"
        (make_example "Naa koy usa ka libro." "I have one book." "May isang libro ako.")
        (make_example "Gusto ko ug usa ka libro." "I want one book." "Gusto ko ng isang libro.")
        (make_example "Gipalit nako ang usa ka libro sa tindahan."
           "I bought one book at the store." "Binili ko ang isang libro sa tindahan.")
    else if String.eqb bisaya_lower "duha" || Py.contains "two" english_lower then
      fixed Number "duha"
        (make_example "Naa koy duha ka libro." "I have two books." "May dalawang libro ako.")
        (make_example "Gusto ko ug duha ka libro."
           "I want two books." "Gusto ko ng dalawang libro.")
        (make_example "Gipalit nako ang duha ka libro sa tindahan."
           "I bought two books at the store." "Binili ko ang dalawang libro sa tindahan.")
    else
      e0 ← head_of "/" english;
      e1 ← head_of "(" e0;
      let english_clean := Py.lower (Py.strip e1) in
      let tag_clean := if Py.nonempty tagalog then Py.lower tagalog else "" in
      template Number ""
        (make_example ("Naa koy " +:+ bisaya +:+ " ka libro.")
           ("I have " +:+ english_clean +:+ " books.")
           (if Py.nonempty tag_clean then ("May " +:+ tag_clean +:+ " libro ako.") else ""))
        (make_example ("Gusto ko ug " +:+ bisaya +:+ " ka libro.")
           ("I want " +:+ english_clean +:+ " books.")
           (if Py.nonempty tag_clean then ("Gusto ko ng " +:+ tag_clean +:+ " libro.") else ""))
        (make_example ("Gipalit nako ang " +:+ bisaya +:+ " ka libro sa tindahan.")
           ("I bought " +:+ english_clean +:+ " books at the store.")
           (if Py.nonempty tag_clean then ("Binili ko ang " +:+ tag_clean +:+ " libro sa tindahan.") else ""))
  (* Time *)
  else if Py.contains "time" pos_lower || Py.any_in ["karon"; "ugma"; "gahapon"; "adlaw"] bisaya_lower then
    if Py.contains "karon" bisaya_lower || Py.contains "now" english_lower then
      fixed Time "karon"
        (make_example "Karon ko moadto." "I will go now." "Pupunta ako ngayon.")
        (make_example "Karon nga adlaw, moadto ko." "Today, I will go." "Ngayon, pupunta ako.")
        (make_example "Karon nga adlaw, moadto ko sa balay sa akong higala."
           "Today, I will go to my friend's house."
           "Ngayon, pupunta ako sa bahay ng aking kaibigan.")
    else if Py.contains "ugma" bisaya_lower || Py.contains "tomorrow" english_lower then
      fixed Time "ugma"
        (make_example "Ugma ko moadto." "I will go tomorrow." "Pupunta ako bukas.")
        (make_example "Ugma, moadto ko sa balay."
           "Tomorrow, I will go to the house." "Bukas, pupunta ako sa bahay.")
        (make_example "Ugma, moadto ko sa balay sa akong higala aron magdula."
           "Tomorrow, I will go to my friend's house to play."
           "Bukas, pupunta ako sa bahay ng aking kaibigan para maglaro.")
    else if Py.contains "gahapon" bisaya_lower || Py.contains "yesterday" english_lower then
      fixed Time "gahapon"
        (make_example "Gahapon ko moadto." "I went yesterday." "Pumunta ako kahapon.")
        (make_example "Gahapon, nakaon ko sa balay."
           "Yesterday, I ate at home." "Kahapon, kumain ako sa bahay.")
        (make_example "Gahapon, nakaon ko sa balay sa akong higala ug nagdula mi."
           "Yesterday, I ate at my friend's house and we played."
           "Kahapon, kumain ako sa bahay ng aking kaibigan at naglaro kami.")
    else
      e0 ← head_of "/" english;
      e1 ← head_of "(" e0;
      let english_clean := Py.lower (Py.strip e1) in
      let tag_clean := if Py.nonempty tagalog then Py.lower tagalog else "" in
      template Time ""
        (make_example (bisaya +:+ " ko moadto.")
           ("I will go " +:+ english_clean +:+ ".")
           (if Py.nonempty tag_clean then ("Pupunta ako " +:+ tag_clean +:+ ".") else ""))
        (make_example (bisaya +:+ ", moadto ko sa balay.")
           (Py.capitalize english_clean +:+ ", I will go to the house.")
           (if Py.nonempty tag_clean then (Py.capitalize tag_clean +:+ ", pupunta ako sa bahay.") else ""))
        (make_example (bisaya +:+ ", moadto ko sa balay sa akong higala.")
           (Py.capitalize english_clean +:+ ", I will go to my friend's house.")
           (if Py.nonempty tag_clean then (Py.capitalize tag_clean +:+ ", pupunta ako sa bahay ng aking kaibigan.") else ""))
  (* Question *)
  else if Py.contains "question" pos_lower || Py.any_in ["asa"; "unsa"; "kamus-a"; "ngano"] bisaya_lower then
    if Py.contains "asa" bisaya_lower || Py.contains "where" english_lower then
      fixed Question "asa"
        (make_example "Asa ka?" "Where are you?" "Nasaan ka?")
        (make_example "Asa ka moadto?" "Where are you going?" "Saan ka pupunta?")
        (make_example "Asa ka moadto karon nga adlaw?"
           "Where are you going today?" "Saan ka pupunta ngayon?")
    else if Py.contains "unsa" bisaya_lower || Py.contains "what" english_lower then
      fixed Question "unsa"
        (make_example "Unsa ni?" "What is this?" "Ano ito?")
        (make_example "Unsa ang imong gusto?" "What do you want?" "Ano ang gusto mo?")
        (make_example "Unsa ang imong gusto nga mokaon karon?"
           "What do you want to eat now?" "Ano ang gusto mong kainin ngayon?")
    else if Py.contains "kanus-a" bisaya_lower || Py.contains "when" english_lower then
      fixed Question "kanus-a"
        (make_example "Kanus-a ka moadto?" "When will you go?" "Kailan ka pupunta?")
        (make_example "Kanus-a ka moadto sa balay?"
           "When will you go to the house?" "Kailan ka pupunta sa bahay?")
        (make_example "Kanus-a ka moadto sa balay sa akong higala?"
           "When will you go to my friend's house?" "Kailan ka pupunta sa bahay ng aking kaibigan?")
    else if Py.contains "ngano" bisaya_lower || Py.contains "why" english_lower then
      fixed Question "ngano"
        (make_example "Ngano ka moadto?" "Why are you going?" "Bakit ka pupunta?")
        (make_example "Ngano ka moadto sa balay?"
           "Why are you going to the house?" "Bakit ka pupunta sa bahay?")
        (make_example "Ngano ka moadto sa balay sa akong higala karon?"
           "Why are you going to my friend's house now?"
           "Bakit ka pupunta sa bahay ng aking kaibigan ngayon?")
    else
      e0 ← head_of "/" english;
      e1 ← head_of "(" e0;
      let english_clean := Py.strip e1 in
      let tag_clean := if Py.nonempty tagalog then tagalog else "" in
      template Question ""
        (make_example (bisaya +:+ "?")
           (english_clean +:+ "?") (if Py.nonempty tag_clean then (tag_clean +:+ "?") else ""))
        (make_example (bisaya +:+ " ka moadto?")
           (english_clean +:+ " are you going?")
           (if Py.nonempty tag_clean then (tag_clean +:+ " ka pupunta?") else ""))
        (make_example (bisaya +:+ " ka moadto sa balay?")
           (english_clean +:+ " are you going to the house?")
           (if Py.nonempty tag_clean then (tag_clean +:+ " ka pupunta sa bahay?") else ""))
  (* Default *)
  else
    e0 ← head_of "/" english;
    e1 ← head_of "(" e0;
    let english_clean := Py.strip e1 in
    let tag_clean := if Py.nonempty tagalog then tagalog else "" in
    if is_phrase then
      template Default "phrase"
        (make_example (bisaya +:+ ".")
           (english_clean +:+ ".") (if Py.nonempty tag_clean then (tag_clean +:+ ".") else ""))
        (make_example (bisaya +:+ ", mahimo ba?")
           (english_clean +:+ ", is it possible?")
           (if Py.nonempty tag_clean then (tag_clean +:+ ", posible ba?") else ""))
        (make_example (bisaya +:+ ", mahimo ba nimo ko tabangan?")
           (english_clean +:+ ", can you help me?")
           (if Py.nonempty tag_clean then (tag_clean +:+ ", maaari mo ba akong tulungan?") else ""))
    else
      template Default "word"
        (make_example (bisaya +:+ " na.")
           (english_clean +:+ " now.")
           (if Py.nonempty tag_clean then (tag_clean +:+ " ngayon.") else ""))
        (make_example ("Gusto ko ug " +:+ bisaya +:+ ".")
           ("I want " +:+ Py.lower english_clean +:+ ".")
           (if Py.nonempty tag_clean then ("Gusto ko ng " +:+ Py.lower tag_clean +:+ ".") else ""))
        (make_example ("Gipalit nako ang " +:+ bisaya +:+ " sa tindahan.")
           ("I bought the " +:+ Py.lower english_clean +:+ " at the store.")
           (if Py.nonempty tag_clean then ("Binili ko ang " +:+ Py.lower tag_clean +:+ " sa tindahan.") else "")).

(** [generate_examples(bisaya, tagalog, english, pos, category)]: the first
    lines call [lower] on [bisaya], [english] and [pos], and on [tagalog]
    when it is truthy; every later use of [tagalog] is guarded the same way.
    [category] is never read. *)
Definition generate_examples (bisaya tagalog english pos category : pyval)
  : result examples :=
  b ← Py.as_str bisaya;
  e ← Py.as_str english;
  p ← Py.as_str pos;
  t ← (if Py.truthy tagalog then Py.as_str tagalog else mret "");
  snd <$> generate_examples_rule b t e p.


(** [determine_category(pos, english)] *)
Definition determine_category (pos english : pyval) : result string :=
  p ← Py.as_str pos;
  e ← Py.as_str english;
  let pos_lower := Py.lower p in
  let english_lower := Py.lower e in
  mret (
    if Py.contains "greeting" pos_lower then "Greetings"
    else if Py.contains "expression" pos_lower || Py.contains "response" pos_lower then
      "Common Phrases"
    else if Py.contains "number" pos_lower then "Numbers"
    else if Py.contains "verb" pos_lower then
      if Py.any_in ["eat"; "drink"; "cook"; "food"] english_lower then "Food & Dining"
      else if Py.any_in ["buy"; "sell"; "market"; "shop"] english_lower then "Market/Shopping"
      else "Actions"
    else if Py.contains "noun" pos_lower then
      if Py.any_in ["father"; "mother"; "family"; "brother"; "sister"] english_lower then
        "Family"
      else if Py.any_in ["food"; "water"; "rice"; "bread"; "fruit"] english_lower then
        "Food & Dining"
      else if Py.any_in ["house"; "room"; "door"; "window"] english_lower then "Home & Living"
      else if Py.any_in ["book"; "school"; "student"; "teacher"] english_lower then "Education"
      else "Common Nouns"
    else if Py.contains "adjective" pos_lower then "Descriptions"
    else if Py.contains "time" pos_lower
            || Py.any_in ["now"; "today"; "tomorrow"; "yesterday"; "day"; "month"; "year"]
                 english_lower then "Time"
    else if Py.contains "question" pos_lower then "Questions"
    else "Uncategorized").

(** ** regenerate_dataset.py: the world the script runs in *)

(** A row of the dataset: the cells handed to [csv.writer]. *)
Definition row : Type := list pyval.

(** A vocabulary entry: one JSON object of the metadata file. *)
Abbreviation entry := (gmap string pyval).

(** What a file holds: a JSON object whose ['metadata'] key, when present,
    is a list of entries; or the rows of a CSV file. *)
Inductive file :=
  | JsonFile (metadata : option (list entry))
  | CsvFile (rows : list row).

(** What the script prints, one constructor per [print] of [main]. *)
Inductive line :=
  | Loading (path : string)
  | Loaded (words : nat)
  | Generating
  | GenerationError (bisaya : pyval) (e : exn)
  | Processed (done total : nat)
  | Writing (path : string)
  | BackupCreated (path : string)
  | Success (path : string) (entries : nat)
  | CouldNotReplace (path : string)
  | SavedAs (path : string)
  | PleaseReplace (path temp : string)
  | Columns.

(** The clock, the files, the paths another program keeps open (they can be
    read but not written, removed or replaced) and the lines printed so
    far. Directories are not modelled. *)
Record world := World {
  clock : Z;
  files : gmap string file;
  locked : gset string;
  stdout : list line;
}.

Definition with_files (fs : gmap string file) (w : world) : world :=
  World (clock w) fs (locked w) (stdout w).

Definition io (A : Type) : Type := world -> result A * world.

#[global] Instance io_ret : MRet io := fun A a w => (Ok a, w).
#[global] Instance io_bind : MBind io := fun A B f m w =>
  match m w with
  | (Ok a, w') => f a w'
  | (Raise e, w') => (Raise e, w')
  end.

Definition lift {A} (r : result A) : io A := fun w => (r, w).

(** [try: body except ...: handler]; [handler e] is [None] when the clause
    does not catch [e]. The effects of [body] up to the exception stay. *)
Definition io_try {A} (body : io A) (handler : exn -> option (io A)) : io A :=
  fun w =>
    match body w with
    | (Ok a, w') => (Ok a, w')
    | (Raise e, w') =>
        match handler e with
        | Some h => h w'
        | None => (Raise e, w')
        end
    end.

Definition print (l : line) : io unit := fun w =>
  (Ok tt, World (clock w) (files w) (locked w) (stdout w ++ [l])).

(** [int(time.time())] *)
Definition now : io Z := fun w => (Ok (clock w), w).

(** [os.path.exists(path)] *)
Definition path_exists (path : string) : io bool := fun w =>
  (Ok (bool_decide (is_Some (files w !! path))), w).

(** [os.remove(path)] *)
Definition remove (path : string) : io unit := fun w =>
  match files w !! path with
  | None => (Raise (FileNotFoundError path), w)
  | Some _ =>
      if bool_decide (path ∈ locked w) then (Raise (PermissionError path), w)
      else (Ok tt, with_files (delete path (files w)) w)
  end.

(** [shutil.copy2(src, dst)] *)
Definition copy2 (src dst : string) : io unit := fun w =>
  match files w !! src with
  | None => (Raise (FileNotFoundError src), w)
  | Some f =>
      if bool_decide (dst ∈ locked w) then (Raise (PermissionError dst), w)
      else (Ok tt, with_files (<[dst := f]> (files w)) w)
  end.

(** [shutil.move(src, dst)] onto a file path: [dst] is replaced by [src],
    which disappears; nothing changes when either path is locked. *)
Definition move (src dst : string) : io unit := fun w =>
  match files w !! src with
  | None => (Raise (FileNotFoundError src), w)
  | Some f =>
      if bool_decide (dst ∈ locked w) then (Raise (PermissionError dst), w)
      else if bool_decide (src ∈ locked w) then (Raise (PermissionError src), w)
      else (Ok tt, with_files (<[dst := f]> (delete src (files w))) w)
  end.

(** [with open(path, 'w') as f: csv.writer(f).writerows(rows)] *)
Definition write_csv (path : string) (rows : list row) : io unit := fun w =>
  if bool_decide (path ∈ locked w) then (Raise (PermissionError path), w)
  else (Ok tt, with_files (<[path := CsvFile rows]> (files w)) w).

(** [load_metadata(json_path)]: [json.load] then [data.get('metadata', [])] *)
Definition load_metadata (json_path : string) : io (list entry) := fun w =>
  match files w !! json_path with
  | None => (Raise (FileNotFoundError json_path), w)
  | Some (CsvFile _) => (Raise ValueError, w)
  | Some (JsonFile metadata) => (Ok (default [] metadata), w)
  end.

(** ** regenerate_dataset.py: [main] *)

Definition metadata_path : string := "assets/models/bisaya_metadata.json".
Definition output_path : string := "lib/vocdataset/bisaya_dataset.csv".
Definition backup_path : string := output_path +:+ ".backup".

(** [f'lib/vocdataset/bisaya_dataset_{int(time.time())}.csv'] *)
Definition temp_path (t : Z) : string :=
  "lib/vocdataset/bisaya_dataset_" +:+ pretty t +:+ ".csv".

Definition header : row :=
  VStr <$> [ "Bisaya"; "Tagalog"; "English"; "Part of Speech"; "Pronunciation"; "Category";
    "Beginner Example (Bisaya)"; "Beginner English Translation";
    "Beginner Tagalog Translation";
    "Intermediate Example (Bisaya)"; "Intermediate English Translation";
    "Intermediate Tagalog Translation";
    "Advanced Example (Bisaya)"; "Advanced English Translation";
    "Advanced Tagalog Translation" ].

(** [word_data.get(key, default)] *)
Definition get (word_data : entry) (key : string) (dflt : pyval) : pyval :=
  default dflt (word_data !! key).

(** [f'{v}'] for a scalar *)
Definition fmt (v : pyval) : string :=
  match v with
  | VNone => "None"
  | VBool true => "True"
  | VBool false => "False"
  | VInt n => pretty n
  | VStr s => s
  end.

(** The names bound at module level when [main] runs: the imports and the
    five functions defined with [def] at column 0. [make_example] is not
    among them, it is defined inside [generate_examples]. *)
Definition module_names : list string :=
  ["json"; "csv"; "os"; "re"; "Dict"; "List"; "Tuple"; "load_metadata";
   "get_base_form"; "generate_examples"; "determine_category"; "main"].

(** Reading a name that [main] never assigns: it is looked up at module
    level (no builtin has the names used here). *)
Definition load_global (name : string) : result unit :=
  if Py.mem name module_names then mret tt else Raise (NameError name).

(** The statements of the [except Exception as e:] clause after its [print] *)
Definition fallback_examples (bisaya tagalog english : pyval) : result examples :=
  e ← Py.as_str english;
  e0 ← head_of "/" e;
  e1 ← head_of "(" e0;
  let eng_clean := Py.strip e1 in
  let tag_clean := if Py.truthy tagalog then tagalog else VStr "" in
  load_global "make_example";;
  let beginner_tuple :=
    make_example (fmt bisaya +:+ ".") (eng_clean +:+ ".")
      (if Py.truthy tag_clean then fmt tag_clean +:+ "." else "") in
  load_global "make_example";;
  let intermediate_tuple :=
    make_example (fmt bisaya +:+ ", mahimo ba?") (eng_clean +:+ ", is it possible?")
      (if Py.truthy tag_clean then fmt tag_clean +:+ ", posible ba?" else "") in
  load_global "make_example";;
  let advanced_tuple :=
    make_example (fmt bisaya +:+ ", mahimo ba nimo ko tabangan?")
      (eng_clean +:+ ", can you help me?")
      (if Py.truthy tag_clean then fmt tag_clean +:+ ", maaari mo ba akong tulungan?"
       else "") in
  mret (beginner_tuple, intermediate_tuple, advanced_tuple).

(** The row appended to [csv_data] *)
Definition make_row (bisaya tagalog english pos pronunciation : pyval)
    (category : string) (ex : examples) : row :=
  let '(beginner_tuple, intermediate_tuple, advanced_tuple) := ex in
  let '(beginner_bisaya, beginner_english, beginner_tagalog) := beginner_tuple in
  let '(intermediate_bisaya, intermediate_english, intermediate_tagalog) :=
    intermediate_tuple in
  let '(advanced_bisaya, advanced_english, advanced_tagalog) := advanced_tuple in
  [ bisaya; tagalog; english; pos; pronunciation; VStr category;
    VStr beginner_bisaya; VStr beginner_english; VStr beginner_tagalog;
    VStr intermediate_bisaya; VStr intermediate_english; VStr intermediate_tagalog;
    VStr advanced_bisaya; VStr advanced_english; VStr advanced_tagalog ].

(** One turn of the [for i, word_data in enumerate(metadata)] loop:
    [None] when the entry is skipped by [continue], the new row otherwise. *)
Definition process_entry (total i : nat) (word_data : entry) : io (option row) :=
  let bisaya := get word_data "bisaya" (VStr "") in
  let tagalog := get word_data "tagalog" (VStr "") in
  let english := get word_data "english" (VStr "") in
  let pronunciation := get word_data "pronunciation" (VStr "") in
  let pos := get word_data "pos" (VStr "Unknown") in
  if negb (Py.truthy bisaya) || negb (Py.truthy english) then mret None
  else
    category ← lift (determine_category pos english);
    ex ← io_try
           (lift (generate_examples bisaya tagalog english pos (VStr category)))
           (fun e => Some (print (GenerationError bisaya e);;
                           lift (fallback_examples bisaya tagalog english)));
    (if ((i + 1) mod 50 =? 0)%nat then print (Processed (i + 1) total) else mret tt);;
    mret (Some (make_row bisaya tagalog english pos pronunciation category ex)).

(** The loop, from index [i] on, extending [csv_data] *)
Fixpoint main_loop (total i : nat) (metadata : list entry) (csv_data : list row)
  : io (list row) :=
  match metadata with
  | [] => mret csv_data
  | word_data :: rest =>
      r ← process_entry total i word_data;
      main_loop total (S i) rest
        (match r with Some new_row => csv_data ++ [new_row] | None => csv_data end)
  end.

(** The body of the [try] that replaces the previous dataset *)
Definition replace_dataset (temp : string) (csv_data : list row) : io unit :=
  present ← path_exists output_path;
  (if present : bool then
     old_backup ← path_exists backup_path;
     (if old_backup : bool then remove backup_path else mret tt);;
     copy2 output_path backup_path;;
     print (BackupCreated backup_path)
   else mret tt);;
  move temp output_path;;
  print (Success output_path (length csv_data - 1)).

(** The [except PermissionError:] clause *)
Definition on_permission_error (temp : string) (e : exn) : option (io unit) :=
  match e with
  | PermissionError _ =>
      Some (print (CouldNotReplace output_path);;
            print (SavedAs temp);;
            print (PleaseReplace output_path temp))
  | _ => None
  end.

(** The writer: from [# Write CSV file to temp location first] to the end *)
Definition write_dataset (temp : string) (csv_data : list row) : io unit :=
  print (Writing temp);;
  write_csv temp csv_data;;
  io_try (replace_dataset temp csv_data) (on_permission_error temp);;
  print Columns.

(** The rows [main] builds from the metadata *)
Definition build_rows (metadata : list entry) : io (list row) :=
  print Generating;;
  main_loop (length metadata) 0 metadata [header].

Definition main : io unit :=
  t ← now;
  let temp := temp_path t in
  print (Loading metadata_path);;
  metadata ← load_metadata metadata_path;
  print (Loaded (length metadata));;
  csv_data ← build_rows metadata;
  write_dataset temp csv_data.

(** ** Predicates used to state the properties *)

(** The part-of-speech tests of the cascade, on the tag alone: no arm is
    selected by the tag. *)
Definition tag_unmatched (pos : string) : bool :=
  let pos_lower := Py.lower pos in
  negb (Py.mem pos_lower ["greeting"; "expression"; "response"]
        || Py.contains "verb" pos_lower
        || Py.contains "noun" pos_lower
        || Py.contains "adjective" pos_lower || Py.contains "adj" pos_lower
        || Py.contains "number" pos_lower
        || Py.contains "time" pos_lower
        || Py.contains "question" pos_lower).

(** The words that select the verb, number, time and question arms
    whatever the tag is. *)
Definition trigger_words : list string :=
  ["mokaon"; "matulog"; "mobasa"; "mosulat"; "mopalit";
   "usa"; "duha"; "tulo"; "upat"; "lima";
   "karon"; "ugma"; "gahapon"; "adlaw";
   "asa"; "unsa"; "kamus-a"; "ngano"].

(** The entry passes the test [if not bisaya or not english: continue]. *)
Definition included (word_data : entry) : bool :=
  Py.truthy (get word_data "bisaya" (VStr ""))
  && Py.truthy (get word_data "english" (VStr "")).

(** A field of an entry is text, or absent. *)
Definition text_field (word_data : entry) (key : string) : Prop :=
  match word_data !! key with
  | Some (VStr _) | None => True
  | Some _ => False
  end.

(** An entry as the metadata file is meant to hold it: its word, its
    translations and its tag are text where present. *)
Definition well_typed (word_data : entry) : Prop :=
  text_field word_data "bisaya" /\ text_field word_data "tagalog"
  /\ text_field word_data "english" /\ text_field word_data "pos".

(** The Tagalog word as the cascade sees it: the text, or nothing. *)
Definition tagalog_text (tagalog : pyval) : string :=
  match tagalog with
  | VStr t => t
  | _ => ""
  end.

(** The row [r] was made from the entry [word_data]: it has the fifteen
    cells of the header and starts with the entry's word and translations. *)
Definition row_of (word_data : entry) (r : row) : Prop :=
  length r = 15
  /\ r !! 0 = Some (get word_data "bisaya" (VStr ""))
  /\ r !! 1 = Some (get word_data "tagalog" (VStr ""))
  /\ r !! 2 = Some (get word_data "english" (VStr "")).

(** The row has a word and a primary translation, neither empty. *)
Definition has_word_and_translation (r : row) : Prop :=
  exists bisaya english,
    r !! 0 = Some (VStr bisaya) /\ r !! 2 = Some (VStr english)
    /\ Py.nonempty bisaya = true /\ Py.nonempty english = true.

(** The step changed nothing but the printed lines. *)
Definition same_state (w w' : world) : Prop :=
  clock w' = clock w /\ files w' = files w /\ locked w' = locked w.


(** The world once the writer has written the temporary file *)
Definition after_temp_write (temp : string) (csv_data : list row) (w : world) : world :=
  (write_csv temp csv_data (print (Writing temp) w).2).2.

(** The world with more lines printed, and with another clock *)
Definition add_lines (ls : list line) (w : world) : world :=
  World (clock w) (files w) (locked w) (stdout w ++ ls).

Definition at_time (t : Z) (w : world) : world :=
  World t (files w) (locked w) (stdout w).

(** ** Sample entries and worlds *)

Definition salamat_entry : entry :=
  {[ "bisaya" := VStr "Salamat"; "tagalog" := VStr "Salamat";
     "english" := VStr "thank you"; "pos" := VStr "Expression";
     "pronunciation" := VStr "sa-LA-mat" ]}.

(** No English translation: skipped *)
Definition untranslated_entry : entry :=
  {[ "bisaya" := VStr "ambot"; "english" := VStr ""; "pos" := VStr "Expression" ]}.

(** No Tagalog translation, tag missing *)
Definition iro_entry : entry :=
  {[ "bisaya" := VStr "iro"; "english" := VStr "dog" ]}.

(** The Tagalog field holds the number 1 instead of text *)
Definition number_entry : entry :=
  {[ "bisaya" := VStr "usa"; "tagalog" := VInt 1;
     "english" := VStr "one"; "pos" := VStr "Number" ]}.

(** A world with a metadata file and, possibly, locked paths *)
Definition world_with (t : Z) (metadata : list entry) (old : option (list row))
    (busy : gset string) : world :=
  World t
    (match old with
     | Some rows => <[output_path := CsvFile rows]> {[ metadata_path := JsonFile (Some metadata) ]}
     | None => {[ metadata_path := JsonFile (Some metadata) ]}
     end)
    busy [].

End Regenerate.

(** ** training/: embeddings and the similarity table *)

Module Train.

(** A vector of floats. Floats are taken as rationals: rounding is not
    modelled, the order and the arithmetic laws used below are those of
    the finite floats. *)
Abbreviation vec := (list Q).

(** A cell of the data frame: empty in the CSV ([NaN]) or text. *)
Inductive cell :=
  | NaN
  | Text (s : string).

(** [str(cell)] *)
Definition str (c : cell) : string :=
  match c with
  | NaN => "nan"
  | Text s => s
  end.

(** [pd.notna(cell)] *)
Definition notna (c : cell) : bool :=
  match c with
  | NaN => false
  | Text _ => true
  end.

(** A row of the data frame, by column name. *)
Record df_row := Row {
  Bisaya : cell;
  Tagalog : cell;
  English : cell;
  Part_of_Speech : cell;
  Pronunciation : cell;
  Category : cell;
}.

(** [model.wv]: the vocabulary of the trained model with its vectors.
    Training itself is gensim's; the model is a parameter here. *)
Record keyed_vectors := KeyedVectors {
  vector_size : nat;
  vectors : gmap string vec;
}.

(** [w in wv] *)
Definition in_vocab (wv : keyed_vectors) (w : string) : bool :=
  bool_decide (is_Some (vectors wv !! w)).

(** [wv[w]] *)
Definition wv_item (wv : keyed_vectors) (w : string) : result vec :=
  match vectors wv !! w with
  | Some v => Ok v
  | None => Raise (KeyError w)
  end.

(** What [Word2Vec(vector_size=100, ...)] guarantees of its vectors *)
Definition trained (wv : keyed_vectors) : Prop :=
  vector_size wv = 100 /\
  forall w v, vectors wv !! w = Some v -> length v = 100.

Definition vadd (a b : vec) : vec := zip_with Qplus a b.

(** [np.mean([v] + rest, axis=0)]: the component-wise mean of arrays of one
    shape; arrays of different shapes raise [ValueError] *)
Definition np_mean (v : vec) (rest : list vec) : result vec :=
  if forallb (fun u => length u =? length v)%nat rest
  then Ok ((fun x => x / inject_Z (Z.of_nat (S (length rest))))%Q <$> foldl vadd v rest)
  else Raise ValueError.

(** The block under [# Get or create embedding]; [zero_dim] is the length
    of the fallback vector, [100] in train_json_model.py and
    [model.vector_size] in train_model.py *)
Definition get_or_create_embedding (wv : keyed_vectors) (zero_dim : nat)
    (bisaya_lower : string) : result vec :=
  if in_vocab wv bisaya_lower then wv_item wv bisaya_lower
  else
    let words := Py.split bisaya_lower in
    word_embeddings ← mapM (wv_item wv) (filter (fun w => in_vocab wv w = true) words);
    match word_embeddings with
    | [] => mret (replicate zero_dim 0%Q)
    | v :: rest => np_mean v rest
    end.

(** The vectors of the words of a list that are in the vocabulary, in
    order *)
Definition found_vectors (wv : keyed_vectors) (words : list string) : list vec :=
  omap (fun w => vectors wv !! w) words.

(** Component [k] of the mean of [v :: rest]: the sum of the components
    [k], from left to right, over the number of vectors *)
Definition mean_at (k : nat) (v : vec) (rest : list vec) : Q :=
  (foldl (fun acc u => acc + default 0 (u !! k)) (default 0 (v !! k)) rest
   / inject_Z (Z.of_nat (S (length rest))))%Q.

(** *** train_json_model.py: [generate_embeddings] *)

(** One element of [metadata_list] *)
Record word_meta := WordMeta {
  meta_bisaya : string;
  meta_tagalog : string;
  meta_english : string;
  meta_pronunciation : string;
  meta_pos : string;
  meta_category : string;
}.

(** [str(cell).strip() if pd.notna(cell) else fallback] *)
Definition text_or (fallback : string) (c : cell) : string :=
  if notna c then Py.strip (str c) else fallback.

(** The test [not bisaya or bisaya == 'nan'] negated: the row is kept *)
Definition kept (bisaya : string) : bool :=
  Py.nonempty bisaya && negb (String.eqb bisaya "nan").

(** One turn of the loop of [generate_embeddings] *)
Definition embed_row (wv : keyed_vectors) (row : df_row)
    (acc : pydict vec * list word_meta) : result (pydict vec * list word_meta) :=
  let '(embeddings, metadata_list) := acc in
  let bisaya := Py.strip (str (Bisaya row)) in
  if negb (kept bisaya) then mret (embeddings, metadata_list)
  else
    let bisaya_lower := Py.lower bisaya in
    embedding ← get_or_create_embedding wv 100 bisaya_lower;
    mret (Py.dict_set bisaya_lower embedding embeddings,
          metadata_list ++ [
            {| meta_bisaya := bisaya;
               meta_tagalog := text_or "" (Tagalog row);
               meta_english := Py.strip (str (English row));
               meta_pronunciation := text_or "" (Pronunciation row);
               meta_pos := text_or "Unknown" (Part_of_Speech row);
               meta_category := text_or "Uncategorized" (Category row) |} ]).

Fixpoint embed_rows (wv : keyed_vectors) (df : list df_row)
    (acc : pydict vec * list word_meta) : result (pydict vec * list word_meta) :=
  match df with
  | [] => mret acc
  | row :: rest => acc' ← embed_row wv row acc; embed_rows wv rest acc'
  end.

Definition generate_embeddings (wv : keyed_vectors) (df : list df_row)
  : result (pydict vec * list word_meta) :=
  embed_rows wv df ([], []).

(** The Bisaya words of the data set: the stripped text of the rows the
    loop keeps, in order *)
Definition dataset_words (df : list df_row) : list string :=
  filter (fun bisaya => kept bisaya = true) ((fun row => Py.strip (str (Bisaya row))) <$> df).

(** *** train_model.py: [generate_embeddings] *)

(** The same loop with [metadata] a dict keyed by the lower-cased word and
    the fallback vector [[0.0] * model.vector_size] *)
Definition embed_row_v1 (wv : keyed_vectors) (row : df_row)
    (acc : pydict vec * pydict word_meta) : result (pydict vec * pydict word_meta) :=
  let '(embeddings, metadata) := acc in
  let bisaya := Py.strip (str (Bisaya row)) in
  let tagalog := Py.strip (str (Tagalog row)) in
  let english := Py.strip (str (English row)) in
  let pos := Py.strip (str (Part_of_Speech row)) in
  let pronunciation := Py.strip (str (Pronunciation row)) in
  if kept bisaya then
    let bisaya_lower := Py.lower bisaya in
    embedding ← get_or_create_embedding wv (vector_size wv) bisaya_lower;
    mret (Py.dict_set bisaya_lower embedding embeddings,
          Py.dict_set bisaya_lower
            {| meta_bisaya := bisaya; meta_tagalog := tagalog; meta_english := english;
               meta_pronunciation := pronunciation; meta_pos := pos;
               meta_category := "" |} metadata)
  else mret (embeddings, metadata).

Fixpoint embed_rows_v1 (wv : keyed_vectors) (df : list df_row)
    (acc : pydict vec * pydict word_meta) : result (pydict vec * pydict word_meta) :=
  match df with
  | [] => mret acc
  | row :: rest => acc' ← embed_row_v1 wv row acc; embed_rows_v1 wv rest acc'
  end.

Definition generate_embeddings_v1 (wv : keyed_vectors) (df : list df_row)
  : result (pydict vec * pydict word_meta) :=
  embed_rows_v1 wv df ([], []).

(** *** [calculate_similarity_matrix] *)

(** [l.sort(key=lambda x: x[1], reverse=True)]: the stable sort by
    decreasing score. A list has one stable sorted arrangement, so
    insertion from the right gives what Python's sort gives. *)
Fixpoint insert_desc (x : string * Q) (l : list (string * Q)) : list (string * Q) :=
  match l with
  | [] => [x]
  | y :: l' => if Qle_bool y.2 x.2 then x :: y :: l' else y :: insert_desc x l'
  end.

Definition sort_desc (l : list (string * Q)) : list (string * Q) :=
  foldr insert_desc [] l.

Section Similarity.

(** Entry [(i, j)] of [cosine_similarity(matrix)] is the cosine of rows [i]
    and [j]; the function is scikit-learn's and stays a parameter. *)
Variable cosine : vec -> vec -> Q.

(** [[(other_word, float(similarity_matrix[i][j]))
      for j, other_word in enumerate(words) if i != j]],
    the inner loop from index [j] on *)
Fixpoint similarities_from (i : nat) (v : vec) (j : nat) (rows : list (string * vec))
  : list (string * Q) :=
  match rows with
  | [] => []
  | (other_word, u) :: rest =>
      if negb (i =? j)%nat
      then (other_word, cosine v u) :: similarities_from i v (S j) rest
      else similarities_from i v (S j) rest
  end.

(** The neighbours kept for row [i]: sorted, cut to ten, read into a dict *)
Definition top_ten (rows : list (string * vec)) (i : nat) (v : vec) : pydict Q :=
  Py.dict_of_list (take 10 (sort_desc (similarities_from i v 0 rows))).

(** The outer loop [for i, word in enumerate(words)] from index [i] on *)
Fixpoint top_similar_from (rows : list (string * vec)) (i : nat)
    (todo : list (string * vec)) (top_similar : pydict (pydict Q)) : pydict (pydict Q) :=
  match todo with
  | [] => top_similar
  | (word, v) :: rest =>
      top_similar_from rows (S i) rest (Py.dict_set word (top_ten rows i v) top_similar)
  end.

(** train_json_model.py: the words are the keys of the embeddings dict *)
Definition calculate_similarity_matrix (embeddings_dict : pydict vec)
  : result (pydict (pydict Q)) :=
  let words := Py.keys embeddings_dict in
  embeddings ← mapM (Py.dict_item embeddings_dict) words;
  if (length embeddings =? 0)%nat then mret []
  else
    let rows := zip words embeddings in
    mret (top_similar_from rows 0 rows []).

(** train_model.py: the same table through an intermediate dict of all
    scores per word; there is no test for an empty data set, on which
    [cosine_similarity] raises [ValueError] *)
Definition all_scores (rows : list (string * vec)) (i : nat) (v : vec) : pydict Q :=
  Py.dict_of_list (similarities_from i v 0 rows).

Fixpoint similarity_dict_from (rows : list (string * vec)) (i : nat)
    (todo : list (string * vec)) (similarity_dict : pydict (pydict Q))
  : pydict (pydict Q) :=
  match todo with
  | [] => similarity_dict
  | (word1, v) :: rest =>
      similarity_dict_from rows (S i) rest
        (Py.dict_set word1 (all_scores rows i v) similarity_dict)
  end.

Fixpoint top_of_each (similarity_dict : pydict (pydict Q)) (words : list string)
    (top_similar : pydict (pydict Q)) : result (pydict (pydict Q)) :=
  match words with
  | [] => mret top_similar
  | word :: rest =>
      scores ← Py.dict_item similarity_dict word;
      let similar_words := take 10 (sort_desc scores) in
      top_of_each similarity_dict rest
        (Py.dict_set word (Py.dict_of_list similar_words) top_similar)
  end.

Definition calculate_similarity_matrix_v1 (embeddings : pydict vec)
  : result (pydict (pydict Q)) :=
  let words := Py.keys embeddings in
  embedding_matrix ← mapM (Py.dict_item embeddings) words;
  if (length embedding_matrix =? 0)%nat then Raise ValueError
  else
    let rows := zip words embedding_matrix in
    top_of_each (similarity_dict_from rows 0 rows []) words [].

(** train_tflite_model.py: the words are collected row by row from the
    data frame, one per kept row whose lower-cased word is in the
    vocabulary *)
Fixpoint collect_words (wv : keyed_vectors) (df : list df_row) : result (list (string * vec)) :=
  match df with
  | [] => mret []
  | row :: rest =>
      let bisaya := Py.strip (str (Bisaya row)) in
      if kept bisaya then
        let bisaya_lower := Py.lower bisaya in
        if in_vocab wv bisaya_lower then
          v ← wv_item wv bisaya_lower;
          more ← collect_words wv rest;
          mret ((bisaya_lower, v) :: more)
        else collect_words wv rest
      else collect_words wv rest
  end.

Definition calculate_similarity_matrix_tflite (wv : keyed_vectors) (df : list df_row)
  : result (pydict (pydict Q)) :=
  rows ← collect_words wv df;
  if (length rows =? 0)%nat then mret []
  else mret (top_similar_from rows 0 rows []).

(** *** train_json_model.py: [save_model] and the pipeline of [main] *)

(** The dict written by [json.dump] *)
Record model_data := ModelData {
  embeddings_of : pydict vec;
  metadata_of : list word_meta;
  similarity_of : pydict (pydict Q);
  vocab_size : nat;
  embedding_dim : nat;
  version : string;
  format : string;
}.

Definition save_model (embeddings : pydict vec) (metadata_list : list word_meta)
    (similarity : pydict (pydict Q)) : model_data :=
  {| embeddings_of := embeddings;
     metadata_of := metadata_list;
     similarity_of := similarity;
     vocab_size := length embeddings;
     embedding_dim := 100;
     version := "2.0.0";
     format := "json" |}.

(** [main] from the trained model on: embeddings, similarity, bundle *)
Definition json_bundle (wv : keyed_vectors) (df : list df_row) : result model_data :=
  '(embeddings, metadata_list) ← generate_embeddings wv df;
  similarity ← calculate_similarity_matrix embeddings;
  mret (save_model embeddings metadata_list similarity).

End Similarity.

(** A neighbour list in non-increasing order of score *)
Definition by_score_desc (a b : string * Q) : Prop := (b.2 <= a.2)%Q.

Definition sorted_desc (l : list (string * Q)) : Prop := StronglySorted by_score_desc l.

(** ** Sample model and data *)

(** A stand-in for the score in examples: the dot product *)
Definition dot (a b : vec) : Q := foldr Qplus 0%Q (zip_with Qmult a b).

(** A model that knows the one word 'maayong' *)
Definition sample_model : keyed_vectors :=
  KeyedVectors 100 {[ "maayong" := replicate 100 1%Q ]}.

(** A model that knows the one word 'balay' *)
Definition balay_model : keyed_vectors :=
  KeyedVectors 100 {[ "balay" := replicate 100 1%Q ]}.

Definition word_row (bisaya english : string) : df_row :=
  Row (Text bisaya) NaN (Text english) NaN NaN NaN.

(** Two rows for one word, spelt 'Balay' and 'balay' *)
Definition balay_twice : list df_row :=
  [word_row "Balay" "house"; word_row "balay" "home"].

End Train.

(** ** regenerate_dataset.py: text values and the category names *)

Module Entries.

(** A value on which [.lower()] works: a JSON string *)
Definition is_text (v : pyval) : bool :=
  match v with
  | VStr _ => true
  | _ => false
  end.

(** The names [determine_category] can return, in the order of its
    [return] statements *)
Definition categories : list string :=
  ["Greetings"; "Common Phrases"; "Numbers"; "Food & Dining"; "Market/Shopping";
   "Actions"; "Family"; "Home & Living"; "Education"; "Common Nouns";
   "Descriptions"; "Time"; "Questions"; "Uncategorized"].

Import Regenerate.

(** The fields that the loop reads as text are text: an entry that passes
    the skip test has a word, an English translation and a tag that are
    text, and a Tagalog field that is text or falsy (absent, null, empty).
    An entry that is skipped is not read further. *)
Definition text_where_read (word_data : entry) : bool :=
  negb (included word_data)
  || (is_text (get word_data "bisaya" (VStr ""))
      && is_text (get word_data "english" (VStr ""))
      && is_text (get word_data "pos" (VStr "Unknown"))
      && (negb (Py.truthy (get word_data "tagalog" (VStr "")))
          || is_text (get word_data "tagalog" (VStr "")))).


End Entries.

(** ** regenerate_dataset.py: the special-cased word rules *)

Module Rules.
Import Regenerate.



End Rules.

(** ** training/: the training sentences, the index tables, the exports *)

Module TrainData.
Import Train.

(** *** [prepare_training_data] *)

(** [if tokens and tokens[0] != 'nan': all_texts.append(tokens)]: the
    sentences this adds. The index [0] is read only when the list is not
    empty. *)
Definition sentence_of (tokens : list string) : list (list string) :=
  match tokens with
  | [] => []
  | first :: _ => if negb (String.eqb first "nan") then [tokens] else []
  end.

(** train_json_model.py: the Tagalog cell is split only when it is not
    empty *)
Definition row_sentences_json (row : df_row) : list (list string) :=
  let bisaya := Py.split (Py.lower (str (Bisaya row))) in
  let tagalog :=
    if notna (Tagalog row) then Py.split (Py.lower (str (Tagalog row))) else [] in
  let english := Py.split (Py.lower (str (English row))) in
  sentence_of bisaya ++ sentence_of tagalog ++ sentence_of english.

Definition prepare_training_data_json (df : list df_row) : list (list string) :=
  concat (row_sentences_json <$> df).

(** train_model.py, train_tflite_model.py: every cell goes through [str] *)
Definition row_sentences (row : df_row) : list (list string) :=
  let bisaya := Py.split (Py.lower (str (Bisaya row))) in
  let tagalog := Py.split (Py.lower (str (Tagalog row))) in
  let english := Py.split (Py.lower (str (English row))) in
  sentence_of bisaya ++ sentence_of tagalog ++ sentence_of english.

Definition prepare_training_data (df : list df_row) : list (list string) :=
  concat (row_sentences <$> df).

(** What [Word2Vec(sentences, min_count=1)] guarantees of its vocabulary:
    it holds every token of every sentence. *)
Definition covers (wv : keyed_vectors) (sentences : list (list string)) : Prop :=
  forall sentence token,
    sentence ∈ sentences -> token ∈ sentence -> in_vocab wv token = true.

(** *** train_model.py: [export_to_json] and the pipeline of [main] *)

Record model_data_v1 := ModelDataV1 {
  v1_embeddings : Py.pydict vec;
  v1_metadata : Py.pydict word_meta;
  v1_similarity : Py.pydict (Py.pydict Q);
  v1_version : string;
  v1_total_words : nat;
}.

Definition export_to_json (embeddings : Py.pydict vec) (metadata : Py.pydict word_meta)
    (similarity : Py.pydict (Py.pydict Q)) : model_data_v1 :=
  {| v1_embeddings := embeddings;
     v1_metadata := metadata;
     v1_similarity := similarity;
     v1_version := "1.0.0";
     v1_total_words := length embeddings |}.

Definition model_bundle_v1 (cosine : vec -> vec -> Q) (wv : keyed_vectors)
    (df : list df_row) : result model_data_v1 :=
  '(embeddings, metadata) ← generate_embeddings_v1 wv df;
  similarity ← calculate_similarity_matrix_v1 cosine embeddings;
  mret (export_to_json embeddings metadata similarity).

(** *** train_tflite_model.py: the index tables of [create_embedding_model] *)

(** The three tables the loop fills; [metadata_list], which no index
    depends on, and the Keras models built after the loop are left out. *)
Record index_tables := IndexTables {
  word_to_index : gmap string nat;
  index_to_word : gmap nat string;
  embeddings_list : list vec;
}.

(** One turn of [for idx, (_, row) in enumerate(df.iterrows())] *)
Definition index_row (wv : keyed_vectors) (idx : nat) (row : df_row) (acc : index_tables)
  : result index_tables :=
  let bisaya := Py.strip (str (Bisaya row)) in
  if kept bisaya then
    let bisaya_lower := Py.lower bisaya in
    embedding ← get_or_create_embedding wv 100 bisaya_lower;
    mret {| word_to_index := <[bisaya_lower := idx]> (word_to_index acc);
            index_to_word := <[idx := bisaya_lower]> (index_to_word acc);
            embeddings_list := embeddings_list acc ++ [embedding] |}
  else mret acc.

Fixpoint index_rows (wv : keyed_vectors) (idx : nat) (df : list df_row) (acc : index_tables)
  : result index_tables :=
  match df with
  | [] => mret acc
  | row :: rest => acc' ← index_row wv idx row acc; index_rows wv (S idx) rest acc'
  end.

Definition create_embedding_model (wv : keyed_vectors) (df : list df_row)
  : result index_tables :=
  index_rows wv 0 df (IndexTables ∅ ∅ []).

(** [vocab_size] as [create_embedding_model] gives it to the embedding
    layer, and as [save_metadata] writes it *)
Definition layer_vocab_size (t : index_tables) : nat := length (embeddings_list t).
Definition saved_vocab_size (t : index_tables) : nat := size (word_to_index t).

(** A model that knows the two words 'balay' and 'iro' *)
Definition balay_iro_model : keyed_vectors :=
  KeyedVectors 100 {[ "balay" := replicate 100 1%Q; "iro" := replicate 100 2%Q ]}.

End TrainData.

(** * Worked examples *)

Example lower_ex : Py.lower "Maayong Buntag" = "maayong buntag".
Proof. reflexivity. Qed.

Example strip_ex : Py.strip "  to eat " = "to eat".
Proof. reflexivity. Qed.

Example split_on_ex : Py.split_on "/" "hello/hi" = ["hello"; "hi"].
Proof. reflexivity. Qed.

Example split_ex : Py.split " good  morning " = ["good"; "morning"].
Proof. reflexivity. Qed.

Example remove_all_ex : Py.remove_all "mo" "momokaon" = "kaon".
Proof. reflexivity. Qed.

Example get_base_form_ex : Regenerate.get_base_form "Mokaon" = "kaon".
Proof. reflexivity. Qed.

Example past_tense_ex :
  Regenerate.past_tense_of <$> ["dance"; "carry"; "plan"; "jump"; "go"]
  = Ok <$> ["danced"; "carried"; "planned"; "jumped"; "goed"].
Proof. reflexivity. Qed.

Example greeting_ex :
  Regenerate.generate_examples_rule "Maayong buntag" "Magandang umaga"
    "good morning / morning" "Greeting"
  = Ok (Regenerate.Template Regenerate.Greeting "maayong",
        (("Maayong buntag.", "good morning.", "Magandang umaga."),
         ("Maayong buntag sa tanan!", "Good morning to everyone!",
          "Magandang umaga sa lahat!"),
         ("Maayong buntag! Kumusta ang imong adlaw?", "Good morning! How is your day?",
          "Magandang umaga! Kumusta ang iyong araw?"))).
Proof. reflexivity. Qed.

(** 'pronoun' contains 'noun': the noun rule takes it. *)
Example pronoun_ex :
  fst <$> Regenerate.generate_examples_rule "ako" "ako" "I" "Pronoun"
  = Ok (Regenerate.Template Regenerate.Noun "").
Proof. reflexivity. Qed.

Example sort_desc_ex :
  Train.sort_desc [("a", 1 # 2); ("b", 3 # 4); ("c", 1 # 2); ("d", 1)]%Q
  = [("d", 1); ("b", 3 # 4); ("a", 1 # 2); ("c", 1 # 2)]%Q.
Proof. reflexivity. Qed.

(** A locked dataset file: the run ends normally, the new rows stay in
    the temporary file and the old dataset is as it was. *)
Example locked_run_ex :
  let w := Regenerate.world_with 1700000000 [Regenerate.iro_entry] (Some [])
             {[Regenerate.output_path]} in
  let w' := (Regenerate.main w).2 in
  (Regenerate.main w).1 = Ok tt
  /\ Regenerate.files w' !! Regenerate.output_path = Some (Regenerate.CsvFile [])
  /\ is_Some (Regenerate.files w' !! Regenerate.temp_path 1700000000)
  /\ Regenerate.stdout w'
     = [Regenerate.Loading Regenerate.metadata_path; Regenerate.Loaded 1;
        Regenerate.Generating;
        Regenerate.Writing "lib/vocdataset/bisaya_dataset_1700000000.csv";
        Regenerate.BackupCreated "lib/vocdataset/bisaya_dataset.csv.backup";
        Regenerate.CouldNotReplace "lib/vocdataset/bisaya_dataset.csv";
        Regenerate.SavedAs "lib/vocdataset/bisaya_dataset_1700000000.csv";
        Regenerate.PleaseReplace "lib/vocdataset/bisaya_dataset.csv"
          "lib/vocdataset/bisaya_dataset_1700000000.csv";
        Regenerate.Columns].
Proof.
  cbv zeta. split; [|split; [|split]]; [vm_compute; reflexivity..| |vm_compute; reflexivity].
  vm_compute. by eexists.
Qed.

(** * Properties *)

(** ** Indexing and the string helpers never fail where the code uses them *)

Module PyFacts.
Import Py.

Lemma bind_ok {A B} (a : A) (f : A -> result B) : (Ok a ≫= f) = f a.
Proof. reflexivity. Qed.

Lemma item_ok {A} (l : list A) (i : Z) :
  (- Z.of_nat (length l) <= i < Z.of_nat (length l))%Z ->
  exists x, item l i = Ok x.
Proof.
  intros Hi. unfold item.
  set (j := if (i <? 0)%Z then (i + Z.of_nat (length l))%Z else i).
  assert (Hj : (0 <= j < Z.of_nat (length l))%Z).
  { subst j. destruct (Z.ltb_spec i 0); lia. }
  destruct (Z.leb_spec 0 j); [|lia].
  destruct (Z.ltb_spec j (Z.of_nat (length l))); [|lia].
  simpl. destruct (l !! Z.to_nat j) as [x|] eqn:Hl; [eauto|].
  apply lookup_ge_None in Hl. lia.
Qed.

Lemma split_on_nonempty (sep : ascii) (s : string) : split_on sep s <> [].
Proof.
  induction s as [|c s IH]; simpl; [discriminate|].
  destruct (Ascii.eqb c sep); [discriminate|].
  destruct (split_on sep s); discriminate.
Qed.

Lemma chars_length (s : string) : length (chars s) = String.length s.
Proof. induction s; simpl; congruence. Qed.

Lemma char_at_ok (s : string) (i : Z) :
  (- Z.of_nat (String.length s) <= i < Z.of_nat (String.length s))%Z ->
  exists c, char_at s i = Ok c.
Proof. intros Hi. apply item_ok. by rewrite chars_length. Qed.

(** *** Dictionaries *)

Lemma eqb_decide (a b : string) : String.eqb a b = bool_decide (a = b).
Proof.
  destruct (String.eqb_spec a b).
  - by rewrite bool_decide_eq_true_2.
  - by rewrite bool_decide_eq_false_2.
Qed.

Lemma elem_of_keys_dict_set {V} (k : string) (v : V) (d : pydict V) (x : string) :
  x ∈ keys (dict_set k v d) <-> x = k \/ x ∈ keys d.
Proof.
  unfold keys. induction d as [|[k' v'] d IH]; cbn [dict_set].
  - cbn. rewrite list_elem_of_singleton, elem_of_nil. tauto.
  - rewrite eqb_decide. case_bool_decide; subst; cbn; rewrite !elem_of_cons.
    + tauto.
    + unfold fmap in IH. rewrite IH. tauto.
Qed.

Lemma NoDup_keys_dict_set {V} (k : string) (v : V) (d : pydict V) :
  NoDup (keys d) -> NoDup (keys (dict_set k v d)).
Proof.
  unfold keys. induction d as [|[k' v'] d IH]; cbn [dict_set]; intros Hd.
  - cbn. apply NoDup_singleton.
  - rewrite eqb_decide. case_bool_decide; subst; cbn in *; [done|].
    apply NoDup_cons in Hd as [Hk' Hd]. apply NoDup_cons. split; [|by apply IH].
    intros Hin. apply (elem_of_keys_dict_set k v d k') in Hin as [?|?]; [congruence|done].
Qed.

Lemma dict_get_set_eq {V} (k : string) (v : V) (d : pydict V) :
  dict_get (dict_set k v d) k = Some v.
Proof.
  induction d as [|[k' v'] d IH]; cbn [dict_set dict_get].
  - by rewrite String.eqb_refl.
  - destruct (String.eqb k' k) eqn:E; cbn [dict_get]; by rewrite E.
Qed.

Lemma dict_get_set_ne {V} (k k0 : string) (v : V) (d : pydict V) :
  k <> k0 -> dict_get (dict_set k v d) k0 = dict_get d k0.
Proof.
  intros Hne. induction d as [|[k' v'] d IH]; cbn [dict_set dict_get].
  - by rewrite (proj2 (String.eqb_neq k k0)).
  - destruct (String.eqb k' k) eqn:E; cbn [dict_get]; [|by rewrite IH].
    apply String.eqb_eq in E as ->. by rewrite (proj2 (String.eqb_neq k k0)).
Qed.

Lemma dict_get_is_Some {V} (d : pydict V) (k : string) :
  k ∈ keys d -> is_Some (dict_get d k).
Proof.
  unfold keys. induction d as [|[k' v'] d IH]; cbn.
  - by intros ?%elem_of_nil.
  - rewrite elem_of_cons. destruct (String.eqb_spec k' k); [by eexists|].
    intros [?|?]; [congruence|by apply IH].
Qed.

Lemma length_remove_dups_le (l : list string) : length (remove_dups l) <= length l.
Proof.
  induction l as [|x l IH]; cbn; [done|]. case_decide; cbn; lia.
Qed.

Lemma length_remove_dups_eq (l : list string) :
  length (remove_dups l) = length l -> NoDup l.
Proof.
  induction l as [|x l IH]; cbn; [intros; apply NoDup_nil_2|].
  pose proof (length_remove_dups_le l). case_decide; cbn; intros Hlen; [lia|].
  apply NoDup_cons. split; [done|]. apply IH. lia.
Qed.

(** A list without duplicates that holds the elements of [l] has as many
    elements as [l] has distinct ones. *)
Lemma length_distinct (d l : list string) :
  NoDup d -> (forall x, x ∈ d <-> x ∈ l) -> length d = length (remove_dups l).
Proof.
  intros Hd Hsame. apply Permutation_length, NoDup_Permutation; [done|apply NoDup_remove_dups|].
  intros x. by rewrite Hsame, elem_of_remove_dups.
Qed.

Lemma dict_set_fresh {V} (k : string) (v : V) (d : pydict V) :
  k ∉ keys d -> dict_set k v d = d ++ [(k, v)].
Proof.
  unfold keys. induction d as [|[k' v'] d IH]; cbn; [done|].
  rewrite not_elem_of_cons. intros [Hne Hk].
  rewrite (proj2 (String.eqb_neq k' k)) by done. by rewrite IH.
Qed.

(** A list of pairs with distinct keys is read into a dict as it is. *)
Lemma dict_of_list_NoDup {V} (l : list (string * V)) :
  NoDup l.*1 -> dict_of_list l = l.
Proof.
  unfold dict_of_list.
  assert (H : forall acc : pydict V,
             NoDup (acc ++ l).*1 ->
             foldl (fun d kv => dict_set kv.1 kv.2 d) acc l = acc ++ l).
  { induction l as [|[k v] l IH]; intros acc Hnd; cbn [foldl].
    - by rewrite app_nil_r.
    - rewrite dict_set_fresh.
      + rewrite IH; rewrite <- app_assoc; done.
      + rewrite fmap_app in Hnd. apply NoDup_app in Hnd as (_ & Hdisj & _).
        intros Hk. apply (Hdisj k Hk). cbn. left. }
  intros Hl. by apply (H []).
Qed.

End PyFacts.

(** ** The example generator *)

Module RegenerateFacts.
Import Py PyFacts Regenerate Entries Rules.

Lemma head_of_ok (sep : ascii) (x : string) : exists y, head_of sep x = Ok y.
Proof.
  unfold head_of. apply item_ok.
  pose proof (split_on_nonempty sep x).
  destruct (split_on sep x); [done|]. simpl. lia.
Qed.

Lemma last_word_ok (x : string) : exists y, last_word x = Ok y.
Proof.
  unfold last_word.
  destruct (Nat.ltb_spec 1 (length (split x))); [|eexists; reflexivity].
  apply item_ok. lia.
Qed.

Lemma past_tense_of_ok (english_verb : string) :
  exists y, past_tense_of english_verb = Ok y.
Proof.
  unfold past_tense_of, mbind, result_bind, mret, result_ret.
  destruct (endswith english_verb "e"); [eexists; reflexivity|].
  destruct (endswith english_verb "y"); [eexists; reflexivity|].
  destruct (Nat.ltb_spec 1 (String.length english_verb)) as [Hlen|Hlen];
    [|eexists; reflexivity].
  destruct (char_at_ok english_verb (-1)) as [c1 Hc1]; [lia|].
  destruct (char_at_ok english_verb (-2)) as [c2 Hc2]; [lia|].
  rewrite Hc1. cbv beta iota.
  destruct (contains c1 "aeiou"); cbn [negb]; [eexists; reflexivity|].
  rewrite Hc2. cbv beta iota.
  destruct (contains c2 "aeiou"); eexists; reflexivity.
Qed.

(** Replace the next helper call of the goal by its value. *)
Ltac helper_value :=
  match goal with
  | |- context [head_of ?sep ?x] =>
      let y := fresh "y" in let H := fresh "H" in
      destruct (head_of_ok sep x) as [y H]; rewrite H; clear H; cbv beta iota
  | |- context [last_word ?x] =>
      let y := fresh "y" in let H := fresh "H" in
      destruct (last_word_ok x) as [y H]; rewrite H; clear H; cbv beta iota
  | |- context [past_tense_of ?x] =>
      let y := fresh "y" in let H := fresh "H" in
      destruct (past_tense_of_ok x) as [y H]; rewrite H; clear H; cbv beta iota
  end.

(** Take the next [if] of the cascade both ways. *)
Ltac next_arm :=
  match goal with
  | |- context [if ?c then _ else _] => destruct c eqn:?
  end.

(** Unfold the cascade down to its tests and leaves. *)
Ltac open_cascade :=
  unfold generate_examples_rule, fixed, template, mbind, result_bind, mret, result_ret.

(** On strings the cascade always ends in an arm that returns. *)
Lemma generate_examples_rule_total (bisaya tagalog english pos : string) :
  exists r ex, generate_examples_rule bisaya tagalog english pos = Ok (r, ex).
Proof.
  open_cascade.
  repeat first [ helper_value | solve [do 2 eexists; reflexivity] | next_arm ].
Qed.

(** With text for its word, translation and tag, and text or nothing for
    the Tagalog word, [generate_examples] returns what the cascade gives. *)
Lemma generate_examples_text (bisaya tagalog english pos : string) (category : pyval) :
  generate_examples (VStr bisaya) (VStr tagalog) (VStr english) (VStr pos) category
  = snd <$> generate_examples_rule bisaya tagalog english pos.
Proof.
  unfold generate_examples. cbn [as_str truthy]. rewrite !bind_ok.
  destruct tagalog; reflexivity.
Qed.

Lemma generate_examples_total (bisaya tagalog english pos : string) (category : pyval) :
  exists ex,
    generate_examples (VStr bisaya) (VStr tagalog) (VStr english) (VStr pos) category
    = Ok ex.
Proof.
  rewrite generate_examples_text.
  destruct (generate_examples_rule_total bisaya tagalog english pos) as (r & ex & ->).
  by exists ex.
Qed.

(** Split the disjunctions known to be false into their operands. *)
Ltac split_false :=
  repeat match goal with
         | H : (_ || _) = false |- _ => apply orb_false_elim in H as [? ?]
         end.

(** C5. For a word whose tag is greeting, expression or response and whose
    lower-cased form contains 'salamat' but neither 'kumusta' nor
    'maayong', [generate_examples] returns the three fixed thank-you
    triples, whatever the translations are. *)
Theorem salamat_examples (bisaya tagalog english pos : string) (category : pyval) :
  Py.mem (Py.lower pos) ["greeting"; "expression"; "response"] = true ->
  Py.contains "salamat" (Py.lower bisaya) = true ->
  Py.contains "kumusta" (Py.lower bisaya) = false ->
  Py.contains "maayong" (Py.lower bisaya) = false ->
  generate_examples (VStr bisaya) (VStr tagalog) (VStr english) (VStr pos) category
  = Ok (("Salamat.", "Thank you.", "Salamat."),
        ("Daghang salamat sa imong tabang.", "Thank you very much for your help.",
         "Maraming salamat sa iyong tulong."),
        ("Daghang salamat kaayo sa tanan nga imong nahimo.",
         "Thank you very much for everything you did.",
         "Maraming salamat sa lahat ng iyong ginawa.")).
Proof.
  intros Hpos Hsalamat Hkumusta Hmaayong.
  rewrite generate_examples_text.
  unfold generate_examples_rule. cbv zeta.
  rewrite Hpos, Hkumusta, Hmaayong, Hsalamat. reflexivity.
Qed.

Lemma salamat_examples_witness :
  generate_examples (VStr "Daghang Salamat") (VStr "Maraming salamat")
    (VStr "thank you very much") (VStr "Expression") (VStr "Common Phrases")
  = Ok (("Salamat.", "Thank you.", "Salamat."),
        ("Daghang salamat sa imong tabang.", "Thank you very much for your help.",
         "Maraming salamat sa iyong tulong."),
        ("Daghang salamat kaayo sa tanan nga imong nahimo.",
         "Thank you very much for everything you did.",
         "Maraming salamat sa lahat ng iyong ginawa.")).
Proof. apply salamat_examples; reflexivity. Defined.

(** The claim that a tag matching no rule leads to the generic arm fails:
    the word 'karon' with the default tag 'Unknown' takes the time rule. *)
Lemma unmatched_tag_special_word :
  ~ (forall bisaya tagalog english pos : string,
       tag_unmatched pos = true ->
       exists key ex,
         generate_examples_rule bisaya tagalog english pos
         = Ok (Template Default key, ex)).
Proof.
  intros H.
  destruct (H "karon" "ngayon" "now" "Unknown" eq_refl) as (key & ex & Heq).
  vm_compute in Heq. discriminate Heq.
Qed.

(** C7, amended. When the tag matches none of the tag tests and the
    lower-cased word contains none of the trigger words, the cascade ends
    in its last arm, phrase or word template, and [generate_examples]
    returns the three triples of that arm without raising. *)
Theorem unmatched_tag_generic (bisaya tagalog english pos : string) (category : pyval) :
  tag_unmatched pos = true ->
  Py.any_in trigger_words (Py.lower bisaya) = false ->
  exists ex,
    generate_examples_rule bisaya tagalog english pos
    = Ok (Template Default (if Py.contains " " bisaya then "phrase" else "word"), ex)
    /\ generate_examples (VStr bisaya) (VStr tagalog) (VStr english) (VStr pos) category
       = Ok ex.
Proof.
  intros Htag Hword.
  rewrite generate_examples_text.
  unfold tag_unmatched in Htag. cbv zeta in Htag.
  apply negb_true_iff in Htag.
  unfold Py.any_in, trigger_words in Hword. cbn [existsb] in Hword.
  split_false.
  open_cascade. cbv zeta. unfold Py.any_in. cbn [existsb].
  repeat match goal with H : _ = false |- _ => rewrite H; clear H end.
  cbn [orb]. cbv iota.
  repeat helper_value.
  destruct (Py.contains " " bisaya); eexists; split; reflexivity.
Qed.

Lemma unmatched_tag_generic_witness :
  exists ex,
    generate_examples_rule "sa ibabaw" "sa itaas" "on top (of)" "Preposition"
    = Ok (Template Default "phrase", ex)
    /\ generate_examples (VStr "sa ibabaw") (VStr "sa itaas") (VStr "on top (of)")
         (VStr "Preposition") (VStr "Uncategorized")
       = Ok ex.
Proof.
  apply (unmatched_tag_generic "sa ibabaw" "sa itaas" "on top (of)" "Preposition");
    reflexivity.
Defined.

(** *** Fixed and template arms *)



(** *** One turn of the loop *)

Lemma same_state_refl (w : world) : same_state w w.
Proof. by repeat split. Qed.

Lemma same_state_trans (w1 w2 w3 : world) :
  same_state w1 w2 -> same_state w2 w3 -> same_state w1 w3.
Proof. intros (? & ? & ?) (? & ? & ?). repeat split; congruence. Qed.

Lemma print_same_state (l : line) (w : world) :
  exists w', print l w = (Ok tt, w') /\ same_state w w'.
Proof. eexists. split; [reflexivity|]. by repeat split. Qed.

Lemma text_field_get (word_data : entry) (key dflt : string) :
  text_field word_data key -> exists s, get word_data key (VStr dflt) = VStr s.
Proof.
  unfold text_field, get. destruct (word_data !! key) as [[]|]; simpl; eauto; done.
Qed.

Lemma determine_category_text (pos english : string) :
  exists category, determine_category (VStr pos) (VStr english) = Ok category.
Proof. eexists. reflexivity. Qed.

(** A Tagalog value that is text, or falsy, is read as [tagalog_text]. *)
Lemma generate_examples_tagalog (bisaya english pos : string) (tagalog category : pyval) :
  Py.truthy tagalog = false \/ (exists t, tagalog = VStr t) ->
  generate_examples (VStr bisaya) tagalog (VStr english) (VStr pos) category
  = snd <$> generate_examples_rule bisaya (tagalog_text tagalog) english pos.
Proof.
  intros [Hfalse | [t ->]].
  - unfold generate_examples. cbn [as_str]. rewrite !bind_ok, Hfalse, bind_ok.
    by destruct tagalog as [| | |[|]].
  - apply generate_examples_text.
Qed.

Lemma process_entry_skipped (total i : nat) (word_data : entry) (w : world) :
  included word_data = false ->
  process_entry total i word_data w = (Ok None, w).
Proof.
  unfold included, process_entry. intros H.
  apply andb_false_iff in H as [-> | ->]; cbn [negb orb]; [done|].
  by rewrite orb_true_r.
Qed.

(** An included entry with text fields gives a row, and only prints. *)
Lemma process_entry_included (total i : nat) (word_data : entry) (w : world)
    (bisaya english pos : string) :
  get word_data "bisaya" (VStr "") = VStr bisaya ->
  get word_data "english" (VStr "") = VStr english ->
  get word_data "pos" (VStr "Unknown") = VStr pos ->
  (let tagalog := get word_data "tagalog" (VStr "") in
   Py.truthy tagalog = false \/ exists t, tagalog = VStr t) ->
  included word_data = true ->
  exists category r ex w',
    generate_examples_rule bisaya (tagalog_text (get word_data "tagalog" (VStr "")))
      english pos = Ok (r, ex)
    /\ process_entry total i word_data w
       = (Ok (Some (make_row (VStr bisaya) (get word_data "tagalog" (VStr ""))
                      (VStr english) (VStr pos)
                      (get word_data "pronunciation" (VStr "")) category ex)), w')
    /\ same_state w w'.
Proof.
  intros Hb He Hp Ht Hin. cbv zeta in Ht.
  unfold included in Hin. apply andb_true_iff in Hin as [Hb' He'].
  unfold process_entry. cbv zeta. rewrite Hb', He'. cbn [negb orb].
  rewrite Hb, He, Hp.
  destruct (determine_category_text pos english) as [category Hcat].
  destruct (generate_examples_rule_total bisaya
              (tagalog_text (get word_data "tagalog" (VStr ""))) english pos)
    as (r & ex & Hex).
  exists category, r, ex.
  unfold mbind, io_bind, io_try, lift. rewrite Hcat.
  rewrite generate_examples_tagalog by done. rewrite Hex. cbn [fmap result_fmap snd].
  destruct ((i + 1) mod 50 =? 0)%nat.
  - destruct (print_same_state (Processed (i + 1) total) w) as (w' & -> & Hw').
    exists w'. split; [done|]. split; [reflexivity|done].
  - exists w. split; [done|]. split; [reflexivity|apply same_state_refl].
Qed.




(** *** The loop *)

Lemma make_row_of (word_data : entry) (category : string) (ex : examples) :
  row_of word_data
    (make_row (get word_data "bisaya" (VStr "")) (get word_data "tagalog" (VStr ""))
       (get word_data "english" (VStr "")) (get word_data "pos" (VStr "Unknown"))
       (get word_data "pronunciation" (VStr "")) category ex).
Proof. destruct ex as [[[[? ?] ?] [[? ?] ?]] [[? ?] ?]]. by repeat split. Qed.

Lemma is_text_str (v : pyval) : Entries.is_text v = true -> exists s, v = VStr s.
Proof. destruct v; [done..|]. by eexists. Qed.

(** The loop over entries that are text where read, followed by more
    entries: the first part appends one row per included entry and only
    prints. *)
Lemma main_loop_text_app (total : nat) (first rest : list entry) :
  Forall (fun e => text_where_read e = true) first ->
  forall (i : nat) (csv_data : list row) (w : world),
  exists rows w1,
    main_loop total i (first ++ rest) csv_data w
    = main_loop total (i + length first) rest (csv_data ++ rows) w1
    /\ Forall2 row_of (filter (fun e => included e = true) first) rows
    /\ Forall has_word_and_translation rows
    /\ same_state w w1.
Proof.
  induction 1 as [|word_data first Hty _ IH]; intros i csv_data w.
  - exists [], w. rewrite app_nil_r, Nat.add_0_r. split; [reflexivity|].
    split; [constructor|]. split; [constructor|apply same_state_refl].
  - cbn [app main_loop length]. unfold mbind, io_bind.
    replace (i + S (length first)) with (S i + length first) by lia.
    unfold text_where_read in Hty.
    destruct (included word_data) eqn:Hin; cbn [negb orb] in Hty.
    + apply andb_true_iff in Hty as [Hty Ht].
      apply andb_true_iff in Hty as [Hty Hp].
      apply andb_true_iff in Hty as [Hb He].
      apply is_text_str in Hb as [bisaya Hb].
      apply is_text_str in He as [english He].
      apply is_text_str in Hp as [pos Hp].
      assert (Ht' : Py.truthy (get word_data "tagalog" (VStr "")) = false
                    \/ exists t, get word_data "tagalog" (VStr "") = VStr t).
      { apply orb_true_iff in Ht as [Ht|Ht].
        - left. by apply negb_true_iff.
        - right. by apply is_text_str. }
      destruct (process_entry_included total i word_data w bisaya english pos)
        as (category & r & ex & w1 & _ & -> & Hw1); auto.
      destruct (IH (S i) (csv_data ++
                  [make_row (VStr bisaya) (get word_data "tagalog" (VStr ""))
                     (VStr english) (VStr pos)
                     (get word_data "pronunciation" (VStr "")) category ex]) w1)
        as (rows & w' & -> & Hrows & Hne & Hw').
      eexists (_ :: rows), w'. rewrite <- app_assoc. split; [reflexivity|].
      rewrite filter_cons_True by done.
      split; [|split; [|by eapply same_state_trans]].
      * constructor; [|done]. rewrite <- Hb, <- He, <- Hp. apply make_row_of.
      * constructor; [|done]. exists bisaya, english.
        unfold included in Hin. rewrite Hb, He in Hin.
        apply andb_true_iff in Hin as [? ?].
        destruct ex as [[[[? ?] ?] [[? ?] ?]] [[? ?] ?]]. by repeat split.
    + rewrite process_entry_skipped by done.
      destruct (IH (S i) csv_data w) as (rows & w' & -> & Hrows & Hne & Hw').
      exists rows, w'. rewrite filter_cons_False by (rewrite Hin; done). done.
Qed.




(** *** The [except] clause *)

(** When [generate_examples] raises for an entry that reached it, the
    [except] clause prints its line and then raises [NameError]: the
    fallback is never built and the loop stops. *)
Lemma generation_error_aborts (total i : nat) (word_data : entry) (w : world)
    (category : string) (e : exn) :
  included word_data = true ->
  determine_category (get word_data "pos" (VStr "Unknown"))
    (get word_data "english" (VStr "")) = Ok category ->
  generate_examples (get word_data "bisaya" (VStr "")) (get word_data "tagalog" (VStr ""))
    (get word_data "english" (VStr "")) (get word_data "pos" (VStr "Unknown"))
    (VStr category) = Raise e ->
  exists w',
    process_entry total i word_data w = (Raise (NameError "make_example"), w')
    /\ stdout w' = stdout w ++ [GenerationError (get word_data "bisaya" (VStr "")) e]
    /\ same_state w w'.
Proof.
  intros Hin Hcat Hgen.
  unfold included in Hin. apply andb_true_iff in Hin as [Hb He].
  unfold process_entry. cbv zeta. rewrite Hb, He. cbn [negb orb].
  unfold mbind at 1, io_bind, lift at 1. rewrite Hcat.
  unfold mbind at 1, io_bind, io_try, lift at 1. rewrite Hgen.
  unfold mbind at 1, io_bind, print, lift.
  assert (Hfb : fallback_examples (get word_data "bisaya" (VStr ""))
                  (get word_data "tagalog" (VStr ""))
                  (get word_data "english" (VStr ""))
                = Raise (NameError "make_example")).
  { unfold determine_category in Hcat. unfold fallback_examples.
    destruct (as_str (get word_data "english" (VStr ""))) as [english|] eqn:Heng.
    - rewrite bind_ok.
      destruct (head_of_ok "/" english) as [e0 ->]. rewrite bind_ok.
      destruct (head_of_ok "(" e0) as [e1 ->]. rewrite bind_ok. reflexivity.
    - destruct (as_str (get word_data "pos" (VStr "Unknown"))); discriminate Hcat. }
  rewrite Hfb. eexists. split; [reflexivity|]. split; [reflexivity|]. by repeat split.
Qed.

(** C1, at a failing input. The first entry holds the number 1 as its
    Tagalog field, so [generate_examples] raises on it; the [except]
    clause prints its line, but then [main] stops with [NameError] on
    [make_example]: the second entry is never processed and no dataset is
    written. *)
Theorem fallback_raises_name_error :
  let w := world_with 1700000000 [number_entry; salamat_entry] None ∅ in
  generate_examples (VStr "usa") (VInt 1) (VStr "one") (VStr "Number") (VStr "Numbers")
  = Raise AttributeError
  /\ (main w).1 = Raise (NameError "make_example")
  /\ files (main w).2 = files w
  /\ stdout (main w).2
     = [Loading metadata_path; Loaded 2; Generating;
        GenerationError (VStr "usa") AttributeError].
Proof. cbv zeta. split; [|split; [|split]]; vm_compute; reflexivity. Qed.

End RegenerateFacts.

(** ** The dataset writer *)

Module WriterFacts.
Import Py Regenerate.

Lemma temp_path_not_output (t : Z) : temp_path t <> output_path.
Proof.
  intros H. apply (f_equal (String.get 29)) in H. vm_compute in H. discriminate H.
Qed.

Lemma temp_path_not_backup (t : Z) : temp_path t <> backup_path.
Proof.
  intros H. apply (f_equal (String.get 29)) in H. vm_compute in H. discriminate H.
Qed.

Lemma output_not_backup : output_path <> backup_path.
Proof. discriminate. Qed.

(** Run the file-system steps of the goal as far as the context decides
    them. *)
Ltac run :=
  repeat (progress (
    unfold with_files;
    cbn [files locked stdout clock bool_decide decide_rel is_Some_dec fst snd];
    rewrite ?lookup_insert_eq, ?lookup_delete_eq;
    rewrite ?lookup_insert_ne, ?lookup_delete_ne by done;
    repeat match goal with
      | H : ?m !! ?k = _ |- context [?m !! ?k] => rewrite H
      | H : ?p ∈ ?s |- context [bool_decide (?p ∈ ?s)] =>
          rewrite (bool_decide_eq_true_2 _ H)
      | H : ?p ∉ ?s |- context [bool_decide (?p ∈ ?s)] =>
          rewrite (bool_decide_eq_false_2 _ H)
      end;
    cbv beta iota)).

Ltac by_lock path w :=
  let H := fresh "Hlocked" in
  destruct (decide (path ∈ locked w)) as [H|H]; run.

(** When the replacement goes through and when it does not, by what is
    locked: it needs the dataset path free and, when a previous dataset
    exists, the backup path free. *)
Lemma replace_dataset_when (temp : string) (csv_data : list row) (w1 : world) (f : file) :
  files w1 !! temp = Some f -> temp ∉ locked w1 ->
  temp <> output_path -> temp <> backup_path ->
  (output_path ∉ locked w1 ->
   (is_Some (files w1 !! output_path) -> backup_path ∉ locked w1) ->
   exists w2,
     replace_dataset temp csv_data w1 = (Ok tt, w2)
     /\ files w2 !! output_path = Some f
     /\ files w2 !! temp = None
     /\ (forall old, files w1 !! output_path = Some old ->
                     files w2 !! backup_path = Some old)
     /\ Success output_path (length csv_data - 1) ∈ stdout w2)
  /\ (output_path ∈ locked w1
      \/ (is_Some (files w1 !! output_path) /\ backup_path ∈ locked w1) ->
      exists p w2,
        replace_dataset temp csv_data w1 = (Raise (PermissionError p), w2)
        /\ p ∈ locked w1
        /\ files w2 !! temp = Some f
        /\ files w2 !! output_path = files w1 !! output_path).
Proof.
  intros Htemp Hlock Hto Htb.
  pose proof output_not_backup as Hob.
  unfold replace_dataset, mbind, io_bind, path_exists, remove, copy2, move, print, mret, io_ret.
  split.
  - intros Hout Hbackup.
    destruct (files w1 !! output_path) as [old|] eqn:Hold; run.
    + assert (Hb : backup_path ∉ locked w1) by (apply Hbackup; by eexists).
      destruct (files w1 !! backup_path) as [oldb|] eqn:Hbak; run.
      * eexists. split; [reflexivity|]. run. split; [done|]. split; [done|].
        split; [by intros ? [= <-]|].
        rewrite !elem_of_app, !list_elem_of_singleton. tauto.
      * eexists. split; [reflexivity|]. run. split; [done|]. split; [done|].
        split; [by intros ? [= <-]|].
        rewrite !elem_of_app, !list_elem_of_singleton. tauto.
    + eexists. split; [reflexivity|]. run. split; [done|]. split; [done|].
      split; [done|]. rewrite !elem_of_app, !list_elem_of_singleton. tauto.
  - intros Hlocked.
    destruct (files w1 !! output_path) as [old|] eqn:Hold; run.
    + destruct (files w1 !! backup_path) as [oldb|] eqn:Hbak; run.
      * by_lock backup_path w1.
        { exists backup_path, w1. done. }
        destruct Hlocked as [Hl | [_ Hl]]; [|done]. run.
        eexists _, _. split; [reflexivity|]. run. done.
      * by_lock backup_path w1.
        { exists backup_path, w1. done. }
        destruct Hlocked as [Hl | [_ Hl]]; [|done]. run.
        eexists _, _. split; [reflexivity|]. run. done.
    + destruct Hlocked as [Hl | [[? [=]] _]]. run.
      eexists _, _. split; [reflexivity|]. run. done.
Qed.

(** C3. The writer first writes all the rows to the temporary file,
    leaving the dataset file as it was, and the run then ends normally.
    The replacement goes through exactly when the dataset path is not
    locked and, if a previous dataset exists, the backup path is not
    locked either: then the dataset file holds the new rows, the temporary
    file is gone, the backup holds the previous dataset and the success
    line is printed. Otherwise the replacement raises [PermissionError] on
    a locked path: the temporary file is still there with the new rows,
    its path is printed, and the dataset file holds what it held before
    the run. *)
Theorem writer_outcome (t : Z) (csv_data : list row) (w : world) :
  temp_path t ∉ locked w ->
  let temp := temp_path t in
  let w1 := after_temp_write temp csv_data w in
  files w1 !! temp = Some (CsvFile csv_data)
  /\ files w1 !! output_path = files w !! output_path
  /\ exists w',
      write_dataset temp csv_data w = (Ok tt, w')
      /\ (output_path ∉ locked w ->
          (is_Some (files w !! output_path) -> backup_path ∉ locked w) ->
          (replace_dataset temp csv_data w1).1 = Ok tt
          /\ files w' !! output_path = Some (CsvFile csv_data)
          /\ files w' !! temp = None
          /\ (forall old, files w !! output_path = Some old ->
                          files w' !! backup_path = Some old)
          /\ Success output_path (length csv_data - 1) ∈ stdout w')
      /\ (output_path ∈ locked w
          \/ (is_Some (files w !! output_path) /\ backup_path ∈ locked w) ->
          (exists p, p ∈ locked w
                     /\ (replace_dataset temp csv_data w1).1 = Raise (PermissionError p))
          /\ files w' !! temp = Some (CsvFile csv_data)
          /\ files w' !! output_path = files w !! output_path
          /\ SavedAs temp ∈ stdout w').
Proof.
  intros Hlock temp w1.
  pose proof (temp_path_not_output t) as Hto.
  pose proof (temp_path_not_backup t) as Htb.
  fold temp in Hlock, Hto, Htb.
  assert (Hw1 : w1 = World (clock w) (<[temp := CsvFile csv_data]> (files w)) (locked w)
                       (stdout w ++ [Writing temp])).
  { subst w1. unfold after_temp_write, write_csv, print. run. done. }
  clearbody w1 temp.
  assert (Htemp : files w1 !! temp = Some (CsvFile csv_data)) by (subst w1; by run).
  assert (Hout : files w1 !! output_path = files w !! output_path) by (subst w1; by run).
  assert (Hlock1 : temp ∉ locked w1) by (by subst w1).
  assert (Hlocks : locked w1 = locked w) by (by subst w1).
  split; [done|]. split; [done|].
  unfold write_dataset, mbind, io_bind, io_try, write_csv, print at 1. run.
  rewrite <- Hw1.
  destruct (replace_dataset_when temp csv_data w1 _ Htemp Hlock1 Hto Htb) as [Hfree Hheld].
  rewrite Hlocks, Hout in Hfree, Hheld.
  destruct (decide (output_path ∈ locked w)) as [Hol|Hol].
  - destruct Hheld as (p & w2 & Hrun & Hp & Hkept & Hsame); [by left|].
    rewrite Hrun. eexists. split; [reflexivity|].
    unfold mbind, io_bind, print. run. split; [done|]. intros _.
    split; [by exists p|]. split; [done|]. split; [congruence|].
    rewrite !elem_of_app, !list_elem_of_singleton. tauto.
  - destruct (decide (is_Some (files w !! output_path) /\ backup_path ∈ locked w))
      as [Hbl|Hbl].
    + destruct Hheld as (p & w2 & Hrun & Hp & Hkept & Hsame); [by right|].
      rewrite Hrun. eexists. split; [reflexivity|].
      unfold mbind, io_bind, print. run. split.
      { intros _ Hfreeb. destruct Hbl as [Hsome Hb]. by destruct (Hfreeb Hsome). }
      intros _. split; [by exists p|]. split; [done|]. split; [congruence|].
      rewrite !elem_of_app, !list_elem_of_singleton. tauto.
    + destruct Hfree as (w2 & Hrun & Hnew & Hgone & Hbackup & Hline); [done| |].
      { intros Hsome Hb. apply Hbl. by split. }
      rewrite Hrun. eexists. split; [reflexivity|]. unfold print. run. split.
      * intros _ _. split; [done|]. split; [done|]. split; [done|]. split; [done|].
        rewrite elem_of_app. by left.
      * intros [?|?]; done.
Qed.

(** A run with nothing locked, which replaces the dataset, and a run with
    the dataset locked, which leaves the temporary file. *)
Lemma writer_outcome_witness :
  (let w := world_with 1700000000 [] (Some [header]) ∅ in
   let temp := temp_path 1700000000 in
   let w1 := after_temp_write temp [header; header] w in
   files w1 !! temp = Some (CsvFile [header; header])
   /\ files w1 !! output_path = files w !! output_path
   /\ exists w',
       write_dataset temp [header; header] w = (Ok tt, w')
       /\ (output_path ∉ locked w ->
           (is_Some (files w !! output_path) -> backup_path ∉ locked w) ->
           (replace_dataset temp [header; header] w1).1 = Ok tt
           /\ files w' !! output_path = Some (CsvFile [header; header])
           /\ files w' !! temp = None
           /\ (forall old, files w !! output_path = Some old ->
                           files w' !! backup_path = Some old)
           /\ Success output_path (length [header; header] - 1) ∈ stdout w')
       /\ (output_path ∈ locked w
           \/ (is_Some (files w !! output_path) /\ backup_path ∈ locked w) ->
           (exists p, p ∈ locked w
                      /\ (replace_dataset temp [header; header] w1).1
                         = Raise (PermissionError p))
           /\ files w' !! temp = Some (CsvFile [header; header])
           /\ files w' !! output_path = files w !! output_path
           /\ SavedAs temp ∈ stdout w'))
  /\
  (let w := world_with 1700000000 [] (Some [header]) {[output_path]} in
   let temp := temp_path 1700000000 in
   let w1 := after_temp_write temp [header; header] w in
   files w1 !! temp = Some (CsvFile [header; header])
   /\ files w1 !! output_path = files w !! output_path
   /\ exists w',
       write_dataset temp [header; header] w = (Ok tt, w')
       /\ (output_path ∉ locked w ->
           (is_Some (files w !! output_path) -> backup_path ∉ locked w) ->
           (replace_dataset temp [header; header] w1).1 = Ok tt
           /\ files w' !! output_path = Some (CsvFile [header; header])
           /\ files w' !! temp = None
           /\ (forall old, files w !! output_path = Some old ->
                           files w' !! backup_path = Some old)
           /\ Success output_path (length [header; header] - 1) ∈ stdout w')
       /\ (output_path ∈ locked w
           \/ (is_Some (files w !! output_path) /\ backup_path ∈ locked w) ->
           (exists p, p ∈ locked w
                      /\ (replace_dataset temp [header; header] w1).1
                         = Raise (PermissionError p))
           /\ files w' !! temp = Some (CsvFile [header; header])
           /\ files w' !! output_path = files w !! output_path
           /\ SavedAs temp ∈ stdout w')).
Proof.
  split.
  - apply (writer_outcome 1700000000 [header; header]
             (world_with 1700000000 [] (Some [header]) ∅)).
    vm_compute. intros H. discriminate H.
  - apply (writer_outcome 1700000000 [header; header]
             (world_with 1700000000 [] (Some [header]) {[output_path]})).
    vm_compute. intros H. discriminate H.
Defined.

(** ** Determinism of the run *)

Lemma add_lines_nil (w : world) : add_lines [] w = w.
Proof. destruct w. unfold add_lines. cbn. by rewrite app_nil_r. Qed.

Lemma add_lines_app (l1 l2 : list line) (w : world) :
  add_lines l2 (add_lines l1 w) = add_lines (l1 ++ l2) w.
Proof. unfold add_lines. cbn. by rewrite app_assoc. Qed.

Lemma print_add_lines (l : line) (w : world) : print l w = (Ok tt, add_lines [l] w).
Proof. reflexivity. Qed.

(** One turn of the loop computes its result from the entry alone and only
    prints. *)
Lemma process_entry_pure (total i : nat) (word_data : entry) :
  exists r ls, forall w, process_entry total i word_data w = (r, add_lines ls w).
Proof.
  unfold process_entry. cbv zeta.
  set (bisaya := get word_data "bisaya" (VStr "")).
  set (tagalog := get word_data "tagalog" (VStr "")).
  set (english := get word_data "english" (VStr "")).
  set (pos := get word_data "pos" (VStr "Unknown")).
  destruct (negb (truthy bisaya) || negb (truthy english)).
  { exists (Ok None), []. intros w. by rewrite add_lines_nil. }
  unfold mbind, io_bind, io_try, lift.
  destruct (determine_category pos english) as [category|e].
  2: { exists (Raise e), []. intros w. by rewrite add_lines_nil. }
  destruct (generate_examples bisaya tagalog english pos (VStr category)) as [ex|e].
  - destruct ((i + 1) mod 50 =? 0)%nat.
    + eexists _, [_]. intros w. rewrite print_add_lines. reflexivity.
    + eexists _, []. intros w. by rewrite add_lines_nil.
  - destruct (fallback_examples bisaya tagalog english) as [ex|e'].
    + destruct ((i + 1) mod 50 =? 0)%nat.
      * eexists _, [_; _]. intros w. rewrite !print_add_lines, add_lines_app. reflexivity.
      * eexists _, [_]. intros w. rewrite print_add_lines. reflexivity.
    + eexists _, [_]. intros w. rewrite print_add_lines. reflexivity.
Qed.

Lemma main_loop_pure (total : nat) (metadata : list entry) :
  forall (i : nat) (csv_data : list row),
  exists r ls, forall w, main_loop total i metadata csv_data w = (r, add_lines ls w).
Proof.
  induction metadata as [|word_data metadata IH]; intros i csv_data.
  - exists (Ok csv_data), []. intros w. by rewrite add_lines_nil.
  - cbn [main_loop]. unfold mbind, io_bind.
    destruct (process_entry_pure total i word_data) as ([r|e] & ls & Hstep).
    + destruct (IH (S i) (match r with
                          | Some new_row => csv_data ++ [new_row]
                          | None => csv_data
                          end)) as (r' & ls' & Hrest).
      exists r', (ls ++ ls'). intros w. by rewrite Hstep, Hrest, add_lines_app.
    + exists (Raise e), ls. intros w. by rewrite Hstep.
Qed.

Lemma build_rows_pure (metadata : list entry) :
  exists r ls, forall w, build_rows metadata w = (r, add_lines ls w).
Proof.
  unfold build_rows, mbind, io_bind.
  destruct (main_loop_pure (length metadata) metadata 0 [header]) as (r & ls & Hloop).
  exists r, (Generating :: ls). intros w.
  by rewrite print_add_lines, Hloop, add_lines_app.
Qed.

(** With nothing locked the writer replaces the dataset and touches no
    path but the temporary file, the dataset and its backup. *)
Lemma write_dataset_unlocked (temp : string) (csv_data : list row) (w : world) :
  locked w = ∅ -> temp <> output_path -> temp <> backup_path ->
  exists w',
    write_dataset temp csv_data w = (Ok tt, w')
    /\ files w' !! output_path = Some (CsvFile csv_data)
    /\ locked w' = ∅
    /\ forall p, p <> temp -> p <> output_path -> p <> backup_path ->
                 files w' !! p = files w !! p.
Proof.
  intros Hl Hto Htb.
  pose proof output_not_backup as Hob.
  assert (Ht : temp ∉ locked w) by (rewrite Hl; set_solver).
  assert (Ho : output_path ∉ locked w) by (rewrite Hl; set_solver).
  assert (Hb : backup_path ∉ locked w) by (rewrite Hl; set_solver).
  unfold write_dataset, replace_dataset, mbind, io_bind, io_try, write_csv,
    path_exists, remove, copy2, move, print, mret, io_ret.
  run.
  destruct (files w !! output_path) as [old|] eqn:Hout; run.
  - destruct (files w !! backup_path) as [oldb|] eqn:Hbak; run.
    + eexists. split; [reflexivity|]. run. split; [done|]. split; [done|].
      intros p ? ? ?. by run.
    + eexists. split; [reflexivity|]. run. split; [done|]. split; [done|].
      intros p ? ? ?. by run.
  - eexists. split; [reflexivity|]. run. split; [done|]. split; [done|].
    intros p ? ? ?. by run.
Qed.

Lemma metadata_not_temp (t : Z) : metadata_path <> temp_path t.
Proof.
  intros H. apply (f_equal (String.get 0)) in H. vm_compute in H. discriminate H.
Qed.

(** The rows built from a metadata list are the same in every world. *)
Lemma build_rows_any_world (metadata : list entry) (w1 w2 : world) :
  (build_rows metadata w1).1 = (build_rows metadata w2).1.
Proof.
  destruct (build_rows_pure metadata) as (r & ls & H). by rewrite !H.
Qed.

(** [main], step by step. *)
Lemma main_steps (w : world) :
  main w =
  let w0 := add_lines [Loading metadata_path] w in
  match files w !! metadata_path with
  | None => (Raise (FileNotFoundError metadata_path), w0)
  | Some (CsvFile _) => (Raise ValueError, w0)
  | Some (JsonFile md) =>
      let metadata := default [] md in
      match build_rows metadata (add_lines [Loaded (length metadata)] w0) with
      | (Ok rows, w1) => write_dataset (temp_path (clock w)) rows w1
      | (Raise e, w1) => (Raise e, w1)
      end
  end.
Proof.
  unfold main, mbind, io_bind, now, load_metadata.
  rewrite print_add_lines. cbn [files add_lines].
  destruct (files w !! metadata_path) as [[md|?]|]; reflexivity.
Qed.

(** What a run does when nothing is locked. *)
Lemma main_unlocked (w : world) :
  locked w = ∅ ->
  locked (main w).2 = ∅
  /\ match files w !! metadata_path with
     | Some (JsonFile metadata) =>
         match (build_rows (default [] metadata) w).1 with
         | Ok rows =>
             (main w).1 = Ok tt
             /\ files (main w).2 !! output_path = Some (CsvFile rows)
             /\ files (main w).2 !! metadata_path = files w !! metadata_path
         | Raise e => (main w).1 = Raise e /\ files (main w).2 = files w
         end
     | Some (CsvFile _) => (main w).1 = Raise ValueError /\ files (main w).2 = files w
     | None =>
         (main w).1 = Raise (FileNotFoundError metadata_path)
         /\ files (main w).2 = files w
     end.
Proof.
  intros Hl. rewrite main_steps. cbv zeta.
  destruct (files w !! metadata_path) as [[metadata|?]|] eqn:Hmd; [|done..].
  destruct (build_rows_pure (default [] metadata)) as (r & ls & Hrows).
  rewrite !Hrows. cbn [fst].
  destruct r as [rows|e]; [|done].
  destruct (write_dataset_unlocked (temp_path (clock w)) rows
              (add_lines ls (add_lines [Loaded (length (default [] metadata))]
                 (add_lines [Loading metadata_path] w))))
    as (w' & -> & Hout & Hl' & Hframe);
    [done | apply temp_path_not_output | apply temp_path_not_backup |].
  cbn [fst snd]. split; [done|]. split; [done|]. split; [done|].
  rewrite Hframe; [done | apply metadata_not_temp | done | done].
Qed.

(** C2. The rows depend on the metadata alone: with nothing locked, a
    second run at any later time ends as the first did and leaves in the
    dataset file exactly what the first run left there; when the runs end
    normally, these are the header and the rows built from the metadata
    list, the same in every world. The time only names the temporary
    file. *)
Theorem run_twice_same_rows (w : world) (t : Z) :
  locked w = ∅ ->
  let w' := (main w).2 in
  let w'' := (main (at_time t w')).2 in
  (main (at_time t w')).1 = (main w).1
  /\ files w'' !! output_path = files w' !! output_path
  /\ ((main w).1 = Ok tt ->
      exists metadata rows,
        files w !! metadata_path = Some (JsonFile metadata)
        /\ (forall w0, (build_rows (default [] metadata) w0).1 = Ok rows)
        /\ files w' !! output_path = Some (CsvFile rows)
        /\ files w'' !! output_path = Some (CsvFile rows)).
Proof.
  intros Hl w' w''.
  destruct (main_unlocked w Hl) as [Hl' Hrun].
  assert (Hl2 : locked (at_time t w') = ∅) by done.
  destruct (main_unlocked (at_time t w') Hl2) as [_ Hrun'].
  fold w'' in Hrun'. fold w' in Hrun. cbn [files at_time] in Hrun'.
  destruct (files w !! metadata_path) as [[metadata|?]|] eqn:Hmd.
  - destruct ((build_rows (default [] metadata) w).1) as [rows|e] eqn:Hrows.
    + destruct Hrun as (Hok & Hout & Hkeep). rewrite Hkeep in Hrun'.
      rewrite (build_rows_any_world _ (at_time t w') w), Hrows in Hrun'.
      destruct Hrun' as (Hok' & Hout' & _).
      split; [congruence|]. split; [congruence|]. intros _.
      exists metadata, rows. split; [done|]. split; [|by split].
      intros w0. by rewrite (build_rows_any_world _ w0 w).
    + destruct Hrun as (Herr & Hsame). rewrite Hsame, Hmd in Hrun'.
      rewrite (build_rows_any_world _ (at_time t w') w), Hrows in Hrun'.
      destruct Hrun' as (Herr' & Hsame').
      split; [congruence|]. split; [by rewrite Hsame', Hsame|]. congruence.
  - destruct Hrun as (Herr & Hsame). rewrite Hsame, Hmd in Hrun'.
    destruct Hrun' as (Herr' & Hsame').
    split; [congruence|]. split; [by rewrite Hsame', Hsame|]. congruence.
  - destruct Hrun as (Herr & Hsame). rewrite Hsame, Hmd in Hrun'.
    destruct Hrun' as (Herr' & Hsame').
    split; [congruence|]. split; [by rewrite Hsame', Hsame|]. congruence.
Qed.

Lemma run_twice_same_rows_witness :
  let w := world_with 1700000000 [salamat_entry; untranslated_entry; iro_entry]
             (Some [header]) ∅ in
  let w' := (main w).2 in
  let w'' := (main (at_time 1700000600 w')).2 in
  (main (at_time 1700000600 w')).1 = (main w).1
  /\ files w'' !! output_path = files w' !! output_path
  /\ ((main w).1 = Ok tt ->
      exists metadata rows,
        files w !! metadata_path = Some (JsonFile metadata)
        /\ (forall w0, (build_rows (default [] metadata) w0).1 = Ok rows)
        /\ files w' !! output_path = Some (CsvFile rows)
        /\ files w'' !! output_path = Some (CsvFile rows)).
Proof.
  apply (run_twice_same_rows
           (world_with 1700000000 [salamat_entry; untranslated_entry; iro_entry]
              (Some [header]) ∅) 1700000600).
  reflexivity.
Defined.

End WriterFacts.

(** ** The embeddings of the training tools *)

Module TrainFacts.
Import Py PyFacts Train.

Lemma in_vocab_true (wv : keyed_vectors) (w : string) :
  in_vocab wv w = true <-> is_Some (vectors wv !! w).
Proof. unfold in_vocab. apply bool_decide_eq_true. Qed.

Lemma mapM_cons {A B} (f : A -> result B) (x : A) (l : list A) :
  mapM f (x :: l) = y ← f x; k ← mapM f l; mret (y :: k).
Proof. reflexivity. Qed.

(** Looking up the words that passed the vocabulary test never fails. *)
Lemma mapM_in_vocab (wv : keyed_vectors) (words : list string) :
  mapM (wv_item wv) (filter (fun w => in_vocab wv w = true) words)
  = Ok (found_vectors wv words).
Proof.
  induction words as [|w words IH]; [reflexivity|].
  unfold found_vectors. cbn [omap list_omap].
  destruct (vectors wv !! w) as [v|] eqn:Hw.
  - rewrite filter_cons_True by (apply in_vocab_true; by rewrite Hw).
    assert (Hitem : wv_item wv w = Ok v) by (unfold wv_item; by rewrite Hw).
    rewrite mapM_cons, Hitem, bind_ok, IH, bind_ok. reflexivity.
  - rewrite filter_cons_False; [done|].
    rewrite in_vocab_true, Hw. by intros [? ?].
Qed.

Lemma found_vectors_dim (wv : keyed_vectors) (words : list string) :
  trained wv -> Forall (fun v => length v = 100) (found_vectors wv words).
Proof.
  intros [_ Hdim]. induction words as [|w words IH]; [constructor|].
  unfold found_vectors. cbn [omap list_omap].
  destruct (vectors wv !! w) as [v|] eqn:Hw; [|done].
  constructor; [by eapply Hdim|done].
Qed.

Lemma vadd_length (a b : vec) : length a = length b -> length (vadd a b) = length a.
Proof. intros H. unfold vadd. rewrite length_zip_with. lia. Qed.

Lemma foldl_vadd_length (n : nat) (rest : list vec) :
  forall v, length v = n -> Forall (fun u => length u = n) rest ->
  length (foldl vadd v rest) = n.
Proof.
  induction rest as [|u rest IH]; intros v Hv Hrest; [done|].
  inversion Hrest; subst. cbn [foldl]. apply IH; [|done].
  rewrite vadd_length; congruence.
Qed.

Lemma foldl_vadd_lookup (n k : nat) (rest : list vec) :
  forall v, length v = n -> Forall (fun u => length u = n) rest -> k < n ->
  foldl vadd v rest !! k
  = Some (foldl (fun acc u => acc + default 0 (u !! k)) (default 0 (v !! k)) rest)%Q.
Proof.
  induction rest as [|u rest IH]; intros v Hv Hrest Hk.
  - cbn [foldl]. destruct (lookup_lt_is_Some_2 v k) as [x ->]; [lia|]. done.
  - inversion Hrest as [|? ? Hu Hrest']; subst. cbn [foldl].
    rewrite IH; [|rewrite vadd_length; congruence|done|done].
    do 2 f_equal. unfold vadd. rewrite lookup_zip_with.
    destruct (lookup_lt_is_Some_2 v k) as [x ->]; [lia|].
    destruct (lookup_lt_is_Some_2 u k) as [y ->]; [lia|]. done.
Qed.

(** [np.mean] of vectors of one length is their component-wise mean. *)
Lemma np_mean_spec (n : nat) (v : vec) (rest : list vec) :
  length v = n -> Forall (fun u => length u = n) rest ->
  exists m,
    np_mean v rest = Ok m /\ length m = n
    /\ forall k, k < n -> m !! k = Some (mean_at k v rest).
Proof.
  intros Hv Hrest. unfold np_mean.
  assert (Hshape : forallb (fun u => length u =? length v)%nat rest = true).
  { apply forallb_forall. intros u Hu. apply Nat.eqb_eq.
    rewrite Forall_forall in Hrest. rewrite Hv. apply Hrest.
    by apply list_elem_of_In. }
  rewrite Hshape. eexists. split; [reflexivity|]. split.
  - rewrite length_fmap. by apply foldl_vadd_length.
  - intros k Hk. rewrite list_lookup_fmap, (foldl_vadd_lookup n) by done. reflexivity.
Qed.

(** The three cases of the embedding step, for a trained model. *)
Lemma get_or_create_embedding_spec (wv : keyed_vectors) (zero_dim : nat) (bisaya_lower : string) :
  trained wv -> zero_dim = 100 \/ zero_dim = vector_size wv ->
  exists embedding,
    get_or_create_embedding wv zero_dim bisaya_lower = Ok embedding
    /\ length embedding = 100
    /\ match vectors wv !! bisaya_lower with
       | Some v => embedding = v
       | None =>
           match found_vectors wv (Py.split bisaya_lower) with
           | [] => embedding = replicate 100 0%Q
           | v :: rest => forall k, k < 100 -> embedding !! k = Some (mean_at k v rest)
           end
       end.
Proof.
  intros Hwv Hdim.
  assert (Hzero : zero_dim = 100) by (destruct Hwv as [? _]; destruct Hdim; congruence).
  unfold get_or_create_embedding.
  destruct (vectors wv !! bisaya_lower) as [v|] eqn:Hw.
  - assert (in_vocab wv bisaya_lower = true) as -> by (apply in_vocab_true; by rewrite Hw).
    unfold wv_item. rewrite Hw.
    exists v. split; [done|]. split; [|done]. destruct Hwv as [_ Hlen]. by eapply Hlen.
  - assert (in_vocab wv bisaya_lower = false) as ->.
    { apply not_true_is_false. rewrite in_vocab_true, Hw. by intros [? ?]. }
    cbv zeta. rewrite mapM_in_vocab, bind_ok.
    pose proof (found_vectors_dim wv (Py.split bisaya_lower) Hwv) as Hfound.
    destruct (found_vectors wv (Py.split bisaya_lower)) as [|v rest].
    + eexists. split; [reflexivity|]. subst zero_dim. by rewrite length_replicate.
    + inversion Hfound as [|? ? Hv Hrest]; subst.
      destruct (np_mean_spec 100 v rest Hv Hrest) as (m & -> & Hlen & Hmean).
      by exists m.
Qed.

(** C8. With a trained model the embedding step returns a vector of
    dimension 100 for every word and never raises: the vector of the word
    when the lower-cased word is in the vocabulary; otherwise the
    component-wise mean of the vectors of those of its white-space
    separated sub-words that are in the vocabulary, when there are some;
    otherwise the zero vector. The fallback length is 100 in
    train_json_model.py and the vector size of the model in
    train_model.py. *)
Theorem embedding_never_fails (wv : keyed_vectors) (zero_dim : nat) (bisaya_lower : string) :
  trained wv -> zero_dim = 100 \/ zero_dim = vector_size wv ->
  exists embedding,
    get_or_create_embedding wv zero_dim bisaya_lower = Ok embedding
    /\ length embedding = 100
    /\ match vectors wv !! bisaya_lower with
       | Some v => embedding = v
       | None =>
           match found_vectors wv (Py.split bisaya_lower) with
           | [] => embedding = replicate 100 0%Q
           | v :: rest => forall k, k < 100 -> embedding !! k = Some (mean_at k v rest)
           end
       end.
Proof. apply get_or_create_embedding_spec. Qed.

Lemma embedding_never_fails_witness :
  exists embedding,
    get_or_create_embedding sample_model 100 "maayong buntag" = Ok embedding
    /\ length embedding = 100
    /\ match vectors sample_model !! "maayong buntag" with
       | Some v => embedding = v
       | None =>
           match found_vectors sample_model (Py.split "maayong buntag") with
           | [] => embedding = replicate 100 0%Q
           | v :: rest => forall k, k < 100 -> embedding !! k = Some (mean_at k v rest)
           end
       end.
Proof.
  apply (embedding_never_fails sample_model 100 "maayong buntag").
  - split; [reflexivity|]. intros w v H. unfold sample_model in H. cbn [vectors] in H.
    apply lookup_singleton_Some in H as [_ <-]. reflexivity.
  - left. reflexivity.
Defined.

(** *** Sorting by decreasing score *)

Lemma insert_desc_perm (x : string * Q) (l : list (string * Q)) :
  insert_desc x l ≡ₚ x :: l.
Proof.
  induction l as [|y l IH]; cbn [insert_desc]; [done|].
  destruct (Qle_bool y.2 x.2); [done|]. by rewrite IH, Permutation_swap.
Qed.

Lemma sort_desc_perm (l : list (string * Q)) : sort_desc l ≡ₚ l.
Proof.
  induction l as [|x l IH]; cbn; [done|]. by rewrite insert_desc_perm, IH.
Qed.

Lemma insert_desc_sorted (x : string * Q) (l : list (string * Q)) :
  sorted_desc l -> sorted_desc (insert_desc x l).
Proof.
  unfold sorted_desc.
  induction l as [|y l IH]; cbn [insert_desc]; intros Hl.
  - repeat constructor.
  - apply StronglySorted_inv in Hl as [Hl Hy].
    destruct (Qle_bool y.2 x.2) eqn:E.
    + apply Qle_bool_iff in E. constructor; [by constructor|].
      constructor; [done|]. eapply Forall_impl; [exact Hy|].
      intros z Hz. unfold by_score_desc in *. by eapply Qle_trans.
    + assert (Hxy : (x.2 <= y.2)%Q).
      { apply Qlt_le_weak, Qnot_le_lt. intros Hle. apply Qle_bool_iff in Hle. congruence. }
      constructor; [by apply IH|].
      rewrite insert_desc_perm. by constructor.
Qed.

Lemma sort_desc_sorted (l : list (string * Q)) : sorted_desc (sort_desc l).
Proof.
  induction l as [|x l IH]; cbn; [constructor|]. by apply insert_desc_sorted.
Qed.

Lemma sorted_desc_take (n : nat) (l : list (string * Q)) :
  sorted_desc l -> sorted_desc (take n l).
Proof.
  unfold sorted_desc. intros Hl. rewrite <- (take_drop n l) in Hl.
  by apply StronglySorted_app_1_l in Hl.
Qed.

(** Looking up the keys of a dict in that dict never fails. *)
Lemma mapM_dict_item {V} (d : pydict V) (l : list string) :
  (forall k, k ∈ l -> k ∈ keys d) ->
  exists vs, mapM (dict_item d) l = Ok vs /\ length vs = length l.
Proof.
  induction l as [|k l IH]; intros Hl.
  - by exists [].
  - destruct (dict_get_is_Some d k) as [v Hv]; [apply Hl; left|].
    destruct IH as (vs & Hvs & Hlen); [intros; apply Hl; by right|].
    assert (Hitem : dict_item d k = Ok v) by (unfold dict_item; by rewrite Hv).
    exists (v :: vs). rewrite mapM_cons, Hitem, bind_ok, Hvs, bind_ok.
    split; [reflexivity|]. cbn. by rewrite Hlen.
Qed.

(** *** The neighbours of a word *)

Section Neighbours.

Variable cosine : vec -> vec -> Q.

Lemma similarities_from_sublist (i : nat) (v : vec) (rows : list (string * vec)) :
  forall j, (similarities_from cosine i v j rows).*1 `sublist_of` rows.*1.
Proof.
  induction rows as [|[w u] rows IH]; intros j; cbn [similarities_from]; [done|].
  destruct (negb (i =? j)%nat); cbn.
  - by apply sublist_skip.
  - by apply sublist_cons.
Qed.

(** With distinct words, the word of row [i] is not among the scores
    gathered for row [i]. *)
Lemma similarities_from_not_self (i : nat) (v : vec) (rows : list (string * vec)) :
  NoDup rows.*1 ->
  forall j k word u, rows !! k = Some (word, u) -> j + k = i ->
  word ∉ (similarities_from cosine i v j rows).*1.
Proof.
  induction rows as [|[w u'] rows IH]; intros Hnd j k word u Hk Hi; [done|].
  cbn in Hnd. apply NoDup_cons in Hnd as [Hw Hnd]. cbn [similarities_from].
  destruct k as [|k]; cbn in Hk.
  - injection Hk as -> ->.
    assert ((i =? j)%nat = true) as -> by (apply Nat.eqb_eq; lia). cbn [negb].
    intros Hin. apply Hw.
    by apply (sublist_subseteq _ _ (similarities_from_sublist i v rows (S j))).
  - assert ((i =? j)%nat = false) as -> by (apply Nat.eqb_neq; lia). cbn [negb].
    cbn. rewrite not_elem_of_cons. split.
    + intros ->. apply Hw. apply list_elem_of_fmap. exists (w, u). split; [done|].
      by eapply list_elem_of_lookup_2.
    + eapply (IH Hnd (S j) k); [done|lia].
Qed.

(** With distinct words the neighbour list of a word has at most ten
    entries, does not hold the word, and is in non-increasing order of
    score. *)
Lemma top_ten_spec (rows : list (string * vec)) (i : nat) (word : string) (v : vec) :
  NoDup rows.*1 -> rows !! i = Some (word, v) ->
  length (top_ten cosine rows i v) <= 10
  /\ (word ∉ keys (top_ten cosine rows i v))
  /\ sorted_desc (top_ten cosine rows i v).
Proof.
  intros Hnd Hi. unfold top_ten.
  set (sims := similarities_from cosine i v 0 rows).
  assert (Hsims : NoDup sims.*1).
  { apply (sublist_NoDup sims.*1 rows.*1); [done|apply similarities_from_sublist]. }
  assert (Hsorted : NoDup (sort_desc sims).*1).
  { by rewrite (sort_desc_perm sims). }
  assert (Htake : NoDup (take 10 (sort_desc sims)).*1).
  { rewrite fmap_take.
    apply (sublist_NoDup (take 10 (sort_desc sims).*1) (sort_desc sims).*1);
      [done|apply sublist_take]. }
  rewrite dict_of_list_NoDup by done.
  split; [rewrite length_take; lia|]. split.
  - unfold keys. rewrite fmap_take. intros Hin%subseteq_take.
    rewrite (sort_desc_perm sims) in Hin.
    by eapply (similarities_from_not_self i v rows Hnd 0 i).
  - apply sorted_desc_take, sort_desc_sorted.
Qed.

(** Every list of the table is the [top_ten] of some row with that word,
    or was in the table before. *)
Lemma top_similar_from_spec (rows : list (string * vec)) :
  forall todo i acc word nb,
  skipn i rows = todo ->
  dict_get (top_similar_from cosine rows i todo acc) word = Some nb ->
  dict_get acc word = Some nb
  \/ exists j v, rows !! j = Some (word, v) /\ nb = top_ten cosine rows j v.
Proof.
  induction todo as [|[w v] todo IH]; intros i acc word nb Hdrop Hget; [by left|].
  cbn [top_similar_from] in Hget.
  assert (Hi : rows !! i = Some (w, v)).
  { rewrite <- (Nat.add_0_r i), <- lookup_drop, Hdrop. done. }
  apply IH in Hget as [Hget|Hget]; [|by right|].
  - destruct (decide (w = word)) as [->|Hne].
    + rewrite dict_get_set_eq in Hget. injection Hget as <-. right. by exists i, v.
    + rewrite dict_get_set_ne in Hget by done. by left.
  - erewrite drop_S in Hdrop by done. by injection Hdrop.
Qed.

(** train_json_model.py: in the table built from a dict of embeddings,
    whose keys are distinct, every neighbour list has at most ten entries,
    leaves out its own word and is in non-increasing order of score. *)
Lemma json_neighbours (embeddings_dict : pydict vec) (similarity : pydict (pydict Q))
    (word : string) (nb : pydict Q) :
  NoDup (keys embeddings_dict) ->
  calculate_similarity_matrix cosine embeddings_dict = Ok similarity ->
  dict_get similarity word = Some nb ->
  length nb <= 10 /\ (word ∉ keys nb) /\ sorted_desc nb.
Proof.
  intros Hnd. unfold calculate_similarity_matrix. cbv zeta.
  destruct (mapM_dict_item embeddings_dict (keys embeddings_dict)) as (vs & -> & Hlen);
    [done|].
  rewrite bind_ok. destruct (length vs =? 0)%nat; [by intros [= <-]|].
  intros [= <-] Hget.
  apply top_similar_from_spec in Hget as [Hget | (j & v & Hj & ->)]; [done| |done].
  apply (top_ten_spec _ j word v); [|done].
  rewrite fst_zip; [done|lia].
Qed.

End Neighbours.

(** *** The loop of [generate_embeddings] *)

(** Every vector stored in the dict is the embedding of its key. *)
Definition holds_embeddings (wv : keyed_vectors) (embeddings : pydict vec) : Prop :=
  forall k v, dict_get embeddings k = Some v -> get_or_create_embedding wv 100 k = Ok v.

Lemma dataset_words_cons (row : df_row) (df : list df_row) :
  dataset_words (row :: df)
  = if kept (Py.strip (str (Bisaya row)))
    then Py.strip (str (Bisaya row)) :: dataset_words df
    else dataset_words df.
Proof.
  unfold dataset_words. cbn [fmap list_fmap].
  destruct (kept (Py.strip (str (Bisaya row)))) eqn:E.
  - by rewrite filter_cons_True.
  - rewrite filter_cons_False; [done|]. by rewrite E.
Qed.

Lemma embed_rows_spec (wv : keyed_vectors) (df : list df_row) :
  trained wv ->
  forall (embeddings : pydict vec) (metadata_list : list word_meta),
  NoDup (keys embeddings) -> holds_embeddings wv embeddings ->
  exists embeddings' metadata_list',
    embed_rows wv df (embeddings, metadata_list) = Ok (embeddings', metadata_list')
    /\ NoDup (keys embeddings')
    /\ holds_embeddings wv embeddings'
    /\ (forall x, x ∈ keys embeddings'
                  <-> x ∈ keys embeddings \/ x ∈ Py.lower <$> dataset_words df)
    /\ meta_bisaya <$> metadata_list'
       = (meta_bisaya <$> metadata_list) ++ dataset_words df.
Proof.
  intros Hwv. induction df as [|row df IH]; intros embeddings metadata_list Hnd Hemb.
  - exists embeddings, metadata_list. split; [reflexivity|]. split; [done|]. split; [done|].
    split; [|by rewrite app_nil_r]. intros x. cbn. rewrite elem_of_nil. tauto.
  - cbn [embed_rows]. unfold embed_row. rewrite dataset_words_cons.
    set (bisaya := Py.strip (str (Bisaya row))).
    destruct (kept bisaya); cbn [negb].
    + destruct (get_or_create_embedding_spec wv 100 (Py.lower bisaya) Hwv (or_introl eq_refl))
        as (embedding & Hembed & _).
      rewrite Hembed, !bind_ok.
      edestruct (IH (dict_set (Py.lower bisaya) embedding embeddings))
        as (embeddings' & metadata_list' & -> & Hnd' & Hemb' & Hkeys & Hmeta).
      { by apply NoDup_keys_dict_set. }
      { intros k v. destruct (decide (Py.lower bisaya = k)) as [<-|Hne].
        - rewrite dict_get_set_eq. by intros [= <-].
        - rewrite dict_get_set_ne by done. apply Hemb. }
      exists embeddings', metadata_list'. split; [reflexivity|]. split; [done|].
      split; [done|]. split.
      * intros x. rewrite Hkeys, elem_of_keys_dict_set, fmap_cons, elem_of_cons. tauto.
      * rewrite Hmeta, fmap_app. cbn. by rewrite <- app_assoc.
    + rewrite bind_ok. apply IH; done.
Qed.

Section Bundle.

Variable cosine : vec -> vec -> Q.

Lemma calculate_similarity_matrix_ok (embeddings : pydict vec) :
  exists similarity, calculate_similarity_matrix cosine embeddings = Ok similarity.
Proof.
  unfold calculate_similarity_matrix. cbv zeta.
  destruct (mapM_dict_item embeddings (keys embeddings)) as (vs & -> & _); [done|].
  rewrite bind_ok. destruct (length vs =? 0)%nat; by eexists.
Qed.

(** C9. With a trained model the JSON trainer builds its bundle without
    raising. In the bundle [vocab_size] is the number of keys of
    [embeddings]; the keys are distinct and are the lower-cased words of
    the data set, so [vocab_size] is the number of distinct lower-cased
    words; each key holds the embedding of that lower-cased word, as
    stored by the last row that has it; [metadata] has one element per
    word of the data set, in order, so [vocab_size] is at most its length,
    and strictly less as soon as two rows share a lower-cased word. *)
Theorem vocab_size_counts_distinct_words (wv : keyed_vectors) (df : list df_row) :
  trained wv ->
  exists bundle,
    json_bundle cosine wv df = Ok bundle
    /\ vocab_size bundle = length (keys (embeddings_of bundle))
    /\ NoDup (keys (embeddings_of bundle))
    /\ (forall x, x ∈ keys (embeddings_of bundle) <-> x ∈ Py.lower <$> dataset_words df)
    /\ vocab_size bundle = length (remove_dups (Py.lower <$> dataset_words df))
    /\ (forall word, word ∈ dataset_words df ->
          exists v, dict_get (embeddings_of bundle) (Py.lower word) = Some v
                    /\ get_or_create_embedding wv 100 (Py.lower word) = Ok v)
    /\ meta_bisaya <$> metadata_of bundle = dataset_words df
    /\ vocab_size bundle <= length (metadata_of bundle)
    /\ (~ NoDup (Py.lower <$> dataset_words df) ->
        vocab_size bundle < length (metadata_of bundle)).
Proof.
  intros Hwv. unfold json_bundle, generate_embeddings.
  destruct (embed_rows_spec wv df Hwv [] []) as
    (embeddings & metadata_list & -> & Hnd & Hemb & Hkeys & Hmeta);
    [apply NoDup_nil_2 | intros k v [=] |].
  rewrite bind_ok.
  destruct (calculate_similarity_matrix_ok embeddings) as [similarity ->].
  rewrite bind_ok. eexists. split; [reflexivity|].
  cbn [vocab_size embeddings_of metadata_of save_model].
  assert (Hkeys' : forall x, x ∈ keys embeddings <-> x ∈ Py.lower <$> dataset_words df).
  { intros x. rewrite Hkeys. cbn. rewrite elem_of_nil. tauto. }
  assert (Hcount : length embeddings = length (remove_dups (Py.lower <$> dataset_words df))).
  { rewrite <- (length_distinct (keys embeddings)) by done. unfold keys. by rewrite length_fmap. }
  assert (Hlen : length metadata_list = length (Py.lower <$> dataset_words df)).
  { cbn in Hmeta. by rewrite length_fmap, <- Hmeta, length_fmap. }
  split; [unfold keys; by rewrite length_fmap|]. split; [done|]. split; [done|].
  split; [done|]. split; [|split; [done|split]].
  - intros word Hword.
    destruct (dict_get_is_Some embeddings (Py.lower word)) as [v Hv].
    { apply Hkeys'. by apply list_elem_of_fmap_2. }
    exists v. split; [done|]. by apply Hemb.
  - rewrite Hcount, Hlen. apply length_remove_dups_le.
  - intros Hdup. rewrite Hcount, Hlen.
    pose proof (length_remove_dups_le (Py.lower <$> dataset_words df)).
    destruct (decide (length (remove_dups (Py.lower <$> dataset_words df))
                      = length (Py.lower <$> dataset_words df))) as [Heq|]; [|lia].
    by apply length_remove_dups_eq in Heq.
Qed.

(** C6, at a failing input. train_tflite_model.py takes its words from
    the rows of the data frame; with the two rows 'Balay' and 'balay' the
    list of words holds 'balay' twice, the test [i != j] lets the second
    occurrence through, and the neighbour list of 'balay' holds 'balay'
    itself. *)
Theorem tflite_neighbours_hold_word :
  exists neighbours,
    calculate_similarity_matrix_tflite cosine balay_model balay_twice
    = Ok [("balay", neighbours)]
    /\ neighbours = [("balay", cosine (replicate 100 1%Q) (replicate 100 1%Q))]
    /\ "balay" ∈ keys neighbours.
Proof.
  eexists. split; [vm_compute; reflexivity|]. split; [reflexivity|]. cbn. left.
Qed.

End Bundle.

Lemma vocab_size_counts_distinct_words_witness :
  exists bundle,
    json_bundle dot balay_model balay_twice = Ok bundle
    /\ vocab_size bundle = length (keys (embeddings_of bundle))
    /\ NoDup (keys (embeddings_of bundle))
    /\ (forall x, x ∈ keys (embeddings_of bundle)
                  <-> x ∈ Py.lower <$> dataset_words balay_twice)
    /\ vocab_size bundle = length (remove_dups (Py.lower <$> dataset_words balay_twice))
    /\ (forall word, word ∈ dataset_words balay_twice ->
          exists v, dict_get (embeddings_of bundle) (Py.lower word) = Some v
                    /\ get_or_create_embedding balay_model 100 (Py.lower word) = Ok v)
    /\ meta_bisaya <$> metadata_of bundle = dataset_words balay_twice
    /\ vocab_size bundle <= length (metadata_of bundle)
    /\ (~ NoDup (Py.lower <$> dataset_words balay_twice) ->
        vocab_size bundle < length (metadata_of bundle)).
Proof.
  apply (vocab_size_counts_distinct_words dot balay_model balay_twice).
  split; [reflexivity|]. intros w v H. unfold balay_model in H. cbn [vectors] in H.
  apply lookup_singleton_Some in H as [_ <-]. reflexivity.
Defined.

(** Two rows, 'Balay' and 'balay': one key, two metadata entries. *)
Example balay_bundle :
  (fun b => (vocab_size b, keys (embeddings_of b), meta_bisaya <$> metadata_of b,
             similarity_of b))
    <$> json_bundle dot balay_model balay_twice
  = Ok (1, ["balay"], ["Balay"; "balay"], [("balay", [])]).
Proof. vm_compute. reflexivity. Qed.

End TrainFacts.

(** ** More on the example generator *)

Module RegenerateMore.
Import Py PyFacts Regenerate Entries RegenerateFacts.

(** *** [get_base_form] *)

Lemma prefix_drop (p w : string) :
  String.prefix p w = true -> w = p +:+ Py.drop (String.length p) w.
Proof.
  revert w. induction p as [|c p IH]; intros w; [done|].
  destruct w as [|c' w]; cbn; [done|].
  destruct (ascii_dec c c') as [->|]; [|done].
  intros H. rewrite (IH w H) at 1. reflexivity.
Qed.

Lemma strip_first_prefix_find (ps : list string) (word_lower : string) :
  match find (Py.startswith word_lower) ps with
  | Some p => word_lower = p +:+ strip_first_prefix ps word_lower
  | None => strip_first_prefix ps word_lower = word_lower
  end.
Proof.
  induction ps as [|p ps IH]; cbn [find strip_first_prefix]; [done|].
  destruct (Py.startswith word_lower p) eqn:E; [|done].
  by apply prefix_drop.
Qed.

(** X1. [get_base_form] removes exactly the first prefix of its list that
    the lower-cased word starts with: that prefix followed by the result
    gives the lower-cased word back; a word that starts with none of them
    comes back lower-cased and whole. *)
Theorem get_base_form_prefix (word : string) :
  match find (Py.startswith (Py.lower word)) prefixes with
  | Some p => p ∈ prefixes /\ Py.lower word = p +:+ get_base_form word
  | None => get_base_form word = Py.lower word
  end.
Proof.
  unfold get_base_form.
  pose proof (strip_first_prefix_find prefixes (Py.lower word)) as H.
  destruct (find (Py.startswith (Py.lower word)) prefixes) as [p|] eqn:E; [|done].
  split; [|done]. apply find_some in E as [E _]. by apply list_elem_of_In.
Qed.

(** X2. The last prefix of the list, 'maka-', is never the one removed:
    'maka' comes before it, so a word that starts with 'maka-' loses
    'maka' only and its base form starts with the hyphen. *)
Theorem get_base_form_maka_hyphen (word : string) :
  Py.startswith (Py.lower word) "maka-" = true ->
  get_base_form word = "-" +:+ Py.drop 5 (Py.lower word).
Proof.
  intros H. apply prefix_drop in H. unfold get_base_form.
  rewrite H at 1. reflexivity.
Qed.

Lemma get_base_form_maka_hyphen_witness :
  get_base_form "Maka-kaon" = "-" +:+ Py.drop 5 (Py.lower "Maka-kaon").
Proof. apply get_base_form_maka_hyphen. reflexivity. Defined.

(** *** The past tense of the generic verb arm *)

Lemma append_cons (c : ascii) (a b : string) : String c a +:+ b = String c (a +:+ b).
Proof. reflexivity. Qed.

Lemma append_assoc (a b c : string) : (a +:+ b) +:+ c = a +:+ (b +:+ c).
Proof. induction a as [|x a IH]; [done|]. by rewrite !append_cons, IH. Qed.

(** X3. The past-tense heuristic never raises, also on the empty verb and
    on one-letter verbs, where its tests on the last two letters are
    guarded by the length test; what it returns always ends in 'd'. *)
Theorem past_tense_ends_in_d (english_verb : string) :
  exists stem, past_tense_of english_verb = Ok (stem +:+ "d").
Proof.
  unfold past_tense_of, mbind, result_bind, mret, result_ret.
  destruct (endswith english_verb "e"); [by eexists|].
  destruct (endswith english_verb "y").
  { exists (init english_verb +:+ "ie"). by rewrite append_assoc. }
  assert (Hed : forall x, x +:+ "ed" = (x +:+ "e") +:+ "d").
  { intros x. by rewrite append_assoc. }
  destruct (Nat.ltb_spec 1 (String.length english_verb)) as [Hlen|Hlen];
    [|rewrite Hed; by eexists].
  destruct (char_at_ok english_verb (-1)) as [c1 Hc1]; [lia|].
  destruct (char_at_ok english_verb (-2)) as [c2 Hc2]; [lia|].
  rewrite Hc1. cbv beta iota.
  destruct (contains c1 "aeiou"); cbn [negb]; [rewrite Hed; by eexists|].
  rewrite Hc2. cbv beta iota.
  destruct (contains c2 "aeiou"); [|rewrite Hed; by eexists].
  exists (english_verb +:+ c1 +:+ "e"). by rewrite !append_assoc.
Qed.

(** *** When [generate_examples] raises *)

(** X4. [generate_examples] returns exactly when its word, its English
    translation and its tag are text and its Tagalog word is text or falsy
    (absent, null, 0, false or empty); in every other case it raises
    [AttributeError], and nothing else. *)
Theorem generate_examples_raises_iff (bisaya tagalog english pos category : pyval) :
  match generate_examples bisaya tagalog english pos category with
  | Ok _ =>
      is_text bisaya && is_text english && is_text pos
      && (negb (truthy tagalog) || is_text tagalog) = true
  | Raise e =>
      e = AttributeError
      /\ is_text bisaya && is_text english && is_text pos
         && (negb (truthy tagalog) || is_text tagalog) = false
  end.
Proof.
  destruct bisaya as [| | |b]; try (cbn; by split).
  destruct english as [| | |e]; try (cbn; by split).
  destruct pos as [| | |p]; try (cbn; by split).
  cbn [is_text andb].
  destruct (truthy tagalog) eqn:Ht; cbn [negb orb].
  - destruct tagalog as [| | |t]; cbn [is_text].
    + done.
    + unfold generate_examples. cbn [as_str]. rewrite !bind_ok, Ht. by split.
    + unfold generate_examples. cbn [as_str]. rewrite !bind_ok, Ht. by split.
    + destruct (generate_examples_total b t e p category) as [ex ->]. done.
  - rewrite generate_examples_tagalog by by left.
    destruct (generate_examples_rule_total b (tagalog_text tagalog) e p) as (r & ex & ->).
    done.
Qed.

(** *** [determine_category] *)

(** The two outcomes of [determine_category]. *)
Lemma determine_category_cases (pos english : pyval) :
  match determine_category pos english with
  | Ok category => Py.mem category categories = true /\ is_text pos && is_text english = true
  | Raise e => e = AttributeError /\ is_text pos && is_text english = false
  end.
Proof.
  destruct pos as [| | |p]; try (cbn; by split).
  destruct english as [| | |e]; try (cbn; by split).
  unfold determine_category. cbn [as_str]. rewrite !bind_ok. cbv zeta.
  unfold mret, result_ret. split; [|done].
  repeat match goal with
         | |- context [if ?c then _ else _] => destruct c
         end; reflexivity.
Qed.

(** X5. On text [determine_category] never raises and returns one of the
    fourteen category names; when the tag or the translation is not text
    it raises [AttributeError]. *)
Theorem determine_category_range (pos english : pyval) :
  match determine_category pos english with
  | Ok category => Py.mem category categories = true /\ is_text pos && is_text english = true
  | Raise e => e = AttributeError /\ is_text pos && is_text english = false
  end.
Proof. apply determine_category_cases. Qed.

End RegenerateMore.

(** ** More on the loop and the writer *)

Module MainMore.
Import Py PyFacts Regenerate Entries RegenerateFacts WriterFacts.

(** *** One failing turn stops the loop *)

(** The loop over well-typed entries followed by more entries: the first
    part appends its rows and only prints. *)
Lemma main_loop_app (total : nat) (first rest : list entry) :
  Forall well_typed first ->
  forall (i : nat) (csv_data : list row) (w : world),
  exists rows w1,
    same_state w w1
    /\ main_loop total i (first ++ rest) csv_data w
       = main_loop total (i + length first) rest (csv_data ++ rows) w1.
Proof.
  induction 1 as [|word_data first Hty _ IH]; intros i csv_data w.
  - exists [], w. rewrite app_nil_r, Nat.add_0_r. split; [apply same_state_refl|done].
  - cbn [app main_loop length]. unfold mbind, io_bind.
    replace (i + S (length first)) with (S i + length first) by lia.
    destruct (included word_data) eqn:Hin.
    + destruct Hty as (Hb & Ht & He & Hp).
      apply (text_field_get _ _ "") in Hb as [bisaya Hb].
      apply (text_field_get _ _ "") in Ht as [tagalog Ht].
      apply (text_field_get _ _ "") in He as [english He].
      apply (text_field_get _ _ "Unknown") in Hp as [pos Hp].
      destruct (process_entry_included total i word_data w bisaya english pos)
        as (category & r & ex & w1 & _ & -> & Hw1); eauto.
      edestruct (IH (S i)) as (rows & w2 & Hw2 & ->).
      eexists (_ :: rows), w2. split; [by eapply same_state_trans|].
      by rewrite <- app_assoc.
    + rewrite process_entry_skipped by done.
      destruct (IH (S i) csv_data w) as (rows & w2 & Hw2 & ->). by exists rows, w2.
Qed.

(** X6. An entry that passes the skip test but whose tag or English
    translation is not text (a JSON null tag, a number as translation)
    stops the whole loop: [determine_category] raises [AttributeError]
    outside the [try], whatever entries come before or after, and nothing
    but the lines of the earlier entries is printed. *)
Theorem non_text_entry_aborts (total i : nat) (first rest : list entry)
    (word_data : entry) (csv_data : list row) (w : world) :
  Forall well_typed first ->
  included word_data = true ->
  is_text (get word_data "pos" (VStr "Unknown"))
  && is_text (get word_data "english" (VStr "")) = false ->
  exists w',
    main_loop total i (first ++ word_data :: rest) csv_data w
    = (Raise AttributeError, w')
    /\ same_state w w'.
Proof.
  intros Hfirst Hin Htext.
  destruct (main_loop_app total first (word_data :: rest) Hfirst i csv_data w)
    as (rows & w1 & Hw1 & ->).
  exists w1. split; [|done].
  cbn [main_loop]. unfold mbind at 1, io_bind, process_entry. cbv zeta.
  unfold included in Hin. apply andb_true_iff in Hin as [-> ->]. cbn [negb orb].
  unfold mbind at 1, io_bind, lift.
  pose proof (RegenerateMore.determine_category_cases
                (get word_data "pos" (VStr "Unknown"))
                (get word_data "english" (VStr ""))) as Hcat.
  destruct (determine_category _ _) as [category|e].
  - destruct Hcat as [_ Hcat]. congruence.
  - by destruct Hcat as [-> _].
Qed.

Lemma non_text_entry_aborts_witness :
  exists w',
    main_loop 3 0 ([salamat_entry] ++ {[ "bisaya" := VStr "iro"; "english" := VStr "dog";
                                         "pos" := VNone ]} :: [iro_entry])
      [header] (world_with 0 [] None ∅)
    = (Raise AttributeError, w')
    /\ same_state (world_with 0 [] None ∅) w'.
Proof.
  apply non_text_entry_aborts.
  - repeat (constructor; [by vm_compute|]). constructor.
  - reflexivity.
  - reflexivity.
Defined.

(** X7. Whenever [generate_examples] raises for an entry that reached it,
    the loop stops with [NameError] on [make_example], whatever entries
    come before or after: the [except] clause prints its line and fails
    before it builds the first fallback sentence. *)
Theorem generation_error_stops_loop (total i : nat) (first rest : list entry)
    (word_data : entry) (csv_data : list row) (w : world) (category : string) (e : exn) :
  Forall well_typed first ->
  included word_data = true ->
  determine_category (get word_data "pos" (VStr "Unknown"))
    (get word_data "english" (VStr "")) = Ok category ->
  generate_examples (get word_data "bisaya" (VStr "")) (get word_data "tagalog" (VStr ""))
    (get word_data "english" (VStr "")) (get word_data "pos" (VStr "Unknown"))
    (VStr category) = Raise e ->
  exists w',
    main_loop total i (first ++ word_data :: rest) csv_data w
    = (Raise (NameError "make_example"), w')
    /\ same_state w w'
    /\ last (stdout w') = Some (GenerationError (get word_data "bisaya" (VStr "")) e).
Proof.
  intros Hfirst Hin Hcat Hgen.
  destruct (main_loop_app total first (word_data :: rest) Hfirst i csv_data w)
    as (rows & w1 & Hw1 & ->).
  destruct (generation_error_aborts total (i + length first) word_data w1 category e
              Hin Hcat Hgen) as (w' & Hstep & Hout & Hw').
  exists w'. cbn [main_loop]. unfold mbind at 1, io_bind. rewrite Hstep.
  split; [done|]. split; [by eapply same_state_trans|]. rewrite Hout. apply last_snoc.
Qed.

Lemma generation_error_stops_loop_witness :
  exists w',
    main_loop 2 0 ([salamat_entry] ++ number_entry :: [iro_entry]) [header]
      (world_with 0 [] None ∅)
    = (Raise (NameError "make_example"), w')
    /\ same_state (world_with 0 [] None ∅) w'
    /\ last (stdout w') = Some (GenerationError (get number_entry "bisaya" (VStr ""))
                                  AttributeError).
Proof.
  apply (generation_error_stops_loop 2 0 [salamat_entry] [iro_entry] number_entry
           [header] (world_with 0 [] None ∅) "Numbers" AttributeError).
  - repeat (constructor; [by vm_compute|]). constructor.
  - reflexivity.
  - reflexivity.
  - reflexivity.
Defined.

(** *** Entries that are not text where read *)

Lemma generate_examples_not_text (bisaya tagalog english pos category : pyval) :
  is_text bisaya && is_text english && is_text pos
  && (negb (Py.truthy tagalog) || is_text tagalog) = false ->
  generate_examples bisaya tagalog english pos category = Raise AttributeError.
Proof.
  destruct bisaya as [| | |b]; try done.
  destruct english as [| | |e]; try done.
  destruct pos as [| | |p]; try done.
  cbn [is_text andb]. intros Ht. apply orb_false_elim in Ht as [Ht Ht'].
  apply negb_false_iff in Ht.
  unfold generate_examples. cbn [as_str]. rewrite !bind_ok, Ht.
  by destruct tagalog.
Qed.

Lemma unreadable_entry_raises (total i : nat) (word_data : entry) (w : world) :
  text_where_read word_data = false ->
  exists e w',
    process_entry total i word_data w = (Raise e, w')
    /\ (e = AttributeError \/ e = NameError "make_example").
Proof.
  unfold text_where_read. intros Hbad. apply orb_false_elim in Hbad as [Hin Hbad].
  apply negb_false_iff in Hin.
  pose proof (RegenerateMore.determine_category_cases
                (get word_data "pos" (VStr "Unknown"))
                (get word_data "english" (VStr ""))) as Hcat.
  destruct (determine_category (get word_data "pos" (VStr "Unknown"))
              (get word_data "english" (VStr ""))) as [category|e] eqn:Hdc.
  - destruct (generation_error_aborts total i word_data w category AttributeError Hin Hdc)
      as (w' & Hstep & _).
    { by apply generate_examples_not_text. }
    exists (NameError "make_example"), w'. split; [done|by right].
  - destruct Hcat as [-> _]. exists AttributeError, w. split; [|by left].
    unfold process_entry. cbv zeta.
    unfold included in Hin. apply andb_true_iff in Hin as [-> ->]. cbn [negb orb].
    unfold mbind at 1, io_bind, lift. by rewrite Hdc.
Qed.

(** Metadata with an entry that is not text where read gives no rows: the
    first such entry stops the loop, with [AttributeError] from
    [determine_category] or with [NameError] from the [except] clause. *)
Lemma unreadable_metadata_no_rows (metadata : list entry) (w : world) :
  forallb text_where_read metadata = false ->
  exists e w',
    build_rows metadata w = (Raise e, w')
    /\ (e = AttributeError \/ e = NameError "make_example").
Proof.
  intros Hbad. unfold build_rows, mbind, io_bind.
  destruct (print_same_state Generating w) as (w1 & -> & _).
  generalize 0, [header], w1. generalize (length metadata). intros total.
  induction metadata as [|word_data metadata IH]; intros i csv_data w0; [done|].
  cbn [forallb] in Hbad.
  destruct (text_where_read word_data) eqn:Hty.
  - destruct (main_loop_text_app total [word_data] metadata) with (i := i)
      (csv_data := csv_data) (w := w0) as (rows & w' & Hrun & _).
    { by repeat constructor. }
    cbn [app] in Hrun. rewrite Hrun. by apply IH.
  - destruct (unreadable_entry_raises total i word_data w0 Hty) as (e & w' & Hstep & He).
    exists e, w'. cbn [main_loop]. unfold mbind, io_bind. by rewrite Hstep.
Qed.

(** *** The edges of [main] *)

(** X8. Without a readable metadata file [main] stops before it touches
    any file: a missing file raises [FileNotFoundError], a file that is not
    JSON raises [ValueError], and only the loading line is printed. *)
Theorem main_without_metadata (w : world) :
  (forall metadata, files w !! metadata_path <> Some (JsonFile metadata)) ->
  (main w).1 = match files w !! metadata_path with
               | None => Raise (FileNotFoundError metadata_path)
               | Some _ => Raise ValueError
               end
  /\ files (main w).2 = files w
  /\ stdout (main w).2 = stdout w ++ [Loading metadata_path].
Proof.
  intros Hno. rewrite main_steps. cbv zeta.
  destruct (files w !! metadata_path) as [[metadata|rows]|]; [|done..].
  by destruct (Hno metadata).
Qed.

Lemma main_without_metadata_witness :
  let w := World 0 {[ output_path := CsvFile [header] ]} ∅ [] in
  (main w).1 = match files w !! metadata_path with
               | None => Raise (FileNotFoundError metadata_path)
               | Some _ => Raise ValueError
               end
  /\ files (main w).2 = files w
  /\ stdout (main w).2 = stdout w ++ [Loading metadata_path].
Proof.
  apply (main_without_metadata (World 0 {[ output_path := CsvFile [header] ]} ∅ [])).
  intros metadata H. vm_compute in H. discriminate H.
Defined.

Lemma main_loop_all_skipped (total : nat) (metadata : list entry) :
  Forall (fun e => included e = false) metadata ->
  forall i csv_data w, main_loop total i metadata csv_data w = (Ok csv_data, w).
Proof.
  induction 1 as [|word_data metadata Hskip _ IH]; intros i csv_data w; [done|].
  cbn [main_loop]. unfold mbind, io_bind. rewrite process_entry_skipped by done.
  apply IH.
Qed.

(** X9. When the metadata holds no entry with both a word and an English
    translation (no ['metadata'] key, an empty list, or only entries that
    are skipped) and nothing is locked, the run ends normally and the
    dataset file holds the header row alone. *)
Theorem header_only_dataset (w : world) (metadata : option (list entry)) :
  locked w = ∅ ->
  files w !! metadata_path = Some (JsonFile metadata) ->
  Forall (fun e => included e = false) (default [] metadata) ->
  (main w).1 = Ok tt
  /\ files (main w).2 !! output_path = Some (CsvFile [header]).
Proof.
  intros Hl Hmd Hskip.
  destruct (main_unlocked w Hl) as [_ Hrun]. rewrite Hmd in Hrun.
  assert (Hrows : (build_rows (default [] metadata) w).1 = Ok [header]).
  { unfold build_rows, mbind, io_bind. rewrite print_add_lines.
    by rewrite main_loop_all_skipped. }
  rewrite Hrows in Hrun. by destruct Hrun as (? & ? & _).
Qed.

Lemma header_only_dataset_witness :
  let w := world_with 0 [untranslated_entry] None ∅ in
  (main w).1 = Ok tt
  /\ files (main w).2 !! output_path = Some (CsvFile [header]).
Proof.
  apply (header_only_dataset (world_with 0 [untranslated_entry] None ∅)
           (Some [untranslated_entry])).
  - reflexivity.
  - reflexivity.
  - repeat (constructor; [by vm_compute|]). constructor.
Defined.

(** *** What the writer leaves alone *)

(** X10. The writer changes no path other than the temporary file, the
    dataset file and its backup, whatever is locked and however it ends;
    it never changes what is locked. *)
Theorem write_dataset_frame (t : Z) (csv_data : list row) (w : world) (p : string) :
  p <> temp_path t -> p <> output_path -> p <> backup_path ->
  files (write_dataset (temp_path t) csv_data w).2 !! p = files w !! p
  /\ locked (write_dataset (temp_path t) csv_data w).2 = locked w.
Proof.
  intros Hpt Hpo Hpb.
  pose proof (temp_path_not_output t) as Hto.
  pose proof (temp_path_not_backup t) as Htb.
  pose proof output_not_backup as Hob.
  generalize dependent (temp_path t). intros temp Hpt Hto Htb.
  unfold write_dataset, replace_dataset, mbind, io_bind, io_try, on_permission_error,
    write_csv, path_exists, remove, copy2, move, print, mret, io_ret.
  run.
  destruct (decide (temp ∈ locked w)); run; [done|].
  destruct (files w !! output_path) as [old|] eqn:Hout;
    destruct (files w !! backup_path) as [oldb|] eqn:Hbak;
    destruct (decide (output_path ∈ locked w));
    destruct (decide (backup_path ∈ locked w));
    run; unfold mbind, io_bind; run; done.
Qed.

Lemma write_dataset_frame_witness :
  let w := world_with 0 [] (Some [header]) {[backup_path]} in
  files (write_dataset (temp_path 0) [header] w).2 !! metadata_path
  = files w !! metadata_path
  /\ locked (write_dataset (temp_path 0) [header] w).2 = locked w.
Proof.
  apply (write_dataset_frame 0 [header]
           (world_with 0 [] (Some [header]) {[backup_path]}) metadata_path);
    vm_compute; intros H; discriminate H.
Defined.

(** X11. A locked backup file blocks the replacement too: when a previous
    dataset exists and its backup path is locked, the backup step raises
    [PermissionError] inside the [try]; the run ends normally, the dataset
    and the backup are as they were, the new rows stay in the temporary
    file, and the lines printed are those of a locked dataset. *)
Theorem locked_backup_blocks_replacement (t : Z) (csv_data : list row) (w : world)
    (old : file) :
  temp_path t ∉ locked w ->
  files w !! output_path = Some old ->
  backup_path ∈ locked w ->
  exists w',
    write_dataset (temp_path t) csv_data w = (Ok tt, w')
    /\ files w' !! output_path = Some old
    /\ files w' !! backup_path = files w !! backup_path
    /\ files w' !! temp_path t = Some (CsvFile csv_data)
    /\ stdout w' = stdout w ++ [Writing (temp_path t); CouldNotReplace output_path;
                               SavedAs (temp_path t);
                               PleaseReplace output_path (temp_path t); Columns].
Proof.
  intros Hlock Hout Hbl.
  pose proof (temp_path_not_output t) as Hto.
  pose proof (temp_path_not_backup t) as Htb.
  pose proof output_not_backup as Hob.
  generalize dependent (temp_path t). intros temp Hlock Hto Htb.
  unfold write_dataset, replace_dataset, mbind, io_bind, io_try, on_permission_error,
    write_csv, path_exists, remove, copy2, move, print, mret, io_ret.
  run.
  destruct (files w !! backup_path) as [oldb|] eqn:Hbak; run; unfold mbind, io_bind; run.
  - eexists. split; [reflexivity|]. run. rewrite <- !app_assoc. done.
  - eexists. split; [reflexivity|]. run. rewrite <- !app_assoc. done.
Qed.

Lemma locked_backup_blocks_replacement_witness :
  let w := world_with 0 [] (Some [header]) {[backup_path]} in
  exists w',
    write_dataset (temp_path 0) [header; header] w = (Ok tt, w')
    /\ files w' !! output_path = Some (CsvFile [header])
    /\ files w' !! backup_path = files w !! backup_path
    /\ files w' !! temp_path 0 = Some (CsvFile [header; header])
    /\ stdout w' = stdout w ++ [Writing (temp_path 0); CouldNotReplace output_path;
                               SavedAs (temp_path 0);
                               PleaseReplace output_path (temp_path 0); Columns].
Proof.
  apply (locked_backup_blocks_replacement 0 [header; header]
           (world_with 0 [] (Some [header]) {[backup_path]}) (CsvFile [header])).
  - vm_compute. intros H. discriminate H.
  - reflexivity.
  - vm_compute. reflexivity.
Defined.

(** X12. A first run, with no previous dataset, makes no backup: the
    dataset file gets the new rows, the temporary file is gone, and the
    backup path is not touched, locked or not. *)
Theorem first_run_makes_no_backup (t : Z) (csv_data : list row) (w : world) :
  temp_path t ∉ locked w ->
  output_path ∉ locked w ->
  files w !! output_path = None ->
  exists w',
    write_dataset (temp_path t) csv_data w = (Ok tt, w')
    /\ files w' !! output_path = Some (CsvFile csv_data)
    /\ files w' !! temp_path t = None
    /\ files w' !! backup_path = files w !! backup_path
    /\ stdout w' = stdout w ++ [Writing (temp_path t);
                               Success output_path (length csv_data - 1); Columns].
Proof.
  intros Hlock Hol Hout.
  pose proof (temp_path_not_output t) as Hto.
  pose proof (temp_path_not_backup t) as Htb.
  pose proof output_not_backup as Hob.
  generalize dependent (temp_path t). intros temp Hlock Hto Htb.
  unfold write_dataset, replace_dataset, mbind, io_bind, io_try, on_permission_error,
    write_csv, path_exists, remove, copy2, move, print, mret, io_ret.
  run. eexists. split; [reflexivity|]. run. rewrite <- !app_assoc. done.
Qed.

Lemma first_run_makes_no_backup_witness :
  let w := world_with 0 [] None {[backup_path]} in
  exists w',
    write_dataset (temp_path 0) [header] w = (Ok tt, w')
    /\ files w' !! output_path = Some (CsvFile [header])
    /\ files w' !! temp_path 0 = None
    /\ files w' !! backup_path = files w !! backup_path
    /\ stdout w' = stdout w ++ [Writing (temp_path 0);
                               Success output_path (length [header] - 1); Columns].
Proof.
  apply (first_run_makes_no_backup 0 [header] (world_with 0 [] None {[backup_path]})).
  - vm_compute. intros H. discriminate H.
  - vm_compute. intros H. discriminate H.
  - reflexivity.
Defined.

End MainMore.

(** ** More on the training tools *)

Module TrainMore.
Import Py PyFacts Train TrainData TrainFacts.

(** *** The training sentences *)

(** X13. The guard [pd.notna] on the Tagalog cell in train_json_model.py
    changes nothing: an empty cell reads as the text 'nan', which the test
    on the first token drops, so the three scripts build the same training
    sentences from the same data frame. *)
Theorem prepare_training_data_agree (df : list df_row) :
  prepare_training_data_json df = prepare_training_data df.
Proof.
  unfold prepare_training_data_json, prepare_training_data. f_equal.
  apply list_fmap_ext. intros _ row _.
  unfold row_sentences_json, row_sentences. cbv zeta.
  by destruct (Tagalog row).
Qed.

Lemma sentence_of_spec (tokens sentence : list string) :
  sentence ∈ sentence_of tokens ->
  sentence = tokens /\ exists first rest, tokens = first :: rest /\ first <> "nan".
Proof.
  unfold sentence_of. destruct tokens as [|first rest]; [by intros ?%elem_of_nil|].
  destruct (String.eqb_spec first "nan"); cbn [negb]; [by intros ?%elem_of_nil|].
  intros ->%list_elem_of_singleton. split; [done|]. by exists first, rest.
Qed.

(** X14. No training sentence is empty and none starts with the token
    'nan'; there are at most three sentences per row. *)
Theorem training_sentences_shape (df : list df_row) :
  Forall (fun sentence => exists first rest, sentence = first :: rest /\ first <> "nan")
    (prepare_training_data df)
  /\ length (prepare_training_data df) <= 3 * length df.
Proof.
  unfold prepare_training_data. split.
  - apply Forall_forall. intros sentence Hin%list_elem_of_In.
    apply in_concat in Hin as (l & Hl%list_elem_of_In & Hin%list_elem_of_In).
    apply list_elem_of_fmap in Hl as (row & -> & _).
    unfold row_sentences in Hin. cbv zeta in Hin.
    rewrite !elem_of_app in Hin.
    destruct Hin as [H|[H|H]]; apply sentence_of_spec in H as [-> ?]; done.
  - induction df as [|row df IH]; [done|].
    cbn [fmap list_fmap concat length]. rewrite length_app.
    assert (length (row_sentences row) <= 3); [|lia].
    unfold row_sentences. cbv zeta. rewrite !length_app.
    assert (Hone : forall tokens, length (sentence_of tokens) <= 1).
    { intros [|first rest]; cbn; [lia|]. destruct (negb _); cbn; lia. }
    pose proof (Hone (split (lower (str (Bisaya row))))).
    pose proof (Hone (split (lower (str (Tagalog row))))).
    pose proof (Hone (split (lower (str (English row))))). lia.
Qed.


(** *** The index tables of [create_embedding_model] *)

Lemma index_row_kept (wv : keyed_vectors) (idx : nat) (row : df_row) (acc : index_tables) :
  trained wv -> kept (Py.strip (str (Bisaya row))) = true ->
  exists embedding,
    get_or_create_embedding wv 100 (Py.lower (Py.strip (str (Bisaya row)))) = Ok embedding
    /\ index_row wv idx row acc
       = Ok {| word_to_index :=
                 <[Py.lower (Py.strip (str (Bisaya row))) := idx]> (word_to_index acc);
               index_to_word :=
                 <[idx := Py.lower (Py.strip (str (Bisaya row)))]> (index_to_word acc);
               embeddings_list := embeddings_list acc ++ [embedding] |}.
Proof.
  intros Hwv Hkept. unfold index_row. cbv zeta. rewrite Hkept.
  destruct (get_or_create_embedding_spec wv 100
              (Py.lower (Py.strip (str (Bisaya row)))) Hwv (or_introl eq_refl))
    as (embedding & Hembed & _).
  exists embedding. split; [done|]. by rewrite Hembed, bind_ok.
Qed.

Lemma index_row_skipped (wv : keyed_vectors) (idx : nat) (row : df_row) (acc : index_tables) :
  kept (Py.strip (str (Bisaya row))) = false -> index_row wv idx row acc = Ok acc.
Proof. intros Hkept. unfold index_row. cbv zeta. by rewrite Hkept. Qed.

Lemma list_to_set_remove_dups (l : list string) :
  size (list_to_set (C := gset string) l) = length (remove_dups l).
Proof.
  rewrite <- (size_list_to_set (C := gset string) (remove_dups l)) by apply NoDup_remove_dups.
  f_equal. apply set_eq. intros x.
  by rewrite !elem_of_list_to_set, elem_of_remove_dups.
Qed.

(** What the loop keeps true of the tables, from any turn on: an index
    stored for a word leads back to the word, the indices are those of
    turns already taken, and both [index_to_word] and [embeddings_list]
    grow by one per kept row. *)
Lemma index_rows_spec (wv : keyed_vectors) (df : list df_row) :
  trained wv ->
  forall (idx : nat) (acc : index_tables),
  (forall w i, word_to_index acc !! w = Some i -> index_to_word acc !! i = Some w) ->
  (forall i w, index_to_word acc !! i = Some w -> i < idx) ->
  exists t,
    index_rows wv idx df acc = Ok t
    /\ (forall w i, word_to_index t !! w = Some i -> index_to_word t !! i = Some w)
    /\ (forall i w, index_to_word t !! i = Some w -> i < idx + length df)
    /\ size (index_to_word t) = size (index_to_word acc) + length (dataset_words df)
    /\ length (embeddings_list t)
       = length (embeddings_list acc) + length (dataset_words df)
    /\ dom (word_to_index t)
       = dom (word_to_index acc) ∪ list_to_set (Py.lower <$> dataset_words df).
Proof.
  intros Hwv. induction df as [|row df IH]; intros idx acc Hback Hbelow.
  - exists acc. split; [reflexivity|]. split; [done|]. split.
    { intros i w H. apply Hbelow in H. cbn. lia. }
    cbn. split; [lia|]. split; [lia|]. by rewrite union_empty_r_L.
  - cbn [index_rows]. rewrite dataset_words_cons.
    destruct (kept (Py.strip (str (Bisaya row)))) eqn:Hkept.
    + destruct (index_row_kept wv idx row acc Hwv Hkept) as (embedding & _ & ->).
      rewrite bind_ok. set (word := Py.lower (Py.strip (str (Bisaya row)))).
      assert (Hfresh : index_to_word acc !! idx = None).
      { destruct (index_to_word acc !! idx) eqn:E; [|done]. apply Hbelow in E. lia. }
      edestruct (IH (S idx)) as (t & -> & Hback' & Hbelow' & Hsize & Hlen & Hdom).
      { cbn [word_to_index index_to_word]. intros w i.
        destruct (decide (word = w)) as [<-|Hne].
        - rewrite lookup_insert_eq. intros [= <-]. by rewrite lookup_insert_eq.
        - rewrite lookup_insert_ne by done. intros Hw.
          pose proof (Hback _ _ Hw) as Hi. pose proof (Hbelow _ _ Hi).
          rewrite lookup_insert_ne by lia. done. }
      { cbn [index_to_word]. intros i w. destruct (decide (idx = i)) as [<-|Hne]; [lia|].
        rewrite lookup_insert_ne by done. intros H%Hbelow. lia. }
      exists t. split; [reflexivity|]. split; [done|]. split.
      { intros i w H%Hbelow'. cbn [length]. lia. }
      cbn [word_to_index index_to_word embeddings_list] in Hsize, Hlen, Hdom.
      rewrite map_size_insert_None in Hsize by done.
      rewrite length_app in Hlen. cbn [length] in *.
      split; [lia|]. split; [lia|].
      rewrite Hdom, dom_insert_L, fmap_cons, list_to_set_cons. fold word.
      apply set_eq. intros x. rewrite !elem_of_union, !elem_of_singleton. tauto.
    + rewrite index_row_skipped, bind_ok by done.
      edestruct (IH (S idx) acc) as (t & -> & Hback' & Hbelow' & Hsize & Hlen & Hdom);
        [done| |].
      { intros i w H%Hbelow. lia. }
      exists t. split; [reflexivity|]. split; [done|]. split; [|done].
      intros i w H%Hbelow'. cbn [length]. lia.
Qed.

(** X15. With a trained model [create_embedding_model] builds its tables
    without raising. An index stored for a word leads back to that word;
    the words with an index are the lower-cased words of the data set.
    The embedding layer has one row per kept row of the data frame, while
    the [vocab_size] that [save_metadata] writes counts the distinct
    lower-cased words: it is at most the size of the layer, and smaller as
    soon as two rows share a lower-cased word. *)
Theorem index_tables_round_trip (wv : keyed_vectors) (df : list df_row) :
  trained wv ->
  exists t,
    create_embedding_model wv df = Ok t
    /\ (forall w i, word_to_index t !! w = Some i ->
          index_to_word t !! i = Some w /\ i < length df)
    /\ (forall w, is_Some (word_to_index t !! w) <-> w ∈ Py.lower <$> dataset_words df)
    /\ layer_vocab_size t = length (dataset_words df)
    /\ size (index_to_word t) = layer_vocab_size t
    /\ saved_vocab_size t = length (remove_dups (Py.lower <$> dataset_words df))
    /\ saved_vocab_size t <= layer_vocab_size t
    /\ (~ NoDup (Py.lower <$> dataset_words df) -> saved_vocab_size t < layer_vocab_size t).
Proof.
  intros Hwv. unfold create_embedding_model.
  destruct (index_rows_spec wv df Hwv 0 (IndexTables ∅ ∅ []))
    as (t & -> & Hback & Hbelow & Hsize & Hlen & Hdom); [done|done|].
  cbn [word_to_index index_to_word embeddings_list length] in *.
  rewrite map_size_empty in Hsize. rewrite dom_empty_L, union_empty_l_L in Hdom.
  exists t. unfold layer_vocab_size, saved_vocab_size.
  assert (Hsaved : size (word_to_index t)
                   = length (remove_dups (Py.lower <$> dataset_words df))).
  { by rewrite <- size_dom, Hdom, list_to_set_remove_dups. }
  pose proof (length_remove_dups_le (Py.lower <$> dataset_words df)) as Hle.
  rewrite length_fmap in Hle.
  split; [reflexivity|]. split.
  { intros w i Hw. split; [by apply Hback|]. by eapply Hbelow, Hback. }
  split.
  { intros w. by rewrite <- elem_of_dom, Hdom, elem_of_list_to_set. }
  split; [lia|]. split; [lia|]. split; [done|]. split; [lia|].
  intros Hdup. rewrite Hsaved, Hlen. cbn.
  destruct (decide (length (remove_dups (Py.lower <$> dataset_words df))
                    = length (Py.lower <$> dataset_words df))) as [Heq|Hne].
  - by apply length_remove_dups_eq in Heq.
  - rewrite length_fmap in Hne. lia.
Qed.

Lemma balay_model_trained : trained balay_model.
Proof.
  split; [reflexivity|]. intros w v H. unfold balay_model in H. cbn [vectors] in H.
  apply lookup_singleton_Some in H as [_ <-]. reflexivity.
Qed.

Lemma index_tables_round_trip_witness :
  exists t,
    create_embedding_model balay_model balay_twice = Ok t
    /\ (forall w i, word_to_index t !! w = Some i ->
          index_to_word t !! i = Some w /\ i < length balay_twice)
    /\ (forall w, is_Some (word_to_index t !! w)
                  <-> w ∈ Py.lower <$> dataset_words balay_twice)
    /\ layer_vocab_size t = length (dataset_words balay_twice)
    /\ size (index_to_word t) = layer_vocab_size t
    /\ saved_vocab_size t = length (remove_dups (Py.lower <$> dataset_words balay_twice))
    /\ saved_vocab_size t <= layer_vocab_size t
    /\ (~ NoDup (Py.lower <$> dataset_words balay_twice) ->
        saved_vocab_size t < layer_vocab_size t).
Proof.
  apply (index_tables_round_trip balay_model balay_twice).
  split; [reflexivity|]. intros w v H. unfold balay_model in H. cbn [vectors] in H.
  apply lookup_singleton_Some in H as [_ <-]. reflexivity.
Defined.

(** While no row is skipped the turn number is the length of
    [embeddings_list], so the row of the matrix at an index of
    [index_to_word] is the embedding of the word stored there. *)
Lemma index_rows_aligned (wv : keyed_vectors) (df : list df_row) :
  trained wv ->
  Forall (fun row => kept (Py.strip (str (Bisaya row))) = true) df ->
  forall (idx : nat) (acc : index_tables),
  idx = length (embeddings_list acc) ->
  (forall i w, index_to_word acc !! i = Some w ->
     exists e, embeddings_list acc !! i = Some e
               /\ get_or_create_embedding wv 100 w = Ok e) ->
  forall t, index_rows wv idx df acc = Ok t ->
  forall i w, index_to_word t !! i = Some w ->
    exists e, embeddings_list t !! i = Some e /\ get_or_create_embedding wv 100 w = Ok e.
Proof.
  intros Hwv. induction df as [|row df IH]; intros Hall idx acc Hidx Hacc t Hrun.
  - cbn in Hrun. by injection Hrun as <-.
  - inversion Hall as [|? ? Hkept Hrest]; subst.
    cbn [index_rows] in Hrun.
    destruct (index_row_kept wv (length (embeddings_list acc)) row acc Hwv Hkept)
      as (embedding & Hembed & Hrow).
    rewrite Hrow, bind_ok in Hrun.
    eapply (IH Hrest _ _ _ _ t Hrun). Unshelve.
    + cbn [embeddings_list]. rewrite length_app. cbn. lia.
    + cbn [index_to_word embeddings_list]. intros i w.
      destruct (decide (length (embeddings_list acc) = i)) as [<-|Hne].
      * rewrite lookup_insert_eq. intros [= <-]. exists embedding.
        split; [|done]. by rewrite list_lookup_middle.
      * rewrite lookup_insert_ne by done. intros (e & He & Hw)%Hacc.
        exists e. split; [|done]. by rewrite lookup_app_l by by eapply lookup_lt_Some.
Qed.

(** X16. When no row of the data frame is skipped, the tables agree with
    the embedding matrix: the index stored for a word is a row of the
    matrix, and that row is the embedding of the word. *)
Theorem index_tables_aligned (wv : keyed_vectors) (df : list df_row) :
  trained wv ->
  Forall (fun row => kept (Py.strip (str (Bisaya row))) = true) df ->
  exists t,
    create_embedding_model wv df = Ok t
    /\ layer_vocab_size t = length df
    /\ forall w i, word_to_index t !! w = Some i ->
         exists e, embeddings_list t !! i = Some e
                   /\ get_or_create_embedding wv 100 w = Ok e.
Proof.
  intros Hwv Hall. unfold create_embedding_model.
  destruct (index_rows_spec wv df Hwv 0 (IndexTables ∅ ∅ []))
    as (t & Hrun & Hback & _ & _ & Hlen & _); [done|done|].
  exists t. split; [done|]. split.
  - unfold layer_vocab_size. rewrite Hlen. cbn [embeddings_list length].
    rewrite Nat.add_0_l. clear -Hall.
    induction Hall as [|row df Hkept _ IH]; [done|].
    rewrite dataset_words_cons, Hkept. cbn [length]. by rewrite IH.
  - intros w i Hw%Hback.
    by eapply (index_rows_aligned wv df Hwv Hall 0 (IndexTables ∅ ∅ [])).
Qed.

Lemma index_rows_app (wv : keyed_vectors) (first rest : list df_row) :
  forall (idx : nat) (acc : index_tables),
  index_rows wv idx (first ++ rest) acc
  = t ← index_rows wv idx first acc; index_rows wv (idx + length first) rest t.
Proof.
  induction first as [|row first IH]; intros idx acc.
  - cbn [app index_rows length]. by rewrite bind_ok, Nat.add_0_r.
  - cbn [app index_rows length]. destruct (index_row wv idx row acc) as [acc'|e].
    + rewrite !bind_ok, IH. by rewrite Nat.add_succ_r.
    + reflexivity.
Qed.

(** X17. The index of a word is the position of its row in the data
    frame, but the matrix has rows for the kept rows only. After a
    skipped row the two drift apart: if some row before the last is
    skipped and the last row is kept, the index stored for the last word
    is not a row of the embedding matrix. *)
Theorem skipped_row_breaks_index (wv : keyed_vectors) (first : list df_row) (row : df_row) :
  trained wv ->
  Exists (fun r => kept (Py.strip (str (Bisaya r))) = false) first ->
  kept (Py.strip (str (Bisaya row))) = true ->
  exists t,
    create_embedding_model wv (first ++ [row]) = Ok t
    /\ word_to_index t !! Py.lower (Py.strip (str (Bisaya row))) = Some (length first)
    /\ layer_vocab_size t <= length first
    /\ embeddings_list t !! length first = None.
Proof.
  intros Hwv Hskip Hkept. unfold create_embedding_model.
  rewrite index_rows_app.
  destruct (index_rows_spec wv first Hwv 0 (IndexTables ∅ ∅ []))
    as (t & -> & _ & _ & _ & Hlen & _); [done|done|].
  rewrite bind_ok. cbn [index_rows Nat.add].
  destruct (index_row_kept wv (length first) row t Hwv Hkept) as (embedding & _ & ->).
  rewrite !bind_ok. eexists. split; [reflexivity|].
  cbn [word_to_index embeddings_list layer_vocab_size length] in *.
  rewrite lookup_insert_eq. split; [done|].
  assert (Hshort : length (dataset_words first) < length first).
  { clear -Hskip. induction Hskip as [r l Hr|r l _ IH].
    - rewrite dataset_words_cons, Hr. cbn [length].
      unfold dataset_words. pose proof (length_filter (fun b => kept b = true)
        ((fun row => Py.strip (str (Bisaya row))) <$> l)) as H.
      rewrite length_fmap in H. lia.
    - rewrite dataset_words_cons. destruct (kept _); cbn [length]; lia. }
  unfold layer_vocab_size. cbn [embeddings_list].
  rewrite length_app. cbn [length]. split; [lia|].
  apply lookup_ge_None_2. rewrite length_app. cbn [length]. lia.
Qed.

Lemma index_tables_aligned_witness :
  exists t,
    create_embedding_model balay_model balay_twice = Ok t
    /\ layer_vocab_size t = length balay_twice
    /\ forall w i, word_to_index t !! w = Some i ->
         exists e, embeddings_list t !! i = Some e
                   /\ get_or_create_embedding balay_model 100 w = Ok e.
Proof.
  apply (index_tables_aligned balay_model balay_twice); [apply balay_model_trained|].
  repeat constructor.
Defined.

Lemma skipped_row_breaks_index_witness :
  exists t,
    create_embedding_model balay_model
      ([Row NaN NaN NaN NaN NaN NaN] ++ [word_row "balay" "house"]) = Ok t
    /\ word_to_index t !! Py.lower (Py.strip (str (Bisaya (word_row "balay" "house"))))
       = Some (length [Row NaN NaN NaN NaN NaN NaN])
    /\ layer_vocab_size t <= length [Row NaN NaN NaN NaN NaN NaN]
    /\ embeddings_list t !! length [Row NaN NaN NaN NaN NaN NaN] = None.
Proof.
  apply (skipped_row_breaks_index balay_model
           [Row NaN NaN NaN NaN NaN NaN] (word_row "balay" "house"));
    [apply balay_model_trained| |reflexivity].
  apply Exists_cons_hd. reflexivity.
Defined.

(** *** The neighbour tables *)

Section Tables.

Variable cosine : vec -> vec -> Q.

(** Row [i] gets a score for every other row. *)
Lemma similarities_from_length (i : nat) (v : vec) (rows : list (string * vec)) :
  forall j,
  length (similarities_from cosine i v j rows)
  = if bool_decide (j <= i < j + length rows) then length rows - 1 else length rows.
Proof.
  induction rows as [|[w u] rows IH]; intros j; cbn [similarities_from length].
  - case_bool_decide; lia.
  - destruct (Nat.eqb_spec i j) as [->|Hne]; cbn [negb length]; rewrite IH.
    + rewrite bool_decide_eq_false_2 by lia. rewrite bool_decide_eq_true_2 by lia. lia.
    + repeat case_bool_decide; lia.
Qed.

Lemma length_sort_desc (l : list (string * Q)) : length (sort_desc l) = length l.
Proof. apply Permutation_length, sort_desc_perm. Qed.

(** With distinct words, the list kept for row [i] has ten entries, or
    one per other row when there are fewer, all of them words of the
    table. *)
Lemma top_ten_count (rows : list (string * vec)) (i : nat) (word : string) (v : vec) :
  NoDup rows.*1 -> rows !! i = Some (word, v) ->
  length (top_ten cosine rows i v) = 10 `min` (length rows - 1)
  /\ forall w, w ∈ keys (top_ten cosine rows i v) -> w ∈ rows.*1.
Proof.
  intros Hnd Hi. unfold top_ten.
  set (sims := similarities_from cosine i v 0 rows).
  assert (Hsims : NoDup sims.*1).
  { apply (sublist_NoDup sims.*1 rows.*1); [done|apply similarities_from_sublist]. }
  assert (Htake : NoDup (take 10 (sort_desc sims)).*1).
  { rewrite fmap_take.
    apply (sublist_NoDup (take 10 (sort_desc sims).*1) (sort_desc sims).*1);
      [by rewrite (sort_desc_perm sims)|apply sublist_take]. }
  rewrite dict_of_list_NoDup by done. split.
  - rewrite length_take, length_sort_desc. unfold sims.
    rewrite similarities_from_length.
    apply lookup_lt_Some in Hi. rewrite bool_decide_eq_true_2 by lia. done.
  - intros w. unfold keys. rewrite fmap_take. intros Hin%subseteq_take.
    rewrite (sort_desc_perm sims) in Hin.
    by apply (sublist_subseteq _ _ (similarities_from_sublist cosine i v rows 0)).
Qed.

Lemma keys_top_similar_from (rows : list (string * vec)) :
  forall todo i acc x,
  x ∈ keys (top_similar_from cosine rows i todo acc) <-> x ∈ keys acc \/ x ∈ todo.*1.
Proof.
  induction todo as [|[w v] todo IH]; intros i acc x; cbn [top_similar_from].
  - cbn. rewrite elem_of_nil. tauto.
  - rewrite IH, elem_of_keys_dict_set. cbn. rewrite elem_of_cons. tauto.
Qed.

Lemma NoDup_keys_top_similar_from (rows : list (string * vec)) :
  forall todo i acc,
  NoDup (keys acc) -> NoDup (keys (top_similar_from cosine rows i todo acc)).
Proof.
  induction todo as [|[w v] todo IH]; intros i acc Hacc; cbn [top_similar_from]; [done|].
  by apply IH, NoDup_keys_dict_set.
Qed.

(** X18. The JSON trainer's neighbour table, for a trained model: it has
    one list per key of [embeddings]; the list of a word holds ten words,
    or all the other words when the vocabulary has fewer than eleven; they
    are words of the vocabulary other than the word itself, in
    non-increasing order of score. *)
Theorem json_bundle_neighbours (wv : keyed_vectors) (df : list df_row) :
  trained wv ->
  exists bundle,
    json_bundle cosine wv df = Ok bundle
    /\ NoDup (keys (similarity_of bundle))
    /\ (forall word, word ∈ keys (similarity_of bundle)
                     <-> word ∈ keys (embeddings_of bundle))
    /\ forall word nb, dict_get (similarity_of bundle) word = Some nb ->
         length nb = 10 `min` (vocab_size bundle - 1)
         /\ (word ∉ keys nb)
         /\ (forall w, w ∈ keys nb -> w ∈ keys (embeddings_of bundle))
         /\ sorted_desc nb.
Proof.
  intros Hwv. unfold json_bundle, generate_embeddings.
  destruct (embed_rows_spec wv df Hwv [] []) as
    (embeddings & metadata_list & -> & Hnd & _); [apply NoDup_nil_2 | intros k v [=] |].
  rewrite bind_ok. unfold calculate_similarity_matrix. cbv zeta.
  destruct (mapM_dict_item embeddings (keys embeddings)) as (vs & -> & Hlen); [done|].
  rewrite !bind_ok.
  assert (Hfst : (zip (keys embeddings) vs).*1 = keys embeddings)
    by (rewrite fst_zip; [done|lia]).
  assert (Hrows : length (zip (keys embeddings) vs) = length embeddings).
  { rewrite <- (length_fmap fst), Hfst. unfold keys. by rewrite length_fmap. }
  destruct (length vs =? 0)%nat eqn:Hvs.
  - rewrite bind_ok. eexists. split; [reflexivity|].
    cbn [similarity_of embeddings_of vocab_size save_model].
    apply Nat.eqb_eq in Hvs. split; [apply NoDup_nil_2|]. split; [|by intros ? ? [=]].
    intros word. destruct embeddings; [done|]. cbn in Hlen. lia.
  - rewrite bind_ok. eexists. split; [reflexivity|].
    cbn [similarity_of embeddings_of vocab_size save_model].
    split; [apply NoDup_keys_top_similar_from, NoDup_nil_2|]. split.
    + intros word. rewrite keys_top_similar_from, Hfst. cbn. rewrite elem_of_nil. tauto.
    + intros word nb Hget.
      apply top_similar_from_spec in Hget as [Hget | (j & v & Hj & ->)]; [done| |done].
      assert (Hnd' : NoDup (zip (keys embeddings) vs).*1) by by rewrite Hfst.
      destruct (top_ten_spec cosine _ j word v Hnd' Hj) as (_ & Hself & Hsorted).
      destruct (top_ten_count _ j word v Hnd' Hj) as (Hcount & Hkeys).
      rewrite Hrows, Hfst in *. done.
Qed.

End Tables.

Lemma json_bundle_neighbours_witness :
  exists bundle,
    json_bundle dot balay_model balay_twice = Ok bundle
    /\ NoDup (keys (similarity_of bundle))
    /\ (forall word, word ∈ keys (similarity_of bundle)
                     <-> word ∈ keys (embeddings_of bundle))
    /\ forall word nb, dict_get (similarity_of bundle) word = Some nb ->
         length nb = 10 `min` (vocab_size bundle - 1)
         /\ (word ∉ keys nb)
         /\ (forall w, w ∈ keys nb -> w ∈ keys (embeddings_of bundle))
         /\ sorted_desc nb.
Proof.
  apply (json_bundle_neighbours dot balay_model balay_twice). apply balay_model_trained.
Defined.

Section Variants.

Variable cosine : vec -> vec -> Q.

(** train_tflite_model.py: the words of the table are the lower-cased
    words of the data set that the model knows, one per row, in order;
    collecting them never raises. *)
Lemma collect_words_spec (wv : keyed_vectors) (df : list df_row) :
  exists rows,
    collect_words wv df = Ok rows
    /\ rows.*1 = filter (fun w => in_vocab wv w = true) (Py.lower <$> dataset_words df).
Proof.
  induction df as [|row df (rows & IH & Hrows)]; [by exists []|].
  cbn [collect_words]. rewrite dataset_words_cons. cbv zeta.
  destruct (kept (Py.strip (str (Bisaya row)))); [|by exists rows].
  rewrite fmap_cons.
  destruct (in_vocab wv (Py.lower (Py.strip (str (Bisaya row))))) eqn:Hin.
  - rewrite filter_cons_True by done.
    pose proof Hin as [v Hv]%in_vocab_true.
    unfold wv_item. rewrite Hv, bind_ok, IH, bind_ok.
    eexists. split; [reflexivity|]. cbn. by rewrite Hrows.
  - rewrite filter_cons_False by by rewrite Hin. by exists rows.
Qed.

(** X19. The tflite trainer's neighbour table never raises and has a list
    for exactly the lower-cased words of the data set that the model
    knows. When no two rows share a lower-cased word, the list of a word
    holds ten words, or all the other words of the table when there are
    fewer than eleven; they are words of the table other than the word
    itself, in non-increasing order of score. *)
Theorem tflite_neighbours_distinct (wv : keyed_vectors) (df : list df_row) :
  exists similarity,
    calculate_similarity_matrix_tflite cosine wv df = Ok similarity
    /\ (forall word, word ∈ keys similarity
          <-> word ∈ Py.lower <$> dataset_words df /\ in_vocab wv word = true)
    /\ (NoDup (Py.lower <$> dataset_words df) ->
        forall word nb, dict_get similarity word = Some nb ->
          length nb
          = 10 `min` (length (filter (fun w => in_vocab wv w = true)
                                (Py.lower <$> dataset_words df)) - 1)
          /\ length nb <= 10
          /\ (word ∉ keys nb)
          /\ (forall w, w ∈ keys nb -> w ∈ keys similarity)
          /\ sorted_desc nb).
Proof.
  unfold calculate_similarity_matrix_tflite.
  destruct (collect_words_spec wv df) as (rows & -> & Hrows). rewrite bind_ok.
  assert (Hin : forall word, word ∈ rows.*1
            <-> word ∈ Py.lower <$> dataset_words df /\ in_vocab wv word = true).
  { intros word. rewrite Hrows, list_elem_of_filter. tauto. }
  destruct (length rows =? 0)%nat eqn:Hlen.
  - apply Nat.eqb_eq, nil_length_inv in Hlen. subst rows.
    exists []. split; [reflexivity|]. split; [|by intros _ ? ? [=]].
    intros word. rewrite <- Hin. done.
  - eexists. split; [reflexivity|].
    assert (Hkeys : forall word,
               word ∈ keys (top_similar_from cosine rows 0 rows []) <-> word ∈ rows.*1).
    { intros word. rewrite keys_top_similar_from. cbn. rewrite elem_of_nil. tauto. }
    split.
    + intros word. by rewrite Hkeys, <- Hin.
    + intros Hnd word nb Hget.
      apply top_similar_from_spec in Hget as [Hget | (j & v & Hj & ->)]; [done| |done].
      assert (Hnd' : NoDup rows.*1) by (rewrite Hrows; by apply NoDup_filter).
      destruct (top_ten_spec cosine rows j word v Hnd' Hj) as (Hten & Hself & Hsorted).
      destruct (top_ten_count cosine rows j word v Hnd' Hj) as (Hcount & Hwords).
      rewrite <- Hrows, length_fmap. split; [done|]. split; [done|]. split; [done|].
      split; [|done]. intros w Hw. apply Hkeys. by apply Hwords.
Qed.

Lemma embed_rows_none (wv : keyed_vectors) (df : list df_row) :
  dataset_words df = [] ->
  forall acc, embed_rows wv df acc = Ok acc.
Proof.
  induction df as [|row df IH]; intros Hnone [embeddings metadata_list]; [done|].
  rewrite dataset_words_cons in Hnone. cbn [embed_rows]. unfold embed_row.
  destruct (kept (Py.strip (str (Bisaya row)))); [done|].
  cbn [negb]. rewrite bind_ok. by apply IH.
Qed.

Lemma embed_rows_v1_none (wv : keyed_vectors) (df : list df_row) :
  dataset_words df = [] ->
  forall acc, embed_rows_v1 wv df acc = Ok acc.
Proof.
  induction df as [|row df IH]; intros Hnone [embeddings metadata]; [done|].
  rewrite dataset_words_cons in Hnone. cbn [embed_rows_v1]. unfold embed_row_v1.
  cbv zeta. destruct (kept (Py.strip (str (Bisaya row)))); [done|].
  rewrite bind_ok. by apply IH.
Qed.

(** X20. When no row of the data frame has a usable Bisaya word (every
    Bisaya cell is empty, blank or 'nan') the trainers part ways after
    training: train_model.py stops with [ValueError] in
    [calculate_similarity_matrix], which has no test for an empty
    vocabulary, while train_json_model.py builds an empty bundle and the
    tflite table is empty. *)
Theorem no_words_value_error (wv : keyed_vectors) (df : list df_row) :
  dataset_words df = [] ->
  model_bundle_v1 cosine wv df = Raise ValueError
  /\ json_bundle cosine wv df = Ok (save_model [] [] [])
  /\ calculate_similarity_matrix_tflite cosine wv df = Ok [].
Proof.
  intros Hnone. split; [|split].
  - unfold model_bundle_v1, generate_embeddings_v1. by rewrite embed_rows_v1_none.
  - unfold json_bundle, generate_embeddings. by rewrite embed_rows_none.
  - unfold calculate_similarity_matrix_tflite.
    destruct (collect_words_spec wv df) as (rows & -> & Hrows).
    rewrite Hnone in Hrows. cbn in Hrows. apply fmap_nil_inv in Hrows. by subst.
Qed.

End Variants.

Lemma no_words_value_error_witness :
  model_bundle_v1 dot balay_model [Row NaN NaN NaN NaN NaN NaN] = Raise ValueError
  /\ json_bundle dot balay_model [Row NaN NaN NaN NaN NaN NaN] = Ok (save_model [] [] [])
  /\ calculate_similarity_matrix_tflite dot balay_model [Row NaN NaN NaN NaN NaN NaN] = Ok [].
Proof.
  apply (no_words_value_error dot balay_model [Row NaN NaN NaN NaN NaN NaN]). reflexivity.
Defined.

(** Two distinct words that the model knows: each is the one neighbour of
    the other. *)
Lemma tflite_neighbours_distinct_witness :
  NoDup (Py.lower <$> dataset_words [word_row "Balay" "house"; word_row "Iro" "dog"])
  /\ exists similarity,
    calculate_similarity_matrix_tflite dot balay_iro_model
      [word_row "Balay" "house"; word_row "Iro" "dog"]
    = Ok similarity
    /\ similarity = [("balay", [("iro", dot (replicate 100 1%Q) (replicate 100 2%Q))]);
                    ("iro", [("balay", dot (replicate 100 2%Q) (replicate 100 1%Q))])]
    /\ (forall word, word ∈ keys similarity
          <-> word ∈ Py.lower <$> dataset_words [word_row "Balay" "house"; word_row "Iro" "dog"]
              /\ in_vocab balay_iro_model word = true)
    /\ (NoDup (Py.lower <$> dataset_words [word_row "Balay" "house"; word_row "Iro" "dog"]) ->
        forall word nb, dict_get similarity word = Some nb ->
          length nb
          = 10 `min` (length (filter (fun w => in_vocab balay_iro_model w = true)
                                (Py.lower <$> dataset_words
                                   [word_row "Balay" "house"; word_row "Iro" "dog"])) - 1)
          /\ length nb <= 10
          /\ (word ∉ keys nb)
          /\ (forall w, w ∈ keys nb -> w ∈ keys similarity)
          /\ sorted_desc nb).
Proof.
  split.
  { change (NoDup ["balay"; "iro"]). apply NoDup_cons. split; [|apply NoDup_singleton].
    rewrite list_elem_of_singleton. discriminate. }
  destruct (tflite_neighbours_distinct dot balay_iro_model
              [word_row "Balay" "house"; word_row "Iro" "dog"])
    as (similarity & Hrun & Hkeys & Hlists).
  exists similarity. split; [done|]. split; [|by split].
  vm_compute in Hrun. injection Hrun as <-. reflexivity.
Defined.

(** *** train_model.py against train_json_model.py *)

Lemma keys_dict_set_same {V W} (k : string) (v : V) (w : W) (d1 : pydict V) :
  forall d2 : pydict W,
  keys d1 = keys d2 -> keys (dict_set k v d1) = keys (dict_set k w d2).
Proof.
  unfold keys. induction d1 as [|[k1 v1] d1 IH]; intros [|[k2 v2] d2] Hkeys;
    cbn in Hkeys; try discriminate; [done|].
  injection Hkeys as -> Hkeys. cbn [dict_set].
  destruct (String.eqb k2 k); cbn; [by rewrite Hkeys|]. f_equal. by apply IH.
Qed.

Lemma embed_rows_v1_spec (wv : keyed_vectors) (df : list df_row) :
  trained wv ->
  forall (embeddings : pydict vec) (metadata : pydict word_meta)
         (metadata_list : list word_meta),
  keys metadata = keys embeddings ->
  (forall word m, dict_get metadata word = Some m -> Py.lower (meta_bisaya m) = word) ->
  exists embeddings' metadata' metadata_list',
    embed_rows_v1 wv df (embeddings, metadata) = Ok (embeddings', metadata')
    /\ embed_rows wv df (embeddings, metadata_list) = Ok (embeddings', metadata_list')
    /\ keys metadata' = keys embeddings'
    /\ (forall word m, dict_get metadata' word = Some m ->
          Py.lower (meta_bisaya m) = word).
Proof.
  intros Hwv. induction df as [|row df IH];
    intros embeddings metadata metadata_list Hkeys Hmeta.
  - by exists embeddings, metadata, metadata_list.
  - cbn [embed_rows_v1 embed_rows]. unfold embed_row_v1, embed_row. cbv zeta.
    destruct (kept (Py.strip (str (Bisaya row)))); cbn [negb].
    + destruct Hwv as [Hsize Hvec]. rewrite Hsize.
      destruct (get_or_create_embedding_spec wv 100
                  (Py.lower (Py.strip (str (Bisaya row)))) (conj Hsize Hvec)
                  (or_introl eq_refl)) as (embedding & -> & _).
      rewrite !bind_ok. apply IH.
      * by apply keys_dict_set_same.
      * intros word m.
        destruct (decide (Py.lower (Py.strip (str (Bisaya row))) = word)) as [<-|Hne].
        -- rewrite dict_get_set_eq. by intros [= <-].
        -- rewrite dict_get_set_ne by done. apply Hmeta.
    + rewrite !bind_ok. by apply IH.
Qed.

(** X21. For a trained model train_model.py and train_json_model.py
    compute the same [embeddings] dict from the same data frame. In
    train_model.py [metadata] has the keys of [embeddings], in the same
    order, and the entry of a key holds a spelling of that word: the one
    of the last row that has it. *)
Theorem generate_embeddings_v1_agree (wv : keyed_vectors) (df : list df_row) :
  trained wv ->
  exists embeddings metadata metadata_list,
    generate_embeddings_v1 wv df = Ok (embeddings, metadata)
    /\ generate_embeddings wv df = Ok (embeddings, metadata_list)
    /\ keys metadata = keys embeddings
    /\ (forall word m, dict_get metadata word = Some m ->
          Py.lower (meta_bisaya m) = word).
Proof.
  intros Hwv. unfold generate_embeddings_v1, generate_embeddings.
  apply (embed_rows_v1_spec wv df Hwv [] [] []); [done|by intros ? ? [=]].
Qed.

Lemma generate_embeddings_v1_agree_witness :
  exists embeddings metadata metadata_list,
    generate_embeddings_v1 balay_model balay_twice = Ok (embeddings, metadata)
    /\ generate_embeddings balay_model balay_twice = Ok (embeddings, metadata_list)
    /\ keys metadata = keys embeddings
    /\ (forall word m, dict_get metadata word = Some m ->
          Py.lower (meta_bisaya m) = word).
Proof.
  apply (generate_embeddings_v1_agree balay_model balay_twice). apply balay_model_trained.
Defined.

Section Agree.

Variable cosine : vec -> vec -> Q.

(** With distinct words, the intermediate dict of train_model.py holds
    for the word of row [j] the scores gathered for row [j]. *)
Lemma similarity_dict_from_get (rows : list (string * vec)) :
  NoDup rows.*1 ->
  forall todo i acc j word v,
  skipn i rows = todo -> rows !! j = Some (word, v) ->
  (j < i -> dict_get acc word = Some (all_scores cosine rows j v)) ->
  dict_get (similarity_dict_from cosine rows i todo acc) word
  = Some (all_scores cosine rows j v).
Proof.
  intros Hnd. induction todo as [|[w u] todo IH]; intros i acc j word v Hdrop Hj Hacc.
  - cbn [similarity_dict_from]. apply Hacc.
    apply lookup_lt_Some in Hj.
    assert (length (skipn i rows) = 0) as Hlen by by rewrite Hdrop.
    rewrite length_skipn in Hlen. lia.
  - cbn [similarity_dict_from].
    assert (Hi : rows !! i = Some (w, u)).
    { rewrite <- (Nat.add_0_r i), <- lookup_drop, Hdrop. done. }
    apply (IH (S i)); [|done|].
    + erewrite drop_S in Hdrop by done. by injection Hdrop.
    + intros Hlt. destruct (decide (j = i)) as [->|Hne].
      * rewrite Hi in Hj. injection Hj as -> ->. apply dict_get_set_eq.
      * rewrite dict_get_set_ne; [apply Hacc; lia|].
        intros ->. apply Hne. eapply (NoDup_lookup rows.*1 j i word); [done| |].
        -- by rewrite list_lookup_fmap, Hj.
        -- by rewrite list_lookup_fmap, Hi.
Qed.

(** Cutting each of those lists to its ten best gives the table that
    train_json_model.py builds in one loop. *)
Lemma top_of_each_spec (rows : list (string * vec)) (similarity_dict : pydict (pydict Q)) :
  NoDup rows.*1 ->
  (forall j word v, rows !! j = Some (word, v) ->
     dict_get similarity_dict word = Some (all_scores cosine rows j v)) ->
  forall todo i acc,
  skipn i rows = todo ->
  top_of_each similarity_dict todo.*1 acc = Ok (top_similar_from cosine rows i todo acc).
Proof.
  intros Hnd Hsd. induction todo as [|[w u] todo IH]; intros i acc Hdrop; [done|].
  cbn [fmap list_fmap top_of_each top_similar_from fst].
  assert (Hi : rows !! i = Some (w, u)).
  { rewrite <- (Nat.add_0_r i), <- lookup_drop, Hdrop. done. }
  unfold dict_item. rewrite (Hsd i w u Hi), bind_ok. cbv zeta.
  assert (Hscores : all_scores cosine rows i u = similarities_from cosine i u 0 rows).
  { unfold all_scores. apply dict_of_list_NoDup.
    apply (sublist_NoDup _ rows.*1); [done|apply similarities_from_sublist]. }
  rewrite Hscores. fold (top_ten cosine rows i u).
  apply (IH (S i)). erewrite drop_S in Hdrop by done. by injection Hdrop.
Qed.

Lemma calculate_similarity_matrix_v1_eq (embeddings : pydict vec) :
  NoDup (keys embeddings) -> embeddings <> [] ->
  calculate_similarity_matrix_v1 cosine embeddings
  = calculate_similarity_matrix cosine embeddings.
Proof.
  intros Hnd Hne. unfold calculate_similarity_matrix_v1, calculate_similarity_matrix.
  cbv zeta.
  destruct (mapM_dict_item embeddings (keys embeddings)) as (vs & -> & Hlen); [done|].
  rewrite !bind_ok.
  assert (Hfst : (zip (keys embeddings) vs).*1 = keys embeddings)
    by (rewrite fst_zip; [done|lia]).
  assert ((length vs =? 0)%nat = false) as ->.
  { apply Nat.eqb_neq. rewrite Hlen. destruct embeddings; [done|]. cbn. lia. }
  rewrite <- Hfst at 3.
  apply (top_of_each_spec (zip (keys embeddings) vs)); [by rewrite Hfst| |done].
  intros j word v Hj.
  apply (similarity_dict_from_get (zip (keys embeddings) vs)); [by rewrite Hfst|done|done|lia].
Qed.

(** X22. On a dict of embeddings that is not empty,
    [calculate_similarity_matrix] of train_model.py, which goes through a
    dict of all scores per word, returns the same table as the one of
    train_json_model.py. (The keys of a dict are distinct.) *)
Theorem similarity_v1_agree (embeddings : pydict vec) :
  NoDup (keys embeddings) -> embeddings <> [] ->
  calculate_similarity_matrix_v1 cosine embeddings
  = calculate_similarity_matrix cosine embeddings.
Proof. intros Hnd Hne. by apply calculate_similarity_matrix_v1_eq. Qed.

End Agree.

Lemma similarity_v1_agree_witness :
  calculate_similarity_matrix_v1 dot [("balay", [1%Q]); ("iro", [2%Q])]
  = calculate_similarity_matrix dot [("balay", [1%Q]); ("iro", [2%Q])].
Proof.
  apply (similarity_v1_agree dot [("balay", [1%Q]); ("iro", [2%Q])]).
  - apply NoDup_cons. split; [|apply NoDup_singleton].
    rewrite list_elem_of_singleton. discriminate.
  - discriminate.
Defined.

Section Pipelines.

Variable cosine : vec -> vec -> Q.

(** X23. For a trained model and a data frame with at least one usable
    Bisaya word, the pipelines of train_model.py and train_json_model.py
    both run to the end and write the same embeddings and the same
    neighbour table; [total_words] of the one is [vocab_size] of the
    other. *)
Theorem bundles_agree (wv : keyed_vectors) (df : list df_row) :
  trained wv -> dataset_words df <> [] ->
  exists bundle_v1 bundle,
    model_bundle_v1 cosine wv df = Ok bundle_v1
    /\ json_bundle cosine wv df = Ok bundle
    /\ v1_embeddings bundle_v1 = embeddings_of bundle
    /\ v1_similarity bundle_v1 = similarity_of bundle
    /\ v1_total_words bundle_v1 = vocab_size bundle
    /\ 0 < vocab_size bundle.
Proof.
  intros Hwv Hwords. unfold model_bundle_v1, json_bundle.
  destruct (embed_rows_v1_spec wv df Hwv [] [] []) as
    (embeddings & metadata & metadata_list & Hv1 & Hjson & _); [done|by intros ? ? [=]|].
  destruct (embed_rows_spec wv df Hwv [] []) as
    (embeddings' & metadata_list' & Hjson' & Hnd & _ & Hkeys & _);
    [apply NoDup_nil_2 | intros k v [=] |].
  rewrite Hjson in Hjson'. injection Hjson' as <- <-.
  unfold generate_embeddings_v1, generate_embeddings. rewrite Hv1, Hjson, !bind_ok.
  assert (Hne : embeddings <> []).
  { intros ->. destruct (dataset_words df) as [|word words]; [done|].
    specialize (Hkeys (Py.lower word)). cbn in Hkeys.
    rewrite elem_of_nil, elem_of_cons in Hkeys. tauto. }
  rewrite (calculate_similarity_matrix_v1_eq cosine embeddings Hnd Hne).
  destruct (calculate_similarity_matrix_ok cosine embeddings) as [similarity ->].
  rewrite !bind_ok. eexists _, _. split; [reflexivity|]. split; [reflexivity|].
  cbn. split; [done|]. split; [done|]. split; [done|].
  destruct embeddings; [done|]. cbn. lia.
Qed.

End Pipelines.

Lemma bundles_agree_witness :
  exists bundle_v1 bundle,
    model_bundle_v1 dot balay_model balay_twice = Ok bundle_v1
    /\ json_bundle dot balay_model balay_twice = Ok bundle
    /\ v1_embeddings bundle_v1 = embeddings_of bundle
    /\ v1_similarity bundle_v1 = similarity_of bundle
    /\ v1_total_words bundle_v1 = vocab_size bundle
    /\ 0 < vocab_size bundle.
Proof.
  apply (bundles_agree dot balay_model balay_twice); [apply balay_model_trained|].
  vm_compute. discriminate.
Defined.

(** *** What the training sentences cover *)

Lemma is_space_lower_char (c : ascii) : is_space (lower_char c) = is_space c.
Proof. by destruct c as [[] [] [] [] [] [] [] []]. Qed.

Lemma lower_lstrip (s : string) : lower (lstrip s) = lstrip (lower s).
Proof.
  induction s as [|c s IH]; [done|]. cbn [lstrip lower].
  rewrite is_space_lower_char. by destruct (is_space c).
Qed.

Lemma lower_rstrip (s : string) : lower (rstrip s) = rstrip (lower s).
Proof.
  induction s as [|c s IH]; [done|]. cbn [rstrip lower]. rewrite <- IH.
  destruct (rstrip s); cbn [lower]; [|done].
  rewrite is_space_lower_char. by destruct (is_space c).
Qed.

Lemma lower_strip (s : string) : lower (strip s) = strip (lower s).
Proof. unfold strip. by rewrite lower_rstrip, lower_lstrip. Qed.

Lemma words_go_lstrip (s : string) : words_go None (lstrip s) = words_go None s.
Proof.
  induction s as [|c s IH]; [done|]. cbn [lstrip].
  destruct (is_space c) eqn:Hc; cbn [words_go]; rewrite Hc; [|done].
  by rewrite IH.
Qed.

Lemma words_go_cons (cur : option string) (c : ascii) (s : string) :
  words_go cur (String c s)
  = if is_space c then option_list (String.rev <$> cur) ++ words_go None s
    else words_go (Some (String c (default EmptyString cur))) s.
Proof. reflexivity. Qed.

Lemma words_go_rstrip (s : string) :
  forall cur, words_go cur (rstrip s) = words_go cur s.
Proof.
  induction s as [|c s IH]; intros cur; [done|]. cbn [rstrip].
  destruct (rstrip s) as [|a r] eqn:Hr.
  - destruct (is_space c) eqn:Hc; cbn [words_go]; rewrite ?Hc, <- IH; cbn [words_go].
    + cbn. by rewrite app_nil_r.
    + done.
  - rewrite !(words_go_cons cur c). by rewrite !IH.
Qed.

(** [s.strip().split()] is [s.split()]. *)
Lemma split_strip (s : string) : split (strip s) = split s.
Proof. unfold split, strip. by rewrite words_go_rstrip, words_go_lstrip. Qed.

Lemma words_go_Some (cur s : string) : words_go (Some cur) s <> [].
Proof.
  revert cur. induction s as [|c s IH]; intros cur; cbn [words_go]; [done|].
  destruct (is_space c); [done|]. apply IH.
Qed.

Lemma split_nil_lstrip (s : string) : split s = [] -> lstrip s = "".
Proof.
  unfold split. induction s as [|c s IH]; [done|]. cbn [words_go lstrip].
  destruct (is_space c); [by apply IH|]. by intros ?%words_go_Some.
Qed.

(** A text with something besides white space has a first token. *)
Lemma split_nonempty (s : string) : strip s <> "" -> split s <> [].
Proof. intros Hs Hsplit. apply Hs. unfold strip. by rewrite split_nil_lstrip. Qed.

Lemma found_vectors_all (wv : keyed_vectors) (words : list string) :
  Forall (fun w => in_vocab wv w = true) words ->
  length (found_vectors wv words) = length words.
Proof.
  unfold found_vectors. induction 1 as [|w words [v Hw]%in_vocab_true _ IH]; [done|].
  cbn [omap list_omap]. rewrite Hw. cbn. by rewrite IH.
Qed.

(** X24. Word2Vec is trained with [min_count=1], so its vocabulary holds
    every token of every training sentence. Then, for a kept row whose
    lower-cased Bisaya text does not start with the token 'nan', each
    token of the lower-cased word is in the vocabulary: the embedding is
    the word's own vector or the mean over all its tokens, and the
    zero-vector fallback is not reached. *)
Theorem covered_word_embedding (wv : keyed_vectors) (df : list df_row) (row : df_row) :
  trained wv ->
  covers wv (prepare_training_data df) ->
  row ∈ df ->
  kept (strip (str (Bisaya row))) = true ->
  head (split (lower (str (Bisaya row)))) <> Some "nan" ->
  let bisaya_lower := lower (strip (str (Bisaya row))) in
  split bisaya_lower <> []
  /\ Forall (fun w => in_vocab wv w = true) (split bisaya_lower)
  /\ exists embedding,
       get_or_create_embedding wv 100 bisaya_lower = Ok embedding
       /\ match vectors wv !! bisaya_lower with
          | Some v => embedding = v
          | None =>
              exists v rest,
                found_vectors wv (split bisaya_lower) = v :: rest
                /\ length (v :: rest) = length (split bisaya_lower)
                /\ forall k, k < 100 -> embedding !! k = Some (mean_at k v rest)
          end.
Proof.
  intros Hwv Hcov Hrow Hkept Hnan bisaya_lower.
  assert (Hsplit : split bisaya_lower = split (lower (str (Bisaya row)))).
  { unfold bisaya_lower. by rewrite lower_strip, split_strip. }
  assert (Hne : split bisaya_lower <> []).
  { rewrite Hsplit. apply split_nonempty. rewrite <- lower_strip.
    unfold kept in Hkept. apply andb_true_iff in Hkept as [Hkept _].
    destruct (strip (str (Bisaya row))); [done|discriminate]. }
  assert (Hall : Forall (fun w => in_vocab wv w = true) (split bisaya_lower)).
  { apply Forall_forall. intros token Htoken. rewrite Hsplit in Htoken, Hne.
    apply (Hcov (split (lower (str (Bisaya row))))); [|done].
    unfold prepare_training_data. apply list_elem_of_In, in_concat.
    exists (row_sentences row). split.
    - apply list_elem_of_In, list_elem_of_fmap. by exists row.
    - apply list_elem_of_In. unfold row_sentences. cbv zeta.
      apply elem_of_app. left. unfold sentence_of.
      destruct (split (lower (str (Bisaya row)))) as [|first rest]; [done|].
      destruct (String.eqb_spec first "nan") as [->|_]; [by destruct Hnan|].
      cbn [negb]. by apply list_elem_of_singleton. }
  split; [done|]. split; [done|].
  destruct (get_or_create_embedding_spec wv 100 bisaya_lower Hwv (or_introl eq_refl))
    as (embedding & Hembed & _ & Hcase).
  exists embedding. split; [done|].
  destruct (vectors wv !! bisaya_lower); [done|].
  pose proof (found_vectors_all wv (split bisaya_lower) Hall) as Hlen.
  destruct (found_vectors wv (split bisaya_lower)) as [|v rest].
  - destruct (split bisaya_lower); [done|discriminate].
  - by exists v, rest.
Qed.

Lemma covered_word_embedding_witness :
  let row := Row (Text " Balay ") NaN NaN NaN NaN NaN in
  let bisaya_lower := lower (strip (str (Bisaya row))) in
  split bisaya_lower <> []
  /\ Forall (fun w => in_vocab balay_model w = true) (split bisaya_lower)
  /\ exists embedding,
       get_or_create_embedding balay_model 100 bisaya_lower = Ok embedding
       /\ match vectors balay_model !! bisaya_lower with
          | Some v => embedding = v
          | None =>
              exists v rest,
                found_vectors balay_model (split bisaya_lower) = v :: rest
                /\ length (v :: rest) = length (split bisaya_lower)
                /\ forall k, k < 100 -> embedding !! k = Some (mean_at k v rest)
          end.
Proof.
  apply (covered_word_embedding balay_model [Row (Text " Balay ") NaN NaN NaN NaN NaN]
           (Row (Text " Balay ") NaN NaN NaN NaN NaN)).
  - apply balay_model_trained.
  - intros sentence token Hs Ht. vm_compute in Hs.
    apply list_elem_of_singleton in Hs. subst sentence.
    apply list_elem_of_singleton in Ht. subst token. reflexivity.
  - apply list_elem_of_singleton. reflexivity.
  - reflexivity.
  - vm_compute. discriminate.
Defined.

End TrainMore.
